(** * mcp-abap-adt: request executor, XML navigation and response transformers

    A shallow embedding of [src/lib/utils.ts] and of the metadata parser of
    [src/handlers/handleCdsOperations.ts], with the properties of the
    specification proved (or refuted) over it.

    Layout: part I holds the definitions, one module per source concern
    (the handlers of [src/handlers] and the element tree of a CDS view
    included); part II holds the lemmas and the theorems of the
    specification; part III holds further properties of the code. *)

From Stdlib Require Import ZArith Ascii String DecimalString DecimalPos List Bool Lia
  Permutation.
From stdpp Require Import base relations list strings.
From Equations Require Import Equations.

Set Warnings "-register-all".
Local Open Scope string_scope.
Local Open Scope list_scope.

(* ================================================================== *)
(** * Part I: definitions                                              *)
(* ================================================================== *)

(** ** JavaScript values

    The code works on [any]; the embedding keeps that: one type of values,
    objects as association lists in insertion order (the order [for..in]
    follows for keys that are not integer-like), arrays as lists. Numbers
    are the integer-valued doubles the code computes ([parseInt], lengths)
    and [NaN]; they are exact below 2^53. Properties inherited from
    [Object.prototype] are not modelled: a key is in an object when it is
    one of its own, and [Js.inherited] lists the names for which [in] says
    otherwise. *)

Inductive number : Type :=
| NaN
| Int (z : Z).

Inductive any : Type :=
| VUndef
| VNull
| VBool (b : bool)
| VNum (n : number)
| VStr (s : string)
| VArr (elems : list any)
| VObj (props : list (string * any)).

Module Js.

(** [ToBoolean]. *)
Definition truthy (v : any) : bool :=
  match v with
  | VUndef | VNull => false
  | VBool b => b
  | VNum NaN => false
  | VNum (Int z) => negb (z =? 0)%Z
  | VStr s => negb (String.eqb s "")
  | VArr _ | VObj _ => true
  end.

(** [a || b] and [a && b] on values. *)
Definition or (a b : any) : any := if truthy a then a else b.
Definition and (a b : any) : any := if truthy a then b else a.

(** [typeof v === 'object'] (true of [null] as well). *)
Definition is_object (v : any) : bool :=
  match v with
  | VNull | VArr _ | VObj _ => true
  | _ => false
  end.

Definition isArray (v : any) : bool :=
  match v with VArr _ => true | _ => false end.

Definition is_string (v : any) : bool :=
  match v with VStr _ => true | _ => false end.

Definition nullish (v : any) : bool :=
  match v with VUndef | VNull => true | _ => false end.

(** First binding of a key in an object's property list. *)
Fixpoint assoc {A : Type} (k : string) (o : list (string * A)) : option A :=
  match o with
  | [] => None
  | (k', v) :: rest => if String.eqb k k' then Some v else assoc k rest
  end.

(** [o[k] = v] on an object: an existing key keeps its position. *)
Fixpoint assign {A : Type} (k : string) (v : A) (o : list (string * A))
  : list (string * A) :=
  match o with
  | [] => [(k, v)]
  | (k', v') :: rest =>
      if String.eqb k k' then (k', v) :: rest else (k', v') :: assign k v rest
  end.

(** The rest of an object once a key is destructured out of it. *)
Fixpoint remove {A : Type} (k : string) (o : list (string * A))
  : list (string * A) :=
  match o with
  | [] => []
  | (k', v') :: rest =>
      if String.eqb k k' then remove k rest else (k', v') :: remove k rest
  end.

Definition is_digit (c : ascii) : bool :=
  let n := nat_of_ascii c in (48 <=? n)%nat && (n <=? 57)%nat.

Definition digit_val (c : ascii) : Z := Z.of_nat (nat_of_ascii c) - 48.

(** Value of a run of decimal digits, most significant first. *)
Fixpoint digits_val (acc : Z) (s : string) : Z :=
  match s with
  | EmptyString => acc
  | String c rest => digits_val (10 * acc + digit_val c) rest
  end.

Fixpoint all_digits (s : string) : bool :=
  match s with
  | EmptyString => true
  | String c rest => is_digit c && all_digits rest
  end.

(** An array index as a property key: canonical decimal, no leading zero. *)
Definition array_index (k : string) : option nat :=
  match k with
  | EmptyString => None
  | String c rest =>
      if all_digits k && (negb (Ascii.eqb c "0") || String.eqb rest "")
      then Some (Z.to_nat (digits_val 0 k)) else None
  end.

(** The names an object inherits from [Object.prototype] and an array from
    [Array.prototype] as well: [k in v] holds for them although they are no
    keys of [v], and [v[k]] is then a function, which is no value of [any].
    [has_property] and [get] below are [in] and the property read for every
    other name. *)
Definition inherited (k : string) : bool :=
  existsb (String.eqb k)
    [ "constructor"; "hasOwnProperty"; "isPrototypeOf"; "propertyIsEnumerable";
      "toLocaleString"; "toString"; "valueOf"; "__proto__";
      "__defineGetter__"; "__defineSetter__"; "__lookupGetter__"; "__lookupSetter__";
      "at"; "concat"; "copyWithin"; "entries"; "every"; "fill"; "filter"; "find";
      "findIndex"; "findLast"; "findLastIndex"; "flat"; "flatMap"; "forEach";
      "includes"; "indexOf"; "join"; "keys"; "lastIndexOf"; "map"; "pop"; "push";
      "reduce"; "reduceRight"; "reverse"; "shift"; "slice"; "some"; "sort";
      "splice"; "toReversed"; "toSorted"; "toSpliced"; "unshift"; "values"; "with" ].

(** [k in v], asked of an object or an array, for a name that is not
    [inherited]. *)
Definition has_property (v : any) (k : string) : bool :=
  match v with
  | VObj o => match assoc k o with Some _ => true | None => false end
  | VArr l =>
      String.eqb k "length" ||
      match array_index k with
      | Some i => (i <? length l)%nat
      | None => false
      end
  | _ => false
  end.

(** [v[k]] where [v] is not [null] or [undefined]; of a primitive, for the
    keys that are not its own ([length], the indices of a string). *)
Definition get (v : any) (k : string) : any :=
  match v with
  | VObj o => match assoc k o with Some x => x | None => VUndef end
  | VArr l =>
      if String.eqb k "length" then VNum (Int (Z.of_nat (length l)))
      else match array_index k with
           | Some i => nth i l VUndef
           | None => VUndef
           end
  | _ => VUndef
  end.

(** [v?.[k]]. *)
Definition get_opt (v : any) (k : string) : any :=
  if nullish v then VUndef else get v k.

End Js.

(** ** XML navigation ([xmlNode], [xmlArray], [toInt]) *)

Module Xml.

(** The loop of [xmlNode]: [None] is its early [return undefined]. *)
Fixpoint walk (current : any) (path : list string) : option any :=
  match path with
  | [] => Some current
  | key :: rest =>
      if Js.truthy current && Js.is_object current && Js.has_property current key
      then walk (Js.get current key) rest
      else None
  end.

Definition xmlNode (obj : any) (path : list string) : any :=
  match walk obj path with
  | None => VUndef
  | Some current => Js.or (Js.get_opt current "_text") current
  end.

Definition xmlArray (obj : any) (path : list string) : list any :=
  let node := xmlNode obj path in
  if negb (Js.truthy node) then []
  else match node with
       | VArr l => l
       | _ => [node]
       end.

(** The invariant of the tree the XML parser hands over: wherever a node
    carries [_text], it is a text leaf (a string). *)
Fixpoint text_leaves (v : any) : bool :=
  match v with
  | VArr l => forallb text_leaves l
  | VObj o =>
      forallb (fun kv =>
                 (if String.eqb (fst kv) "_text" then Js.is_string (snd kv) else true)
                 && text_leaves (snd kv)) o
  | _ => true
  end.

End Xml.

(** ** Exceptions

    [result] is the outcome of code that may throw; the [try]/[catch] blocks
    of the source become [try_catch]. *)

Record headers : Type := {
  x_csrf_token : option string;        (* response.headers['x-csrf-token'] *)
  set_cookie : option (list string)    (* response.headers['set-cookie'] *)
}.

Record response : Type := {
  status : Z;
  resp_headers : headers;
  data : any
}.

Inductive error : Type :=
| Error (message : string)
| AxiosError (message : string) (resp : option response).

Definition message (e : error) : string :=
  match e with
  | Error m => m
  | AxiosError m _ => m
  end.

Inductive result (A : Type) : Type :=
| Ok (a : A)
| Throw (e : error).

Arguments Ok {A} a.
Arguments Throw {A} e.

(** ** Session state and the request executor *)

Module Session.

Record SapConfig : Type := {
  cfg_url : string;
  username : string;
  password : string;
  client : string
}.

(** [process.env], as far as the code reads it. *)
Record Env : Type := {
  SAP_URL : option string;
  SAP_USERNAME : option string;
  SAP_PASSWORD : option string;
  SAP_CLIENT : option string;
  RETURN_RAW_XML : option string
}.

(** What [getAuthHeaders] returns: the Basic credentials (before their
    base64 encoding) and the client header. *)
Record auth_headers : Type := {
  basic_user : string;
  basic_password : string;
  x_sap_client : string
}.

(** The request configuration handed to the HTTP client. *)
Record request : Type := {
  method : string;
  url : string;
  auth : auth_headers;
  csrf_header : option string;       (* headers['x-csrf-token'] *)
  cookie_header : option string;     (* headers['Cookie'] *)
  timeout : option Z;
  params : any;
  body : option any                (* config.data, when set *)
}.

Definition with_csrf (token : string) (c : request) : request :=
  {| method := method c; url := url c; auth := auth c;
     csrf_header := Some token; cookie_header := cookie_header c;
     timeout := timeout c; params := params c; body := body c |}.

(** How a call of the HTTP client ends: a resolved response, a rejection
    with an [AxiosError] (carrying the response when there was one: none
    for a timeout or a network error), or another thrown error. *)
Inductive outcome : Type :=
| Resolved (r : response)
| Rejected (msg : string) (r : option response)
| Failed (msg : string).

(** The module-level variables of [utils.ts]. *)
Record session : Type := {
  axiosInstance : bool;              (* created or null *)
  config : option SapConfig;
  csrfToken : option string;
  cookies : option string
}.

(** The session together with the requests sent so far, oldest first. *)
Record state : Type := {
  sess : session;
  log : list request
}.

Definition mk_state (ax : bool) (cfg : option SapConfig) (tok ck : option string)
           (lg : list request) : state :=
  {| sess := {| axiosInstance := ax; config := cfg; csrfToken := tok; cookies := ck |};
     log := lg |}.

Definition M (A : Type) : Type := state -> result A * state.

Definition ret {A : Type} (a : A) : M A := fun st => (Ok a, st).

Definition throw {A : Type} (e : error) : M A := fun st => (Throw e, st).

Definition bind {A B : Type} (c : M A) (k : A -> M B) : M B :=
  fun st =>
    match c st with
    | (Ok a, st') => k a st'
    | (Throw e, st') => (Throw e, st')
    end.

Definition try_catch {A : Type} (block : M A) (handler : error -> M A) : M A :=
  fun st =>
    match block st with
    | (Ok a, st') => (Ok a, st')
    | (Throw e, st') => handler e st'
    end.

Declare Scope exec_scope.
Delimit Scope exec_scope with exec.
Notation "x <- c ;; k" := (bind c (fun x => k))
  (at level 100, c at next level, right associativity) : exec_scope.
Notation "c ;; k" := (bind c (fun _ => k))
  (at level 100, right associativity) : exec_scope.
Local Open Scope exec_scope.

Definition get_session : M session := fun st => (Ok (sess st), st).

Definition put_session (s : session) : M unit :=
  fun st => (Ok tt, {| sess := s; log := log st |}).

Definition set_config (c : SapConfig) : M unit :=
  s <- get_session ;;
  put_session {| axiosInstance := axiosInstance s; config := Some c;
                 csrfToken := csrfToken s; cookies := cookies s |}.

Definition set_csrfToken (t : string) : M unit :=
  s <- get_session ;;
  put_session {| axiosInstance := axiosInstance s; config := config s;
                 csrfToken := Some t; cookies := cookies s |}.

Definition set_cookies (c : string) : M unit :=
  s <- get_session ;;
  put_session {| axiosInstance := axiosInstance s; config := config s;
                 csrfToken := csrfToken s; cookies := Some c |}.

(** A string variable that may be [null]: truthy when set and not empty. *)
Definition truthy_str (o : option string) : option string :=
  match o with
  | Some s => if String.eqb s "" then None else Some s
  | None => None
  end.

(** The URL record the platform's [URL] constructor builds. *)
Record URL : Type := {
  origin : string;
  pathname : string;
  search : string;
  hash : string
}.

(** [s.includes('CSRF')] on strings. *)
Fixpoint includes (needle hay : string) : bool :=
  String.prefix needle hay ||
  match hay with
  | EmptyString => false
  | String _ rest => includes needle rest
  end.

(** The response of an exchange, be it a success or an error response. *)
Definition exchange_response (o : outcome) : option response :=
  match o with
  | Resolved r => Some r
  | Rejected _ (Some r) => Some r
  | Rejected _ None => None
  | Failed _ => None
  end.

(** The token an exchange supplies: the [x-csrf-token] header of its
    response, when there is a response and the header is not empty. *)
Definition token_of (o : outcome) : option string :=
  match exchange_response o with
  | Some r => truthy_str (x_csrf_token (resp_headers r))
  | None => None
  end.

(** The cookies cached after an exchange that supplied a token, [old]
    being the cookies cached before. *)
Definition captured_cookies (o : outcome) (old : option string) : option string :=
  match exchange_response o with
  | Some r =>
      match set_cookie (resp_headers r) with
      | Some cs => Some (String.concat "; " cs)
      | None => old
      end
  | None => old
  end.

(** The message of the error an exchange without a token ends in. *)
Definition failure_message (o : outcome) : string :=
  match o with
  | Resolved _ => "No CSRF token in response headers"
  | Rejected m _ => m
  | Failed m => m
  end.

(** What the HTTP client returns or throws for an outcome. *)
Definition settle (o : outcome) : result response :=
  match o with
  | Resolved r => Ok r
  | Rejected m r => Throw (AxiosError m r)
  | Failed m => Throw (Error m)
  end.

(** The values [data?.includes(...)] can be evaluated on. *)
Definition has_includes (d : any) : bool :=
  match d with
  | VStr _ | VArr _ | VUndef | VNull => true
  | _ => false
  end.

(** A 403 whose body denotes a rejected security token. *)
Definition token_rejected (o : outcome) : bool :=
  match o with
  | Rejected _ (Some r) =>
      (status r =? 403)%Z &&
      match data r with
      | VStr s => includes "CSRF" s
      | VArr l => existsb (fun x => match x with
                                    | VStr s => String.eqb s "CSRF"
                                    | _ => false
                                    end) l
      | _ => false
      end
  | _ => false
  end.

(** What a first attempt that is not recovered from ends in: the client's
    own result, or the [TypeError] of calling [includes] on a 403 body
    that has none. *)
Definition unrecovered (o : outcome) : result response :=
  match o with
  | Rejected _ (Some r) =>
      if (status r =? 403)%Z && negb (has_includes (data r))
      then Throw (Error "error.response.data?.includes is not a function")
      else settle o
  | _ => settle o
  end.

(** Nothing that was set in [s] is cleared in [s']. *)
Definition never_cleared (s s' : session) : Prop :=
  (is_Some (csrfToken s) -> is_Some (csrfToken s')) /\
  (is_Some (truthy_str (csrfToken s)) -> is_Some (truthy_str (csrfToken s'))) /\
  (is_Some (cookies s) -> is_Some (cookies s')) /\
  (is_Some (config s) -> is_Some (config s')).

Section Executor.

(** The environment, the server (its reply to a request may depend on
    every request sent before it) and the platform's URL parser, which
    returns the message of the error it throws on a string that is not
    a URL. *)
Variable env : Env.
Variable net : list request -> outcome.
Variable new_URL : string -> URL + string.

(** [getConfig] of the server module. *)
Definition getConfig : result SapConfig :=
  match truthy_str (SAP_URL env), truthy_str (SAP_USERNAME env),
        truthy_str (SAP_PASSWORD env), truthy_str (SAP_CLIENT env) with
  | Some u, Some n, Some p, Some c =>
      Ok {| cfg_url := u; username := n; password := p; client := c |}
  | _, _, _, _ =>
      Throw (Error "Missing required environment variables. Required variables:
- SAP_URL
- SAP_USERNAME
- SAP_PASSWORD
- SAP_CLIENT")
  end.

(** The configuration [c] is available: cached, or in the environment
    ([createMcpServer] checks the latter when the server is created). *)
Definition config_loads (cfg : option SapConfig) (c : SapConfig) : Prop :=
  match cfg with
  | Some c' => c' = c
  | None => getConfig = Ok c
  end.

(** [if (!config) config = getConfig()], then the configuration. *)
Definition load_config : M SapConfig :=
  s <- get_session ;;
  match config s with
  | Some c => ret c
  | None =>
      match getConfig with
      | Ok c => set_config c ;; ret c
      | Throw e => throw e
      end
  end.

Definition auth_of (c : SapConfig) : auth_headers :=
  {| basic_user := username c; basic_password := password c;
     x_sap_client := client c |}.

(** The state once the configuration [c] is cached. *)
Definition loaded (c : SapConfig) (st : state) : state :=
  {| sess := {| axiosInstance := axiosInstance (sess st); config := Some c;
                csrfToken := csrfToken (sess st); cookies := cookies (sess st) |};
     log := log st |}.

Definition createAxiosInstance : M unit :=
  s <- get_session ;;
  put_session {| axiosInstance := true; config := config s;
                 csrfToken := csrfToken s; cookies := cookies s |}.

Definition cleanup : M unit :=
  put_session {| axiosInstance := false; config := None;
                 csrfToken := None; cookies := None |}.

Definition getBaseUrl : M string :=
  c <- load_config ;;
  match new_URL (cfg_url c) with
  | inl urlObj => ret (origin urlObj)
  | inr msg => throw (Error ("Invalid URL in configuration: " ++ msg))
  end.

Definition getAuthHeaders : M auth_headers :=
  c <- load_config ;;
  ret (auth_of c).

(** One call of the HTTP client: the request is sent, the server replies. *)
Definition send (c : request) : M response :=
  fun st =>
    let st' := {| sess := sess st; log := log st ++ [c] |} in
    (settle (net (log st')), st').

Definition store_cookies (h : headers) : M unit :=
  match set_cookie h with
  | Some cs => set_cookies (String.concat "; " cs)
  | None => ret tt
  end.

Definition fetch_request (u : string) (h : auth_headers) : request :=
  {| method := "GET"; url := u; auth := h; csrf_header := Some "fetch";
     cookie_header := None; timeout := None; params := VUndef; body := None |}.

Definition fetchCsrfToken (u : string) : M string :=
  try_catch
    (createAxiosInstance ;;
     h <- getAuthHeaders ;;
     response <- send (fetch_request u h) ;;
     match truthy_str (x_csrf_token (resp_headers response)) with
     | None => throw (Error "No CSRF token in response headers")
     | Some token =>
         store_cookies (resp_headers response) ;;
         ret token
     end)
    (fun error =>
       match error with
       | AxiosError _ (Some r) =>
           match truthy_str (x_csrf_token (resp_headers r)) with
           | Some token =>
               store_cookies (resp_headers r) ;;
               ret token
           | None =>
               throw (Error ("Failed to fetch CSRF token: " ++ message error))
           end
       | _ => throw (Error ("Failed to fetch CSRF token: " ++ message error))
       end).

Definition mutating (m : string) : bool :=
  String.eqb m "POST" || String.eqb m "PUT".

(** [data?.includes('CSRF')], as a condition: a string is searched, an
    array is asked for the element, [null] and [undefined] give
    [undefined]; nothing else has an [includes] to call. *)
Definition data_includes_CSRF (d : any) : M bool :=
  match d with
  | VStr s => ret (includes "CSRF" s)
  | VArr l => ret (existsb (fun x => match x with
                                     | VStr s => String.eqb s "CSRF"
                                     | _ => false
                                     end) l)
  | VUndef | VNull => ret false
  | _ => throw (Error "error.response.data?.includes is not a function")
  end.

(** Lines 177-202: the headers and the request configuration. *)
Definition request_config (u m : string) (t : Z) (d p : any)
           (h : auth_headers) (s : session) : request :=
  {| method := m; url := u; auth := h;
     csrf_header := if mutating m then truthy_str (csrfToken s) else None;
     cookie_header := truthy_str (cookies s);
     timeout := Some t; params := p;
     body := if Js.truthy d then Some d else None |}.

(** Lines 168-202 of [makeAdtRequest]: the token for POST and PUT, then
    the request configuration. *)
Definition prepare (u m : string) (t : Z) (d p : any) : M request :=
  s <- get_session ;;
  (if mutating m && negb (bool_decide (is_Some (truthy_str (csrfToken s))))
   then try_catch
          (token <- fetchCsrfToken u ;; set_csrfToken token)
          (fun _ => throw (Error
             "CSRF token is required for POST/PUT requests but could not be fetched"))
   else ret tt) ;;
  h <- getAuthHeaders ;;
  s <- get_session ;;
  ret (request_config u m t d p h s).

(** Lines 204-216: the request, and the recovery from a rejected token. *)
Definition attempt (c : request) : M response :=
  try_catch
    (createAxiosInstance ;; send c)
    (fun error =>
       match error with
       | AxiosError _ (Some r) =>
           if (status r =? 403)%Z then
             rejected <- data_includes_CSRF (data r) ;;
             if (rejected : bool) then
               token <- fetchCsrfToken (url c) ;;
               set_csrfToken token ;;
               createAxiosInstance ;;
               send (with_csrf token c)
             else throw error
           else throw error
       | _ => throw error
       end).

Definition makeAdtRequest (u m : string) (t : Z) (d p : any) : M response :=
  c <- prepare u m t d p ;;
  attempt c.

(** The ways the session changes while requests are made: the client is
    created, the configuration is loaded from the environment, or an
    exchange (the server's reply [net lg] to the requests [lg]) supplies
    a token, which is cached together with the cookies of that same
    exchange. *)
Inductive session_step : session -> session -> Prop :=
| step_create (s : session) :
    session_step s {| axiosInstance := true; config := config s;
                      csrfToken := csrfToken s; cookies := cookies s |}
| step_load (s : session) (c : SapConfig) :
    config s = None -> getConfig = Ok c ->
    session_step s {| axiosInstance := axiosInstance s; config := Some c;
                      csrfToken := csrfToken s; cookies := cookies s |}
| step_refresh (s : session) (lg : list request) (token : string) :
    token_of (net lg) = Some token ->
    session_step s {| axiosInstance := axiosInstance s; config := config s;
                      csrfToken := Some token;
                      cookies := captured_cookies (net lg) (cookies s) |}.

(** The exported operations that touch the session. *)
Inductive op : Type :=
| CreateAxiosInstance
| GetBaseUrl
| GetAuthHeaders
| MakeAdtRequest (u m : string) (t : Z) (d p : any)
| Cleanup.

Definition run_op (o : op) (st : state) : state :=
  match o with
  | CreateAxiosInstance => snd (createAxiosInstance st)
  | GetBaseUrl => snd (getBaseUrl st)
  | GetAuthHeaders => snd (getAuthHeaders st)
  | MakeAdtRequest u m t d p => snd (makeAdtRequest u m t d p st)
  | Cleanup => snd (cleanup st)
  end.

Definition run_ops (os : list op) (st : state) : state :=
  fold_left (fun s o => run_op o s) os st.

Definition is_cleanup (o : op) : bool :=
  match o with Cleanup => true | _ => false end.

End Executor.

End Session.

(** ** Strings and numbers of the metadata parser *)

Module Text.

Definition string_of_Z (z : Z) : string :=
  NilEmpty.string_of_int (Z.to_int z).

(** [String(v)]; of a number, for the integers below 10^21, which the
    platform prints in full. *)
Fixpoint to_string (v : any) : string :=
  match v with
  | VUndef => "undefined"
  | VNull => "null"
  | VBool true => "true"
  | VBool false => "false"
  | VNum NaN => "NaN"
  | VNum (Int z) => string_of_Z z
  | VStr s => s
  | VArr l =>
      String.concat "," (map (fun x => if Js.nullish x then "" else to_string x) l)
  | VObj _ => "[object Object]"
  end.

(** White space [parseInt] skips (the one-byte code points). *)
Definition is_space (c : ascii) : bool :=
  let n := nat_of_ascii c in
  ((9 <=? n)%nat && (n <=? 13)%nat) || (n =? 32)%nat.

Fixpoint skip_spaces (s : string) : string :=
  match s with
  | String c rest => if is_space c then skip_spaces rest else s
  | EmptyString => s
  end.

(** The longest prefix made of decimal digits. *)
Fixpoint take_digits (s : string) : string :=
  match s with
  | String c rest => if Js.is_digit c then String c (take_digits rest) else ""
  | EmptyString => ""
  end.

(** [parseInt(s, 10)], where the leading white space of [s] is ASCII and the
    number read is below 2^53 (above, the platform rounds to a double). *)
Definition parseInt (s : string) : number :=
  let s1 := skip_spaces s in
  let '(negative, s2) :=
    match s1 with
    | String "-" rest => (true, rest)
    | String "+" rest => (false, rest)
    | _ => (false, s1)
    end in
  let ds := take_digits s2 in
  if String.eqb ds "" then NaN
  else Int (if negative then - Js.digits_val 0 ds else Js.digits_val 0 ds)%Z.

(** [toInt]: [parseInt(String(value), 10)], with 0 for [NaN]. *)
Definition toInt (v : any) : Z :=
  match parseInt (to_string v) with
  | NaN => 0%Z
  | Int z => z
  end.

Fixpoint strip_prefix (p s : string) : option string :=
  match p, s with
  | EmptyString, _ => Some s
  | String a p', String b s' => if Ascii.eqb a b then strip_prefix p' s' else None
  | String _ _, EmptyString => None
  end.

(** [/annotation(Key|Value)\.([0-9]+)/] tried at the start of [s]: the two
    groups of the match. *)
Definition match_here (s : string) : option (string * string) :=
  match strip_prefix "annotation" s with
  | None => None
  | Some r =>
      let group1 :=
        match strip_prefix "Key" r with
        | Some r' => Some ("Key", r')
        | None =>
            match strip_prefix "Value" r with
            | Some r' => Some ("Value", r')
            | None => None
            end
        end in
      match group1 with
      | None => None
      | Some (mtype, r') =>
          match strip_prefix "." r' with
          | None => None
          | Some r'' =>
              let ds := take_digits r'' in
              if String.eqb ds "" then None else Some (mtype, ds)
          end
      end
  end.

(** [key.match(...)]: the leftmost match. *)
Fixpoint annotation_match (s : string) : option (string * string) :=
  match match_here s with
  | Some m => Some m
  | None =>
      match s with
      | EmptyString => None
      | String _ rest => annotation_match rest
      end
  end.

End Text.

(** ** Pure code that may throw *)

Definition rbind {A B : Type} (r : result A) (k : A -> result B) : result B :=
  match r with
  | Ok a => k a
  | Throw e => Throw e
  end.

Definition rcatch {A : Type} (block : result A) (handler : error -> result A)
  : result A :=
  match block with
  | Ok a => Ok a
  | Throw e => handler e
  end.

Declare Scope result_scope.
Delimit Scope result_scope with result.
Notation "x <- c ;; k" := (rbind c (fun x => k))
  (at level 100, c at next level, right associativity) : result_scope.

(** ** Transformation dispatch ([return_response]) *)

Module Respond.

Record content_item : Type := {
  type : string;
  text : any
}.

Record envelope : Type := {
  isError : bool;
  content : list content_item
}.

Definition raw_envelope (r : response) : envelope :=
  {| isError := false; content := [ {| type := "text"; text := data r |} ] |}.

(** [process.env.RETURN_RAW_XML === 'true']. *)
Definition returnRawXml (env : Session.Env) : bool :=
  match Session.RETURN_RAW_XML env with
  | Some s => String.eqb s "true"
  | None => false
  end.

Section Dispatch.

(** The XML parser ([convert.xml2js] in compact mode) and
    [JSON.stringify(_, null, 2)] are the platform's; either may throw. *)
Variable fullParse : any -> result any.
Variable JSON_stringify : any -> result any.

Local Open Scope result_scope.

Definition return_response (env : Session.Env) (r : response)
           (jsonTransformer : option (any -> result any)) : result envelope :=
  if returnRawXml env && bool_decide (is_Some jsonTransformer)
  then Ok (raw_envelope r)
  else
    match jsonTransformer with
    | Some transformer =>
        rcatch
          (parsed <- fullParse (data r) ;;
           transformed <- transformer parsed ;;
           json <- JSON_stringify transformed ;;
           Ok {| isError := false;
                 content := [ {| type := "text"; text := json |} ] |})
          (fun _ => Ok (raw_envelope r))
    | None => Ok (raw_envelope r)
    end.

End Dispatch.

End Respond.

(** ** Package-info transformer ([transformPackageInfo]) *)

Module Transform.

Record package_object : Type := {
  OBJECT_TYPE : any;
  OBJECT_NAME : any;
  OBJECT_DESCRIPTION : any;
  OBJECT_URI : any
}.

Record package_info : Type := {
  type : string;
  totalObjects : nat;
  objects : list package_object
}.

Local Open Scope result_scope.

(** [o.k] where reading a property of [null] or [undefined] throws. *)
Definition member (o : any) (k : string) : result any :=
  if Js.nullish o
  then Throw (Error ("Cannot read properties of " ++ Text.to_string o ++
                     " (reading '" ++ k ++ "')"))
  else Ok (Js.get o k).

(** The callback of [filter]:
    [node.OBJECT_NAME?._text && node.OBJECT_URI?._text]. *)
Definition has_name_and_uri (node : any) : result bool :=
  name <- member node "OBJECT_NAME" ;;
  uri <- member node "OBJECT_URI" ;;
  Ok (Js.truthy (Js.and (Js.get_opt name "_text") (Js.get_opt uri "_text"))).

(** The callback of [map]. *)
Definition to_object (node : any) : result package_object :=
  ty <- member node "OBJECT_TYPE" ;;
  ty_text <- member ty "_text" ;;
  name <- member node "OBJECT_NAME" ;;
  name_text <- member name "_text" ;;
  desc <- member node "DESCRIPTION" ;;
  uri <- member node "OBJECT_URI" ;;
  uri_text <- member uri "_text" ;;
  Ok {| OBJECT_TYPE := ty_text; OBJECT_NAME := name_text;
        OBJECT_DESCRIPTION := Js.get_opt desc "_text";
        OBJECT_URI := uri_text |}.

Fixpoint filterM {A : Type} (f : A -> result bool) (l : list A) : result (list A) :=
  match l with
  | [] => Ok []
  | x :: rest =>
      keep <- f x ;;
      kept <- filterM f rest ;;
      Ok (if (keep : bool) then x :: kept else kept)
  end.

Fixpoint mapM {A B : Type} (f : A -> result B) (l : list A) : result (list B) :=
  match l with
  | [] => Ok []
  | x :: rest =>
      y <- f x ;;
      ys <- mapM f rest ;;
      Ok (y :: ys)
  end.

(** [parsed["asx:abap"]?.["asx:values"]?.DATA?.TREE_CONTENT
      ?.SEU_ADT_REPOSITORY_OBJ_NODE || []], coerced to a list. *)
Definition package_nodes (parsed : any) : result (list any) :=
  abap <- member parsed "asx:abap" ;;
  let nodes :=
    Js.or (Js.get_opt (Js.get_opt (Js.get_opt (Js.get_opt abap "asx:values")
                                              "DATA") "TREE_CONTENT")
                      "SEU_ADT_REPOSITORY_OBJ_NODE")
          (VArr []) in
  Ok (match nodes with
      | VArr l => l
      | _ => [nodes]
      end).

(** A node has a name (a URI) when [node.OBJECT_NAME?._text]
    ([node.OBJECT_URI?._text]) is truthy. *)
Definition has_name (node : any) : bool :=
  Js.truthy (Js.get_opt (Js.get node "OBJECT_NAME") "_text").

Definition has_uri (node : any) : bool :=
  Js.truthy (Js.get_opt (Js.get node "OBJECT_URI") "_text").

(** The entries [filter] keeps. *)
Definition keeps (node : any) : bool := has_name node && has_uri node.

Definition has_type (node : any) : bool :=
  negb (Js.nullish (Js.get node "OBJECT_TYPE")).

(** The record [map] builds from a node that has its three mandatory
    fields. *)
Definition record_of (node : any) : package_object :=
  {| OBJECT_TYPE := Js.get (Js.get node "OBJECT_TYPE") "_text";
     OBJECT_NAME := Js.get (Js.get node "OBJECT_NAME") "_text";
     OBJECT_DESCRIPTION := Js.get_opt (Js.get node "DESCRIPTION") "_text";
     OBJECT_URI := Js.get (Js.get node "OBJECT_URI") "_text" |}.

Definition transformPackageInfo (parsed : any) : result package_info :=
  nodes <- package_nodes parsed ;;
  kept <- filterM has_name_and_uri nodes ;;
  extractedData <- mapM to_object kept ;;
  Ok {| type := "package_info";
        totalObjects := length extractedData;
        objects := extractedData |}.

End Transform.

(** ** Metadata parser ([parseDDICProps]) *)

Module Cds.

Record DdicAnnotation : Type := {
  key : any;
  value : any
}.

Record ElementProps : Type := {
  ddicIsKey : bool;
  ddicDataElement : any;
  ddicDataType : any;
  ddicLength : any;
  ddicDecimals : any;
  ddicHeading : any;
  ddicLabelShort : any;
  ddicLabelMedium : any;
  ddicLabelLong : any;
  ddicHeadingLength : any;
  ddicLabelShortLength : any;
  ddicLabelMediumLength : any;
  ddicLabelLongLength : any;
  parentName : any
}.

(** [elementProps] is the object, or [false] ([None]) when the bag has no
    data type; [annotations] is an array that may have holes ([None]). *)
Record DdicProperties : Type := {
  elementProps : option ElementProps;
  annotations : list (option DdicAnnotation)
}.

Local Open Scope result_scope.

(** The callback of [reduce]: one entry into the key-value object. *)
Definition add_entry (prev : list (string * any)) (cur : any)
  : result (list (string * any)) :=
  attrs <- Transform.member cur "_attributes" ;;
  let key := Js.get_opt attrs "abapsource:key" in
  let value := Js.or (Js.get cur "_text") (Js.get cur "#text") in
  Ok (if Js.truthy key then Js.assign (Text.to_string key) value prev else prev).

Fixpoint reduce (entries : list any) (prev : list (string * any))
  : result (list (string * any)) :=
  match entries with
  | [] => Ok prev
  | cur :: rest =>
      next <- add_entry prev cur ;;
      reduce rest next
  end.

(** The keys the destructuring takes out of the object. *)
Definition ddic_keys : list string :=
  [ "ddicIsKey"; "ddicDataElement"; "ddicDataType"; "ddicLength";
    "ddicDecimals"; "ddicHeading"; "ddicLabelShort"; "ddicLabelMedium";
    "ddicLabelLong"; "ddicHeadingLength"; "ddicLabelShortLength";
    "ddicLabelMediumLength"; "ddicLabelLongLength"; "parentName" ].

(** [...rawanno]: what is left of the object. *)
Definition rest_of (converted : list (string * any)) : list (string * any) :=
  fold_left (fun o k => Js.remove k o) ddic_keys converted.

(** A destructured variable: the property, or [undefined]. *)
Definition field (converted : list (string * any)) (k : string) : any :=
  Js.get (VObj converted) k.

(** [x ? parseInt(x, 10) : undefined]. *)
Definition parse_length (x : any) : any :=
  if Js.truthy x then VNum (Text.parseInt (Text.to_string x)) else VUndef.

(** [x === "true"]. *)
Definition is_true_literal (x : any) : bool :=
  match x with
  | VStr s => String.eqb s "true"
  | _ => false
  end.

(** [(ddicDataType || ddicDataType === "") && {...}]. *)
Definition make_elementProps (converted : list (string * any))
  : option ElementProps :=
  let ddicDataType := field converted "ddicDataType" in
  if Js.truthy ddicDataType ||
     match ddicDataType with VStr s => String.eqb s "" | _ => false end
  then Some
    {| ddicIsKey := is_true_literal (field converted "ddicIsKey");
       ddicDataElement := field converted "ddicDataElement";
       ddicDataType := ddicDataType;
       ddicLength := parse_length (field converted "ddicLength");
       ddicDecimals := parse_length (field converted "ddicDecimals");
       ddicHeading := field converted "ddicHeading";
       ddicLabelShort := field converted "ddicLabelShort";
       ddicLabelMedium := field converted "ddicLabelMedium";
       ddicLabelLong := field converted "ddicLabelLong";
       ddicHeadingLength := parse_length (field converted "ddicHeadingLength");
       ddicLabelShortLength := parse_length (field converted "ddicLabelShortLength");
       ddicLabelMediumLength := parse_length (field converted "ddicLabelMediumLength");
       ddicLabelLongLength := parse_length (field converted "ddicLabelLongLength");
       parentName := field converted "parentName" |}
  else None.

(** The largest array index is 2^32 - 2. *)
Definition is_index (idx : Z) : bool := (0 <=? idx)%Z && (idx <? 4294967295)%Z.

(** [annotations[idx]]: [None] is [undefined] (a hole, or past the end). *)
Definition array_get {A : Type} (l : list (option A)) (idx : Z) : option A :=
  if is_index idx then mjoin (l !! Z.to_nat idx) else None.

(** [annotations[idx] = x]: a write past the end extends the array with
    holes; a write at a number that is not an array index leaves the
    elements as they are. *)
Definition array_set {A : Type} (l : list (option A)) (idx : Z) (x : A)
  : list (option A) :=
  if is_index idx then
    let i := Z.to_nat idx in
    if (i <? length l)%nat then <[ i := Some x ]> l
    else l ++ replicate (i - length l) None ++ [Some x]
  else l.

(** [{ key: "", value: "" }]. *)
Definition empty_annotation : DdicAnnotation :=
  {| key := VStr ""; value := VStr "" |}.

(** The body of the [for (const key in rawanno)] loop. *)
Definition annotation_step (rawanno : list (string * any))
           (annotations : list (option DdicAnnotation)) (k : string)
  : list (option DdicAnnotation) :=
  match Text.annotation_match k with
  | Some (mtype, digits) =>
      let idx := Text.toInt (VStr digits) in
      let anno := default empty_annotation (array_get annotations idx) in
      let anno :=
        if String.eqb mtype "Key"
        then {| key := field rawanno k; value := value anno |}
        else {| key := key anno; value := field rawanno k |} in
      array_set annotations idx anno
  | None => annotations
  end.

(** The six numeric fields of [elementProps], by name. *)
Definition length_fields : list (string * (ElementProps -> any)) :=
  [ ("ddicLength", ddicLength); ("ddicDecimals", ddicDecimals);
    ("ddicHeadingLength", ddicHeadingLength);
    ("ddicLabelShortLength", ddicLabelShortLength);
    ("ddicLabelMediumLength", ddicLabelMediumLength);
    ("ddicLabelLongLength", ddicLabelLongLength) ].

(** What one iteration of the loop does to slot [n] of the array. *)
Definition slot_step (rawanno : list (string * any)) (n : Z)
           (slot : option DdicAnnotation) (k : string) : option DdicAnnotation :=
  match Text.annotation_match k with
  | Some (mtype, digits) =>
      if (Text.toInt (VStr digits) =? n)%Z then
        let anno := default empty_annotation slot in
        Some (if String.eqb mtype "Key"
              then {| key := field rawanno k; value := value anno |}
              else {| key := key anno; value := field rawanno k |})
      else slot
  | None => slot
  end.

Definition parse_annotations (rawanno : list (string * any))
  : list (option DdicAnnotation) :=
  fold_left (annotation_step rawanno) (map fst rawanno) [].

Definition parseDDICProps (raw : any) : result DdicProperties :=
  converted <- reduce (Xml.xmlArray raw ["abapsource:entry"]) [] ;;
  Ok {| elementProps := make_elementProps converted;
        annotations := parse_annotations (rest_of converted) |}.

End Cds.

(** ** Orders of a list *)

Module Orders.

Fixpoint insert_everywhere {A : Type} (x : A) (l : list A) : list (list A) :=
  match l with
  | [] => [[x]]
  | y :: rest => (x :: l) :: map (cons y) (insert_everywhere x rest)
  end.

(** Every order of the elements of [l]. *)
Fixpoint orders {A : Type} (l : list A) : list (list A) :=
  match l with
  | [] => [[]]
  | x :: rest => flat_map (insert_everywhere x) (orders rest)
  end.

End Orders.

(** ** Sample data *)

Module Examples.

Definition text_node (s : string) : any := VObj [("_text", VStr s)].

Definition element_tree : any :=
  VObj [("props", VObj [("entry", VArr [text_node "CHAR"; text_node "NUMC"]);
                        ("name", text_node "MATNR")])].

(** The tree of [<a>foo<b/>bar</a>]: the two runs of text of [a] are an
    array. *)
Definition mixed_content : any :=
  VObj [("a", VObj [("_text", VArr [VStr "foo"; VStr "bar"]); ("b", VObj [])])].

Definition raw_env : Session.Env :=
  {| Session.SAP_URL := Some "https://sap.example.com:44300/sap/bc/adt?x=1#top";
     Session.SAP_USERNAME := Some "DEVELOPER";
     Session.SAP_PASSWORD := Some "secret";
     Session.SAP_CLIENT := Some "100";
     Session.RETURN_RAW_XML := Some "true" |}.

Definition json_env : Session.Env :=
  {| Session.SAP_URL := Some "https://sap.example.com:44300/sap/bc/adt?x=1#top";
     Session.SAP_USERNAME := Some "DEVELOPER";
     Session.SAP_PASSWORD := Some "secret";
     Session.SAP_CLIENT := Some "100";
     Session.RETURN_RAW_XML := None |}.

(** The URL parser on the two configured values of the examples. *)
Definition sample_URL (s : string) : Session.URL + string :=
  if String.eqb s "https://sap.example.com:44300/sap/bc/adt?x=1#top"
  then inl {| Session.origin := "https://sap.example.com:44300";
              Session.pathname := "/sap/bc/adt";
              Session.search := "?x=1";
              Session.hash := "#top" |}
  else inr "Invalid URL".

Definition fresh : Session.state :=
  {| Session.sess := {| Session.axiosInstance := false; Session.config := None;
                        Session.csrfToken := None; Session.cookies := None |};
     Session.log := [] |}.

Definition sample_config : Session.SapConfig :=
  {| Session.cfg_url := "https://sap.example.com:44300/sap/bc/adt?x=1#top";
     Session.username := "DEVELOPER";
     Session.password := "secret";
     Session.client := "100" |}.

Definition broken_env : Session.Env :=
  {| Session.SAP_URL := Some "sap.example.com";
     Session.SAP_USERNAME := Some "DEVELOPER";
     Session.SAP_PASSWORD := Some "secret";
     Session.SAP_CLIENT := Some "100";
     Session.RETURN_RAW_XML := None |}.

Definition package_node (ty name uri : option string) : any :=
  let field k o :=
    match o with
    | Some s => [(k, text_node s)]
    | None => []
    end in
  VObj (field "OBJECT_TYPE" ty ++ field "OBJECT_NAME" name ++ field "OBJECT_URI" uri).

Definition package_tree (nodes : any) : any :=
  VObj [("asx:abap",
         VObj [("asx:values",
                VObj [("DATA",
                       VObj [("TREE_CONTENT",
                              VObj [("SEU_ADT_REPOSITORY_OBJ_NODE", nodes)])])])])].

Definition node_class : any :=
  package_node (Some "CLAS/OC") (Some "ZCL_DEMO") (Some "/sap/bc/adt/oo/classes/zcl_demo").
Definition node_program : any :=
  package_node (Some "PROG/P") (Some "ZDEMO") (Some "/sap/bc/adt/programs/programs/zdemo").
Definition node_nameless : any :=
  package_node (Some "DEVC/K") None (Some "/sap/bc/adt/packages/zpkg").

(** The entry map of a key field of type CHAR(18) whose heading length is
    not a number. *)
Definition char_field : list (string * any) :=
  [ ("ddicIsKey", VStr "true"); ("ddicDataType", VStr "CHAR");
    ("ddicLength", VStr "18"); ("ddicHeadingLength", VStr "n/a") ].

Definition entry (k v : string) : any :=
  VObj [("_attributes", VObj [("abapsource:key", VStr k)]); ("_text", VStr v)].

Definition properties (entries : list any) : any :=
  VObj [("abapsource:entry", VArr entries)].

(** A bag whose only annotation has the index 7, its value first. *)
Definition sparse_properties : any :=
  properties [ entry "annotationValue.7" "B"; entry "ddicDataType" "CHAR";
               entry "label" "x"; entry "annotationKey.7" "A" ].

Definition four_entries : list any :=
  [ entry "annotationKey.0" "A"; entry "annotationValue.1" "B";
    entry "annotationValue.0" "C"; entry "annotationKey.1" "D" ].

Definition adt_url : string := "https://sap.example.com:44300/sap/bc/adt/programs".

Definition reply (code : Z) (token : option string) (cookie : option (list string))
           (payload : any) : response :=
  {| status := code;
     resp_headers := {| x_csrf_token := token; set_cookie := cookie |};
     data := payload |}.

(** A parser that rejects everything but one document, a transformer that
    throws on every tree, and a serializer of strings. *)
Definition strict_parse (d : any) : result any :=
  match d with
  | VStr "<a>1</a>" => Ok (VObj [("a", text_node "1")])
  | _ => Throw (Error "Invalid XML")
  end.

Definition failing_transformer (parsed : any) : result any :=
  Throw (Error "Cannot read properties of undefined").

Definition text_of_a (parsed : any) : result any :=
  Ok (Xml.xmlNode parsed ["a"]).

Definition quote (v : any) : result any :=
  match v with
  | VStr s => Ok (VStr (String.append (String "034" s) (String "034" "")))
  | _ => Throw (Error "Converting circular structure to JSON")
  end.

(** A server that rejects the token of the first request it sees and is
    unreachable from then on. *)
Definition down_after_403 (lg : list Session.request) : Session.outcome :=
  match lg with
  | [_] => Session.Rejected "Request failed with status code 403"
             (Some (reply 403 None None (VStr "CSRF token validation failed")))
  | _ => Session.Rejected "timeout of 30000ms exceeded" None
  end.

(** A server that hands out the token "T1" with a cookie on a token fetch,
    rejects the first request that carries it, hands out "T2" on the next
    fetch and accepts what follows. *)
Definition rotating (lg : list Session.request) : Session.outcome :=
  match lg with
  | [_] => Session.Resolved (reply 200 (Some "T1") (Some ["sid=1"; "ctx=a"]) (VStr ""))
  | [_; _] => Session.Rejected "Request failed with status code 403"
                (Some (reply 403 None None (VStr "CSRF token validation failed")))
  | [_; _; _] => Session.Rejected "Request failed with status code 405"
                   (Some (reply 405 (Some "T2") None (VStr "")))
  | _ => Session.Resolved (reply 200 None None (VStr "<ok/>"))
  end.

(** A server without tokens. *)
Definition tokenless (lg : list Session.request) : Session.outcome :=
  Session.Resolved (reply 200 None None (VStr "")).

End Examples.

(** ** Attributes of a node ([xmlNodeAttr]) *)

Module Attr.






End Attr.

(** ** Search-result transformer ([transformSearchResults]) *)

Module Search.

Module Ref.
Record t : Type := {
  name : any;
  type : any;
  uri : any;
  description : any;
  packageName : any
}.
End Ref.

Record search_results : Type := {
  type : string;
  totalCount : nat;
  results : list Ref.t
}.

Local Open Scope result_scope.

(** [parsed['adtcore:objectReferences'] || parsed]. *)
Definition searchResult (parsed : any) : result any :=
  refs <- Transform.member parsed "adtcore:objectReferences" ;;
  Ok (Js.or refs parsed).

(** The callback of [map]: the five attributes, each with [|| '']. *)
Definition to_result (obj : any) : result Ref.t :=
  attributes <- Transform.member obj "_attributes" ;;
  let attrs := Js.or attributes (VObj []) in
  Ok {| Ref.name := Js.or (Js.get attrs "adtcore:name") (VStr "");
        Ref.type := Js.or (Js.get attrs "adtcore:type") (VStr "");
        Ref.uri := Js.or (Js.get attrs "adtcore:uri") (VStr "");
        Ref.description := Js.or (Js.get attrs "adtcore:description") (VStr "");
        Ref.packageName := Js.or (Js.get attrs "adtcore:packageName") (VStr "") |}.

Definition transformSearchResults (parsed : any) : result search_results :=
  root <- searchResult parsed ;;
  let objects := Xml.xmlArray root ["adtcore:objectReference"] in
  results <- Transform.mapM to_result objects ;;
  Ok {| type := "search_results";
        totalCount := length objects;
        results := results |}.

(** A field is filled: a truthy value, or the empty string put in its
    place. *)
Definition filled (v : any) : bool :=
  Js.truthy v || match v with VStr s => String.eqb s "" | _ => false end.

Definition all_filled (r : Ref.t) : bool :=
  filled (Ref.name r) && filled (Ref.type r) && filled (Ref.uri r) &&
  filled (Ref.description r) && filled (Ref.packageName r).

End Search.

(** ** Shapes of the texts [parseInt] and the annotation pattern read *)

Module Lex.

Fixpoint all_spaces (s : string) : bool :=
  match s with
  | EmptyString => true
  | String c rest => Text.is_space c && all_spaces rest
  end.

Definition starts_with_digit (s : string) : bool :=
  match s with
  | String c _ => Js.is_digit c
  | EmptyString => false
  end.

(** A run of decimal digits, not empty. *)
Definition digits (s : string) : bool :=
  Js.all_digits s && negb (String.eqb s "").

(** A text that does not start a number: it is empty, or its first
    character is an ASCII character other than a digit, a sign or white
    space. *)
Definition no_number (s : string) : bool :=
  match s with
  | EmptyString => true
  | String c _ =>
      (nat_of_ascii c <? 128)%nat && negb (Js.is_digit c) && negb (Text.is_space c)
      && negb (Ascii.eqb c "-") && negb (Ascii.eqb c "+")
  end.

End Lex.

(** ** Error envelopes ([return_error]) and the handlers *)

Module Handlers.

(** [String(error.response?.data)] for an [AxiosError], [error.message] for
    any other error. *)
Definition error_text (e : error) : string :=
  match e with
  | AxiosError _ (Some r) => Text.to_string (data r)
  | AxiosError _ None => Text.to_string VUndef
  | Error m => m
  end.

Definition return_error (e : error) : Respond.envelope :=
  {| Respond.isError := true;
     Respond.content :=
       [ {| Respond.type := "text";
            Respond.text := VStr ("Error: " ++ error_text e) |} ] |}.

(** The object a transformer returns, as a value. *)
Definition search_value (r : Search.search_results) : any :=
  VObj [ ("type", VStr (Search.type r));
         ("totalCount", VNum (Int (Z.of_nat (Search.totalCount r))));
         ("results",
          VArr (map (fun x => VObj [ ("name", Search.Ref.name x);
                                     ("type", Search.Ref.type x);
                                     ("uri", Search.Ref.uri x);
                                     ("description", Search.Ref.description x);
                                     ("packageName", Search.Ref.packageName x) ])
                    (Search.results r))) ].

Definition package_value (r : Transform.package_info) : any :=
  VObj [ ("type", VStr (Transform.type r));
         ("totalObjects", VNum (Int (Z.of_nat (Transform.totalObjects r))));
         ("objects",
          VArr (map (fun x => VObj [ ("OBJECT_TYPE", Transform.OBJECT_TYPE x);
                                     ("OBJECT_NAME", Transform.OBJECT_NAME x);
                                     ("OBJECT_DESCRIPTION", Transform.OBJECT_DESCRIPTION x);
                                     ("OBJECT_URI", Transform.OBJECT_URI x) ])
                    (Transform.objects r))) ].

Definition search_transformer (parsed : any) : result any :=
  rbind (Search.transformSearchResults parsed) (fun r => Ok (search_value r)).

Definition package_transformer (parsed : any) : result any :=
  rbind (Transform.transformPackageInfo parsed) (fun r => Ok (package_value r)).

Section Handlers.

(** Beside the environment, the server and the platform's functions of the
    executor and of the dispatch: [encodeURIComponent], the message the
    SDK's [McpError] builds for an invalid-parameters error, and
    [String(error)]. *)
Variable env : Session.Env.
Variable net : list Session.request -> Session.outcome.
Variable new_URL : string -> Session.URL + string.
Variable fullParse : any -> result any.
Variable JSON_stringify : any -> result any.
Variable encodeURIComponent : any -> result string.
Variable mcp_message : string -> string.
Variable error_string : error -> string.

Local Open Scope exec_scope.
Import Session.

(** Code without effects run inside an [async] function. *)
Definition lift {A : Type} (r : result A) : M A := fun st => (r, st).

(** [if (!args?.k) throw new McpError(ErrorCode.InvalidParams, msg)]. *)
Definition require_arg (args : any) (k msg : string) : M unit :=
  if Js.truthy (Js.get_opt args k) then ret tt
  else throw (Error (mcp_message msg)).

Definition search_url (base encodedQuery : string) (maxResults : any) : string :=
  (base ++ "/sap/bc/adt/repository/informationsystem/search?operation=quickSearch&query="
        ++ encodedQuery ++ "&maxResults=" ++ Text.to_string maxResults)%string.

Definition handleSearchObject (args : any) : M Respond.envelope :=
  try_catch
    (require_arg args "query" "Search query is required" ;;
     let maxResults := Js.or (Js.get args "maxResults") (VNum (Int 100)) in
     encodedQuery <- lift (encodeURIComponent (Js.get args "query")) ;;
     base <- getBaseUrl env new_URL ;;
     response <- makeAdtRequest env net (search_url base encodedQuery maxResults)
                                "GET" 30000 VUndef VUndef ;;
     lift (Respond.return_response fullParse JSON_stringify env response
             (Some search_transformer)))
    (fun error => ret (return_error error)).

Definition handleGetPackage (args : any) : M Respond.envelope :=
  try_catch
    (require_arg args "package_name" "Package name is required" ;;
     base <- getBaseUrl env new_URL ;;
     let nodeContentsUrl := (base ++ "/sap/bc/adt/repository/nodestructure")%string in
     encodedPackageName <- lift (encodeURIComponent (Js.get args "package_name")) ;;
     let nodeContentsParams :=
       VObj [ ("parent_type", VStr "DEVC/K");
              ("parent_name", VStr encodedPackageName);
              ("withShortDescriptions", VBool true) ] in
     response <- makeAdtRequest env net nodeContentsUrl "POST" 30000 VUndef
                                nodeContentsParams ;;
     lift (Respond.return_response fullParse JSON_stringify env response
             (Some package_transformer)))
    (fun error => ret (return_error error)).

Definition table_url (base encodedTableName : string) (maxRows : any) : string :=
  (base ++ "/z_mcp_abap_adt/z_tablecontent/" ++ encodedTableName ++ "?maxRows="
        ++ Text.to_string maxRows)%string.

Definition handleGetTableContents (args : any) : M Respond.envelope :=
  try_catch
    (require_arg args "table_name" "Table name is required" ;;
     let maxRows := Js.or (Js.get args "max_rows") (VNum (Int 100)) in
     encodedTableName <- lift (encodeURIComponent (Js.get args "table_name")) ;;
     base <- getBaseUrl env new_URL ;;
     response <- makeAdtRequest env net (table_url base encodedTableName maxRows)
                                "GET" 30000 VUndef VUndef ;;
     lift (Respond.return_response fullParse JSON_stringify env response None))
    (fun error =>
       ret (return_error (Error
         ("GetTableContents requires custom SAP service '/z_mcp_abap_adt/z_tablecontent/'. Original error: "
          ++ error_string error)))).

End Handlers.

End Handlers.

(** ** The element tree of a CDS view ([parseDdicElement], [formatQS],
       [handleGetCdsView]) *)

Module Ddic.

(** Number of arrays and objects in a value: what the recursion of
    [parseDdicElement] decreases. *)
Fixpoint size (v : any) : nat :=
  match v with
  | VArr l => S (list_sum (map size l))
  | VObj o => S (list_sum (map (fun kv => size (snd kv)) o))
  | _ => 0
  end.

(** The trees the XML parser builds hold no [null] or [undefined] array
    element. *)
Fixpoint dense (v : any) : bool :=
  match v with
  | VArr l => forallb (fun x => negb (Js.nullish x) && dense x) l
  | VObj o => forallb (fun kv => dense (snd kv)) o
  | _ => true
  end.

Inductive DdicElement : Type :=
  Build_DdicElement (type name : any) (properties : Cds.DdicProperties)
                    (children : list DdicElement).

Definition children (e : DdicElement) : list DdicElement :=
  match e with Build_DdicElement _ _ _ c => c end.

(** [l.map(f)] where [f] may throw, the callback knowing that its argument
    is an element of [l]. *)
Fixpoint map_in {A B : Type} (l : list A)
  : (forall x, In x l -> result B) -> result (list B) :=
  match l with
  | [] => fun _ => Ok []
  | x :: rest => fun f =>
      rbind (f x (or_introl eq_refl)) (fun y =>
      rbind (map_in rest (fun x' H => f x' (or_intror H))) (fun ys =>
      Ok (y :: ys)))
  end.

Local Open Scope result_scope.

Equations parseDdicElement (raw : any) : result DdicElement by wf (size raw) lt :=
  parseDdicElement raw :=
    attributes <- Transform.member raw "_attributes" ;;
    let type := Js.get_opt attributes "adtcore:type" in
    let name := Js.get_opt attributes "adtcore:name" in
    properties <- Cds.parseDDICProps (Js.get raw "abapsource:properties") ;;
    children <- map_in (Xml.xmlArray raw ["abapsource:elementInfo"])
                       (fun x H => parseDdicElement x) ;;
    Ok (Build_DdicElement type name properties children).
Next Obligation.
  assert (size_elem : forall (y : any) (l : list any),
             In y l -> size y <= list_sum (map size l)).
  { intros y l. induction l as [|z l IH]; [intros []|].
    change (list_sum (map size (z :: l))) with (size z + list_sum (map size l)).
    intros [->|Hy]; [lia|]. specialize (IH Hy). lia. }
  assert (size_assoc : forall (k : string) (o : list (string * any)) (y : any),
             Js.assoc k o = Some y ->
             size y <= list_sum (map (fun kv => size (snd kv)) o)).
  { intros k o y. induction o as [|[k' v] o IH]; [discriminate|].
    change (list_sum (map (fun kv => size (snd kv)) ((k', v) :: o)))
      with (size v + list_sum (map (fun kv => size (snd kv)) o)).
    cbn [Js.assoc].
    destruct (String.eqb k k'); [intros [= ->]; lia|].
    intros Hy. specialize (IH Hy). lia. }
  assert (size_get : forall (v : any) (k : string),
             size (Js.get v k) <= size v /\
             (Js.is_object v = true -> Js.truthy v = true -> size (Js.get v k) < size v)).
  { intros v k. destruct v as [| | | | |l|o];
      try (split; [cbn; lia | discriminate]);
      cbn [Js.get size].
    - destruct (String.eqb k "length"); [cbn; lia|].
      destruct (Js.array_index k) as [i|]; [|cbn; lia].
      destruct (nth_in_or_default i l VUndef) as [Hy|Hy].
      + apply size_elem in Hy. lia.
      + rewrite Hy. cbn. lia.
    - destruct (Js.assoc k o) as [y|] eqn:E; [|cbn; lia].
      apply size_assoc in E. lia. }
  revert H. unfold Xml.xmlArray, Xml.xmlNode. cbn [Xml.walk].
  destruct (Js.truthy raw && Js.is_object raw
            && Js.has_property raw "abapsource:elementInfo") eqn:E; [|intros []].
  apply andb_prop in E as [E _]. apply andb_prop in E as [Et Eo].
  pose proof (proj2 (size_get raw "abapsource:elementInfo") Eo Et) as Hlt.
  set (current := Js.get raw "abapsource:elementInfo") in *.
  assert (Hle : size (Js.or (Js.get_opt current "_text") current) <= size current).
  { unfold Js.or, Js.get_opt. destruct (Js.nullish current); [cbn [Js.truthy]; lia|].
    destruct (Js.truthy (Js.get current "_text")); [apply size_get|lia]. }
  set (node := Js.or _ current) in *.
  destruct (negb (Js.truthy node)); [intros []|].
  destruct node as [| | | | |l|o] eqn:En; try (intros [<-|[]]; lia).
  intros Hx. apply size_elem in Hx. cbn [size] in Hle. lia.
Qed.

(** The values [JSON.stringify] is given: [elementProps] is [false] when
    the bag has no data type, and a hole of [annotations] reads as
    [undefined]. *)
Definition annotation_value (a : option Cds.DdicAnnotation) : any :=
  match a with
  | Some x => VObj [("key", Cds.key x); ("value", Cds.value x)]
  | None => VUndef
  end.

Definition elementProps_value (p : option Cds.ElementProps) : any :=
  match p with
  | Some x =>
      VObj [ ("ddicIsKey", VBool (Cds.ddicIsKey x));
             ("ddicDataElement", Cds.ddicDataElement x);
             ("ddicDataType", Cds.ddicDataType x);
             ("ddicLength", Cds.ddicLength x);
             ("ddicDecimals", Cds.ddicDecimals x);
             ("ddicHeading", Cds.ddicHeading x);
             ("ddicLabelShort", Cds.ddicLabelShort x);
             ("ddicLabelMedium", Cds.ddicLabelMedium x);
             ("ddicLabelLong", Cds.ddicLabelLong x);
             ("ddicHeadingLength", Cds.ddicHeadingLength x);
             ("ddicLabelShortLength", Cds.ddicLabelShortLength x);
             ("ddicLabelMediumLength", Cds.ddicLabelMediumLength x);
             ("ddicLabelLongLength", Cds.ddicLabelLongLength x);
             ("parentName", Cds.parentName x) ]
  | None => VBool false
  end.

Definition properties_value (p : Cds.DdicProperties) : any :=
  VObj [ ("elementProps", elementProps_value (Cds.elementProps p));
         ("annotations", VArr (map annotation_value (Cds.annotations p))) ].

Fixpoint element_value (e : DdicElement) : any :=
  match e with
  | Build_DdicElement type name properties children =>
      VObj [ ("type", type); ("name", name);
             ("properties", properties_value properties);
             ("children", VArr (map element_value children)) ]
  end.

(** The pairs [formatQS] appends to the [URLSearchParams], for an object
    whose keys are not integer-like. *)
Definition formatQS_pairs (params : list (string * any)) : list (string * string) :=
  flat_map (fun kv =>
              match snd kv with
              | VArr l => map (fun v => (fst kv, Text.to_string v)) l
              | VUndef | VNull => []
              | value => [(fst kv, Text.to_string value)]
              end) params.

(** A destructured variable with a default: the default replaces
    [undefined] only. *)
Definition with_default (v d : any) : any :=
  match v with
  | VUndef => d
  | _ => v
  end.

Section Handler.

Variable env : Session.Env.
Variable net : list Session.request -> Session.outcome.
Variable new_URL : string -> Session.URL + string.
Variable fullParse : any -> result any.
Variable JSON_stringify : any -> result any.
Variable URLSearchParams_toString : list (string * string) -> string.
Variable mcp_message : string -> string.

Local Open Scope exec_scope.
Import Session.

Definition formatQS (params : list (string * any)) : string :=
  URLSearchParams_toString (formatQS_pairs params).

Definition cds_query (args : any) : list (string * any) :=
  [ ("getTargetForAssociation",
     with_default (Js.get args "getTargetForAssociation") (VBool false));
    ("getExtensionViews", with_default (Js.get args "getExtensionViews") (VBool true));
    ("getSecondaryObjects", with_default (Js.get args "getSecondaryObjects") (VBool true));
    ("path", Js.get args "path") ].

Definition handleGetCdsView (args : any) : M Respond.envelope :=
  try_catch
    (Handlers.require_arg mcp_message args "path" "Path is required" ;;
     let qs := formatQS (cds_query args) in
     base <- getBaseUrl env new_URL ;;
     response <- makeAdtRequest env net
                   (base ++ "/sap/bc/adt/ddic/ddl/elementinfo?" ++ qs)%string
                   "GET" 30000 VUndef VUndef ;;
     raw <- Handlers.lift (fullParse (data response)) ;;
     root <- Handlers.lift (Transform.member raw "abapsource:elementInfo") ;;
     element <- Handlers.lift (parseDdicElement root) ;;
     text <- Handlers.lift (JSON_stringify (element_value element)) ;;
     ret {| Respond.isError := false;
            Respond.content := [ {| Respond.type := "text"; Respond.text := text |} ] |})
    (fun error => ret (Handlers.return_error error)).

End Handler.

End Ddic.

(** ** More sample data *)

Module Examples2.

Definition reference (nm ty : string) : any :=
  VObj [("_attributes", VObj [("adtcore:name", VStr nm); ("adtcore:type", VStr ty)])].

Definition two_references : any :=
  VObj [("adtcore:objectReferences",
         VObj [("adtcore:objectReference",
                VArr [reference "ZCL_DEMO" "CLAS/OC"; reference "ZDEMO" "PROG/P"])])].

Definition one_reference : any :=
  VObj [("adtcore:objectReferences",
         VObj [("adtcore:objectReference", reference "ZCL_DEMO" "CLAS/OC")])].

(** A server that rejects the token of the first request and then hands out
    the token "T9" with a new cookie. *)
Definition rotating_cookie (lg : list Session.request) : Session.outcome :=
  match lg with
  | [_] => Session.Rejected "Request failed with status code 403"
             (Some (Examples.reply 403 None None (VStr "CSRF token validation failed")))
  | [_; _] => Session.Resolved (Examples.reply 200 (Some "T9") (Some ["sid=new"]) (VStr ""))
  | _ => Session.Resolved (Examples.reply 200 None None (VStr "<ok/>"))
  end.

(** A server that answers 403 with a JSON body. *)
Definition json_403 (lg : list Session.request) : Session.outcome :=
  Session.Rejected "Request failed with status code 403"
    (Some (Examples.reply 403 None None (VObj [("error", VStr "CSRF")]))).

(** [encodeURIComponent] on the names of the examples. *)
Definition encode_sample (v : any) : result string :=
  match v with
  | VStr "MARA" => Ok "MARA"
  | VStr "Z DEMO" => Ok "Z%20DEMO"
  | _ => Throw (Error "URI malformed")
  end.

(** The message of an [McpError] with the code [InvalidParams]. *)
Definition invalid_params (msg : string) : string :=
  String.append "MCP error -32602: " msg.

Definition show_error (e : error) : string :=
  match e with
  | Error m => String.append "Error: " m
  | AxiosError m _ => String.append "AxiosError: " m
  end.

(** A server that never answers. *)
Definition unreachable (lg : list Session.request) : Session.outcome :=
  Session.Rejected "timeout of 30000ms exceeded" None.

(** A server whose answers are JSON rows and carry no token. *)
Definition rows (lg : list Session.request) : Session.outcome :=
  Session.Resolved (Examples.reply 200 None None (VStr "[{'MATNR':'1'}]")).

(** An element of a CDS view with its nested elements. *)
Definition element (nm ty : string) (nested : list (string * any)) : any :=
  VObj (("_attributes", VObj [("adtcore:name", VStr nm); ("adtcore:type", VStr ty)])
        :: nested).

Definition view : any :=
  element "ZV_DEMO" "DDLS/DF"
    [("abapsource:elementInfo", element "MATNR" "DDLS/DF/F" [])].

(** The serialization of a query whose keys and values need no escaping. *)
Definition plain_query (pairs : list (string * string)) : string :=
  String.concat "&" (map (fun kv => String.append (fst kv) (String.append "=" (snd kv))) pairs).

End Examples2.

(* ================================================================== *)
(** * Part II: lemmas and theorems                                     *)
(* ================================================================== *)

(** ** XML navigation *)

Lemma assoc_text_leaves (o : list (string * any)) (k : string) (x : any) :
  Xml.text_leaves (VObj o) = true ->
  Js.assoc k o = Some x ->
  Xml.text_leaves x = true /\ (k = "_text" -> Js.is_string x = true).
Proof.
  induction o as [|[k' v'] o IH]; simpl; [discriminate|].
  intros Hwf Hk.
  apply andb_prop in Hwf as [Hhd Htl].
  apply andb_prop in Hhd as [Htxt Hsub].
  destruct (String.eqb k k') eqn:E.
  - apply String.eqb_eq in E. subst k'. inversion Hk; subst x. split; [exact Hsub|].
    intros ->. simpl in Htxt. exact Htxt.
  - apply IH; assumption.
Qed.

Lemma nth_text_leaves (l : list any) (i : nat) :
  forallb Xml.text_leaves l = true -> Xml.text_leaves (nth i l VUndef) = true.
Proof.
  revert i. induction l as [|x l IH]; intros [|i] H; simpl in *; try reflexivity.
  - apply andb_prop in H as [H _]. exact H.
  - apply andb_prop in H as [_ H]. apply IH. exact H.
Qed.

Lemma get_text_leaves (v : any) (k : string) :
  Xml.text_leaves v = true -> Xml.text_leaves (Js.get v k) = true.
Proof.
  intros Hwf. destruct v; simpl; try reflexivity.
  - destruct (String.eqb k "length"); [reflexivity|].
    destruct (Js.array_index k); [|reflexivity].
    apply nth_text_leaves. exact Hwf.
  - destruct (Js.assoc k props) eqn:E; [|reflexivity].
    eapply assoc_text_leaves; eassumption.
Qed.

Lemma walk_text_leaves (path : list string) :
  forall tree current,
    Xml.text_leaves tree = true ->
    Xml.walk tree path = Some current ->
    Xml.text_leaves current = true.
Proof.
  induction path as [|key rest IH]; simpl; intros tree current Hwf Hw.
  - inversion Hw; subst; exact Hwf.
  - destruct (Js.truthy tree && Js.is_object tree && Js.has_property tree key);
      [|discriminate].
    eapply IH; [|exact Hw]. apply get_text_leaves. exact Hwf.
Qed.

(** What [current?._text || current] is on an element node of a tree with
    text leaves: its text when it has some, the node itself otherwise. *)
Lemma text_or_node (o : list (string * any)) :
  Xml.text_leaves (VObj o) = true ->
  Js.or (Js.get_opt (VObj o) "_text") (VObj o) = VObj o \/
  exists s, s <> "" /\ Js.get (VObj o) "_text" = VStr s /\
            Js.or (Js.get_opt (VObj o) "_text") (VObj o) = VStr s.
Proof.
  intros Hwf. unfold Js.get_opt, Js.get. simpl Js.nullish. cbv iota.
  destruct (Js.assoc "_text" o) as [x|] eqn:E.
  - destruct (assoc_text_leaves _ _ _ Hwf E) as [_ Hs].
    specialize (Hs eq_refl). destruct x; try discriminate.
    unfold Js.or. simpl. destruct (String.eqb s "") eqn:Es; simpl.
    + left; reflexivity.
    + right. exists s. apply String.eqb_neq in Es. auto.
  - left. reflexivity.
Qed.

(** C4, as the specification words it: a path that resolves to a single
    occurrence would give a one-element list on every parsed tree. An
    element with two runs of text around a child, [<a>foo<b/>bar</a>], has
    the array of its runs as [_text]; [xmlNode] returns that array in place
    of the element and [xmlArray] passes it on, two elements long. *)
Lemma xmlArray_single_occurrence_counterexample :
  ~ (forall tree path o,
       Xml.walk tree path = Some (VObj o) ->
       exists x, Xml.xmlArray tree path = [x]).
Proof.
  intros H.
  destruct (H Examples.mixed_content ["a"]
              [("_text", VArr [VStr "foo"; VStr "bar"]); ("b", VObj [])] eq_refl)
    as (x & Hx).
  discriminate Hx.
Qed.

(** C4, amended. On a tree whose texts are strings, and along a path none
    of whose segments is the name of an inherited property, [xmlArray]
    coerces what the path resolves to into a list: a repeated element (an
    array) is returned unchanged, so its length is the number of
    occurrences; a single element gives a one-element list (the element, or
    its text when it has some); an absent path gives the empty list.
    [xmlNode] and [xmlArray] only read the tree, so they are functions of
    the tree and the path and a second call returns the same list; coercing
    a result again changes nothing. *)
Theorem xmlArray_coercion (tree : any) (path : list string) :
  Xml.text_leaves tree = true ->
  forallb (fun key => negb (Js.inherited key)) path = true ->
  (forall l, Xml.walk tree path = Some (VArr l) -> Xml.xmlArray tree path = l) /\
  (forall o, Xml.walk tree path = Some (VObj o) ->
     exists x, Xml.xmlArray tree path = [x] /\
               (x = VObj o \/ x = Js.get (VObj o) "_text")) /\
  (Xml.walk tree path = None -> Xml.xmlArray tree path = []) /\
  Xml.xmlArray (VArr (Xml.xmlArray tree path)) [] = Xml.xmlArray tree path.
Proof.
  intros Hwf _. split; [|split; [|split]].
  - intros l Hw. unfold Xml.xmlArray, Xml.xmlNode. rewrite Hw. reflexivity.
  - intros o Hw. unfold Xml.xmlArray, Xml.xmlNode. rewrite Hw.
    pose proof (walk_text_leaves _ _ _ Hwf Hw) as Ho.
    destruct (text_or_node o Ho) as [-> | (s & Hne & Hget & ->)].
    + exists (VObj o). simpl. auto.
    + exists (VStr s). split; [|right; symmetry; exact Hget].
      apply String.eqb_neq in Hne. simpl. rewrite Hne. reflexivity.
  - intros Hw. unfold Xml.xmlArray, Xml.xmlNode. rewrite Hw. reflexivity.
  - reflexivity.
Qed.

Lemma xmlArray_coercion_witness :
  Xml.text_leaves Examples.element_tree = true /\
  Xml.xmlArray Examples.element_tree ["props"; "entry"] =
    [Examples.text_node "CHAR"; Examples.text_node "NUMC"] /\
  length (Xml.xmlArray Examples.element_tree ["props"; "name"]) = 1 /\
  Xml.xmlArray Examples.element_tree ["props"; "missing"] = [].
Proof.
  assert (Hwf : Xml.text_leaves Examples.element_tree = true) by reflexivity.
  split; [exact Hwf|]. split; [|split].
  - apply (proj1 (xmlArray_coercion _ ["props"; "entry"] Hwf eq_refl)). reflexivity.
  - destruct (proj1 (proj2 (xmlArray_coercion _ ["props"; "name"] Hwf eq_refl))
                [("_text", VStr "MATNR")] eq_refl) as (x & -> & _).
    reflexivity.
  - apply (proj1 (proj2 (proj2 (xmlArray_coercion _ ["props"; "missing"] Hwf eq_refl)))).
    reflexivity.
Defined.

(** ** Transformation dispatch *)

(** C2. With a transformer and raw mode off, when the XML parser, the
    transformer or the serializer throws, [return_response] still returns
    (it does not throw) the envelope with [isError: false] whose text is the
    untransformed response body. Whatever happens, the envelope it returns
    never has [isError: true]. *)
Theorem return_response_falls_back
        (fullParse JSON_stringify : any -> result any) (env : Session.Env)
        (r : response) (transformer : any -> result any) :
  Respond.returnRawXml env = false ->
  ((exists e, fullParse (data r) = Throw e) \/
   (exists parsed e, fullParse (data r) = Ok parsed /\ transformer parsed = Throw e) \/
   (exists parsed transformed e,
      fullParse (data r) = Ok parsed /\ transformer parsed = Ok transformed /\
      JSON_stringify transformed = Throw e)) ->
  Respond.return_response fullParse JSON_stringify env r (Some transformer)
    = Ok {| Respond.isError := false;
            Respond.content := [ {| Respond.type := "text"; Respond.text := data r |} ] |}
  /\ (forall other,
        exists envelope,
          Respond.return_response fullParse JSON_stringify env r other = Ok envelope /\
          Respond.isError envelope = false).
Proof.
  intros Hraw Hthrows. split.
  - unfold Respond.return_response. rewrite Hraw. simpl.
    destruct Hthrows as [[e He] | [(parsed & e & Hp & He) | (parsed & tr & e & Hp & Ht & He)]].
    + rewrite He. reflexivity.
    + rewrite Hp. simpl. rewrite He. reflexivity.
    + rewrite Hp. simpl. rewrite Ht. simpl. rewrite He. reflexivity.
  - intros other. unfold Respond.return_response. rewrite Hraw. simpl.
    destruct other as [f|]; [|eexists; split; reflexivity].
    destruct (fullParse (data r)) as [parsed|e]; simpl; [|eexists; split; reflexivity].
    destruct (f parsed) as [tr|e]; simpl; [|eexists; split; reflexivity].
    destruct (JSON_stringify tr) as [json|e]; simpl; eexists; split; reflexivity.
Qed.

Lemma return_response_falls_back_witness :
  Respond.returnRawXml Examples.json_env = false /\
  Respond.return_response Examples.strict_parse Examples.quote Examples.json_env
    (Examples.reply 200 None None (VStr "<a>1</a>"))
    (Some Examples.failing_transformer)
  = Ok {| Respond.isError := false;
          Respond.content := [ {| Respond.type := "text";
                                  Respond.text := VStr "<a>1</a>" |} ] |} /\
  Respond.return_response Examples.strict_parse Examples.quote Examples.json_env
    (Examples.reply 200 None None (VStr "<a>"))
    (Some Examples.text_of_a)
  = Ok {| Respond.isError := false;
          Respond.content := [ {| Respond.type := "text";
                                  Respond.text := VStr "<a>" |} ] |}.
Proof.
  split; [reflexivity|]. split.
  - apply (return_response_falls_back Examples.strict_parse Examples.quote
             Examples.json_env (Examples.reply 200 None None (VStr "<a>1</a>"))
             Examples.failing_transformer); [reflexivity|].
    right; left. eexists; eexists; split; reflexivity.
  - apply (return_response_falls_back Examples.strict_parse Examples.quote
             Examples.json_env (Examples.reply 200 None None (VStr "<a>"))
             Examples.text_of_a); [reflexivity|].
    left. eexists; reflexivity.
Defined.

(** C8. Raw mode is on exactly when [RETURN_RAW_XML] is the string "true".
    In raw mode a transformer-bearing operation returns the response body
    itself as its text; in any other case (flag absent, or any other string)
    a transformation that succeeds returns the serialized transformed tree. *)
Theorem raw_mode_returns_body
        (fullParse JSON_stringify : any -> result any) (env : Session.Env)
        (r : response) (transformer : any -> result any) :
  (Respond.returnRawXml env = true <-> Session.RETURN_RAW_XML env = Some "true") /\
  (Session.RETURN_RAW_XML env = Some "true" ->
   Respond.return_response fullParse JSON_stringify env r (Some transformer)
   = Ok {| Respond.isError := false;
           Respond.content := [ {| Respond.type := "text"; Respond.text := data r |} ] |}) /\
  (Session.RETURN_RAW_XML env <> Some "true" ->
   forall parsed transformed json,
     fullParse (data r) = Ok parsed ->
     transformer parsed = Ok transformed ->
     JSON_stringify transformed = Ok json ->
     Respond.return_response fullParse JSON_stringify env r (Some transformer)
     = Ok {| Respond.isError := false;
             Respond.content := [ {| Respond.type := "text"; Respond.text := json |} ] |}).
Proof.
  assert (Hflag : Respond.returnRawXml env = true <->
                  Session.RETURN_RAW_XML env = Some "true").
  { unfold Respond.returnRawXml. destruct (Session.RETURN_RAW_XML env) as [s|].
    - split.
      + intros H. apply String.eqb_eq in H. congruence.
      + intros H. inversion H. reflexivity.
    - split; discriminate. }
  split; [exact Hflag|]. split.
  - intros H. apply Hflag in H. unfold Respond.return_response. rewrite H. reflexivity.
  - intros H parsed tr json Hp Ht Hj.
    unfold Respond.return_response.
    destruct (Respond.returnRawXml env) eqn:E.
    + exfalso. apply H. apply Hflag. reflexivity.
    + simpl. rewrite Hp. simpl. rewrite Ht. simpl. rewrite Hj. reflexivity.
Qed.

Lemma raw_mode_returns_body_witness :
  Respond.return_response Examples.strict_parse Examples.quote Examples.raw_env
    (Examples.reply 200 None None (VStr "<a>1</a>")) (Some Examples.text_of_a)
  = Ok {| Respond.isError := false;
          Respond.content := [ {| Respond.type := "text";
                                  Respond.text := VStr "<a>1</a>" |} ] |} /\
  Respond.return_response Examples.strict_parse Examples.quote Examples.json_env
    (Examples.reply 200 None None (VStr "<a>1</a>")) (Some Examples.text_of_a)
  = Ok {| Respond.isError := false;
          Respond.content := [ {| Respond.type := "text";
                                  Respond.text := VStr (String "034" (String.append "1" (String "034" ""))) |} ] |}.
Proof.
  split.
  - apply (proj1 (proj2 (raw_mode_returns_body Examples.strict_parse Examples.quote
             Examples.raw_env (Examples.reply 200 None None (VStr "<a>1</a>"))
             Examples.text_of_a))).
    reflexivity.
  - apply (proj2 (proj2 (raw_mode_returns_body Examples.strict_parse Examples.quote
             Examples.json_env (Examples.reply 200 None None (VStr "<a>1</a>"))
             Examples.text_of_a)) ltac:(discriminate)
             (VObj [("a", Examples.text_node "1")]) (VStr "1")); reflexivity.
Defined.

(** ** Session: configuration and base URL *)

Lemma load_config_loaded (env : Session.Env) (st : Session.state) (c : Session.SapConfig) :
  fst (Session.load_config env st) = Ok c ->
  Session.load_config env st = (Ok c, Session.loaded c st).
Proof.
  unfold Session.load_config, Session.bind, Session.get_session, Session.loaded.
  destruct st as [[ax cfg tok ck] lg]; simpl.
  destruct cfg as [c0|]; simpl.
  - intros H; inversion H; subst. reflexivity.
  - destruct (Session.getConfig env) as [c0|e]; simpl.
    + intros H; inversion H; subst. reflexivity.
    + discriminate.
Qed.

(** C10. With a configured URL that parses, [getBaseUrl] returns the origin
    of the parsed URL and nothing else: the path, the query and the fragment
    of the configured value do not reach the result. With a configured value
    that does not parse, it throws an error whose message is
    "Invalid URL in configuration: " followed by the parser's message. *)
Theorem getBaseUrl_origin (env : Session.Env) (new_URL : string -> Session.URL + string)
        (st : Session.state) (c : Session.SapConfig) :
  fst (Session.load_config env st) = Ok c ->
  (forall o p q h,
     new_URL (Session.cfg_url c)
       = inl {| Session.origin := o; Session.pathname := p;
                Session.search := q; Session.hash := h |} ->
     fst (Session.getBaseUrl env new_URL st) = Ok o) /\
  (forall msg,
     new_URL (Session.cfg_url c) = inr msg ->
     fst (Session.getBaseUrl env new_URL st)
       = Throw (Error ("Invalid URL in configuration: " ++ msg))).
Proof.
  intros Hc. apply load_config_loaded in Hc.
  unfold Session.getBaseUrl, Session.bind. rewrite Hc. split.
  - intros o p q h ->. reflexivity.
  - intros msg ->. reflexivity.
Qed.

Lemma getBaseUrl_origin_witness :
  fst (Session.load_config Examples.json_env Examples.fresh) = Ok Examples.sample_config /\
  fst (Session.getBaseUrl Examples.json_env Examples.sample_URL Examples.fresh)
    = Ok "https://sap.example.com:44300" /\
  fst (Session.getBaseUrl Examples.broken_env Examples.sample_URL Examples.fresh)
    = Throw (Error "Invalid URL in configuration: Invalid URL").
Proof.
  split; [reflexivity|]. split.
  - apply (proj1 (getBaseUrl_origin Examples.json_env Examples.sample_URL
                    Examples.fresh Examples.sample_config eq_refl)
                 _ "/sap/bc/adt" "?x=1" "#top").
    reflexivity.
  - apply (proj2 (getBaseUrl_origin Examples.broken_env Examples.sample_URL
                    Examples.fresh
                    {| Session.cfg_url := "sap.example.com";
                       Session.username := "DEVELOPER";
                       Session.password := "secret";
                       Session.client := "100" |} eq_refl) "Invalid URL").
    reflexivity.
Defined.

(** ** Package-info transformer *)

Lemma truthy_and (a b : any) :
  Js.truthy (Js.and a b) = Js.truthy a && Js.truthy b.
Proof.
  unfold Js.and. destruct (Js.truthy a) eqn:E; simpl; [reflexivity | exact E].
Qed.

Lemma has_name_and_uri_keep (node : any) :
  Js.nullish node = false ->
  Transform.has_name_and_uri node
  = Ok (Transform.has_name node && Transform.has_uri node).
Proof.
  intros Hn. unfold Transform.has_name_and_uri, Transform.member.
  rewrite Hn. simpl. rewrite truthy_and. reflexivity.
Qed.

Lemma has_name_and_uri_ok (node : any) (b : bool) :
  Transform.has_name_and_uri node = Ok b ->
  Js.nullish node = false /\ b = Transform.has_name node && Transform.has_uri node.
Proof.
  intros H. destruct (Js.nullish node) eqn:Hn.
  - unfold Transform.has_name_and_uri, Transform.member in H. rewrite Hn in H.
    discriminate.
  - rewrite (has_name_and_uri_keep _ Hn) in H. inversion H. auto.
Qed.

Lemma filterM_ok (nodes kept : list any) :
  Transform.filterM Transform.has_name_and_uri nodes = Ok kept ->
  kept = List.filter Transform.keeps nodes /\ Forall (fun n => Js.nullish n = false) nodes.
Proof.
  revert kept. induction nodes as [|n nodes IH]; simpl; intros kept H.
  - inversion H. auto.
  - destruct (Transform.has_name_and_uri n) as [b|e] eqn:Hb; simpl in H; [|discriminate].
    destruct (Transform.filterM Transform.has_name_and_uri nodes) as [k|e] eqn:Hk;
      simpl in H; [|discriminate].
    apply has_name_and_uri_ok in Hb as [Hn ->].
    destruct (IH k eq_refl) as [-> Hall].
    inversion H; subst kept. split; [reflexivity | constructor; assumption].
Qed.

Lemma filterM_total (nodes : list any) :
  Forall (fun n => Js.nullish n = false) nodes ->
  Transform.filterM Transform.has_name_and_uri nodes = Ok (List.filter Transform.keeps nodes).
Proof.
  induction 1 as [|n nodes Hn _ IH]; simpl; [reflexivity|].
  rewrite (has_name_and_uri_keep _ Hn). simpl. rewrite IH. reflexivity.
Qed.

Lemma truthy_get_opt_not_nullish (v : any) (k : string) :
  Js.truthy (Js.get_opt v k) = true -> Js.nullish v = false.
Proof.
  unfold Js.get_opt. destruct (Js.nullish v); [discriminate | reflexivity].
Qed.

Lemma to_object_ok (node : any) (o : Transform.package_object) :
  Transform.to_object node = Ok o -> o = Transform.record_of node.
Proof.
  unfold Transform.to_object, Transform.member, Transform.record_of.
  destruct (Js.nullish node); simpl; [discriminate|].
  destruct (Js.nullish (Js.get node "OBJECT_TYPE")); simpl; [discriminate|].
  destruct (Js.nullish (Js.get node "OBJECT_NAME")); simpl; [discriminate|].
  destruct (Js.nullish (Js.get node "OBJECT_URI")); simpl; [discriminate|].
  intros H; inversion H; reflexivity.
Qed.

Lemma to_object_total (node : any) :
  Js.nullish node = false -> Transform.keeps node = true -> Transform.has_type node = true ->
  Transform.to_object node = Ok (Transform.record_of node).
Proof.
  intros Hn Hk Ht. apply andb_prop in Hk as [Hname Huri].
  apply truthy_get_opt_not_nullish in Hname, Huri.
  unfold Transform.has_type in Ht. apply negb_true_iff in Ht.
  unfold Transform.to_object, Transform.member.
  rewrite Hn; simpl. rewrite Ht; simpl. rewrite Hname; simpl. rewrite Huri; simpl.
  reflexivity.
Qed.

Lemma mapM_ok (kept : list any) (os : list Transform.package_object) :
  Transform.mapM Transform.to_object kept = Ok os ->
  os = map Transform.record_of kept.
Proof.
  revert os. induction kept as [|n kept IH]; simpl; intros os H.
  - inversion H; reflexivity.
  - destruct (Transform.to_object n) as [o|e] eqn:Ho; simpl in H; [|discriminate].
    destruct (Transform.mapM Transform.to_object kept) as [os'|e]; simpl in H;
      [|discriminate].
    inversion H. rewrite (to_object_ok _ _ Ho), (IH os' eq_refl). reflexivity.
Qed.

Lemma mapM_total (nodes : list any) :
  Forall (fun n => Js.nullish n = false) nodes ->
  Forall (fun n => Transform.keeps n = true -> Transform.has_type n = true) nodes ->
  Transform.mapM Transform.to_object (List.filter Transform.keeps nodes)
  = Ok (map Transform.record_of (List.filter Transform.keeps nodes)).
Proof.
  induction 1 as [|n nodes Hn _ IH]; intros Hty; simpl; [reflexivity|].
  inversion Hty as [|? ? Ht Hty']; subst.
  destruct (Transform.keeps n) eqn:Hk; [|apply IH; assumption].
  simpl. rewrite (to_object_total _ Hn Hk (Ht eq_refl)). simpl.
  rewrite (IH Hty'). reflexivity.
Qed.

Lemma filter_length_perm (f : any -> bool) (l l' : list any) :
  Permutation l l' -> length (List.filter f l) = length (List.filter f l').
Proof.
  induction 1; simpl.
  - reflexivity.
  - destruct (f x); simpl; congruence.
  - destruct (f x), (f y); reflexivity.
  - congruence.
Qed.

(** C6, as the code has it. The transformer removes exactly the node
    entries that lack a name or lack a URI (it keeps those that have both),
    maps the others to the record {OBJECT_TYPE, OBJECT_NAME,
    OBJECT_DESCRIPTION, OBJECT_URI}, and sets [totalObjects] to the length
    of [objects]; it returns whenever the entries are nodes and the kept ones
    have a type. With three entries of which one lacks its name and the two
    others are complete, in any order, [objects] has length 2 and
    [totalObjects] is 2. *)
Theorem transformPackageInfo_keeps_named_with_uri (parsed : any) :
  (forall r,
     Transform.transformPackageInfo parsed = Ok r ->
     exists nodes,
       Transform.package_nodes parsed = Ok nodes /\
       Transform.objects r
         = map Transform.record_of
               (List.filter Transform.keeps nodes) /\
       Transform.totalObjects r = length (Transform.objects r) /\
       Transform.type r = "package_info") /\
  (forall nodes,
     Transform.package_nodes parsed = Ok nodes ->
     Forall (fun n => Js.nullish n = false) nodes ->
     Forall (fun n => Transform.keeps n = true -> Transform.has_type n = true) nodes ->
     exists r, Transform.transformPackageInfo parsed = Ok r) /\
  (forall nodes nameless complete1 complete2,
     Transform.package_nodes parsed = Ok nodes ->
     Permutation nodes [nameless; complete1; complete2] ->
     Js.nullish nameless = false ->
     Transform.has_name nameless = false ->
     Transform.keeps complete1 && Transform.has_type complete1 = true ->
     Transform.keeps complete2 && Transform.has_type complete2 = true ->
     exists r,
       Transform.transformPackageInfo parsed = Ok r /\
       length (Transform.objects r) = 2 /\ Transform.totalObjects r = 2).
Proof.
  assert (Htotal : forall nodes,
     Transform.package_nodes parsed = Ok nodes ->
     Forall (fun n => Js.nullish n = false) nodes ->
     Forall (fun n => Transform.keeps n = true -> Transform.has_type n = true) nodes ->
     Transform.transformPackageInfo parsed
     = Ok {| Transform.type := "package_info";
             Transform.totalObjects :=
               length (map Transform.record_of (List.filter Transform.keeps nodes));
             Transform.objects := map Transform.record_of (List.filter Transform.keeps nodes) |}).
  { intros nodes Hn Hnull Hty. unfold Transform.transformPackageInfo.
    rewrite Hn. simpl. rewrite (filterM_total _ Hnull). simpl.
    rewrite (mapM_total _ Hnull Hty). reflexivity. }
  split; [|split].
  - intros r H. unfold Transform.transformPackageInfo in H.
    destruct (Transform.package_nodes parsed) as [nodes|e]; simpl in H; [|discriminate].
    destruct (Transform.filterM Transform.has_name_and_uri nodes) as [kept|e] eqn:Hf;
      simpl in H; [|discriminate].
    destruct (Transform.mapM Transform.to_object kept) as [os|e] eqn:Hm;
      simpl in H; [|discriminate].
    apply filterM_ok in Hf as [-> _]. apply mapM_ok in Hm as ->.
    inversion H; subst r; simpl. exists nodes. auto.
  - intros nodes Hn Hnull Hty. eexists. apply (Htotal nodes Hn Hnull Hty).
  - intros nodes bad g1 g2 Hn Hperm Hbad Hnoname Hg1 Hg2.
    apply andb_prop in Hg1 as [Hk1 Ht1]. apply andb_prop in Hg2 as [Hk2 Ht2].
    assert (Hnn : forall g, Transform.keeps g = true -> Js.nullish g = false).
    { intros g Hk. apply andb_prop in Hk as [Hk _]. unfold Transform.has_name in Hk.
      apply truthy_get_opt_not_nullish in Hk. destruct g; try reflexivity; discriminate. }
    assert (Hnull : Forall (fun n => Js.nullish n = false) nodes).
    { apply (Permutation_Forall (Permutation_sym Hperm)).
      repeat constructor; auto. }
    assert (Hty : Forall (fun n => Transform.keeps n = true -> Transform.has_type n = true) nodes).
    { apply (Permutation_Forall (Permutation_sym Hperm)).
      repeat constructor; auto.
      unfold Transform.keeps. rewrite Hnoname. discriminate. }
    eexists. split; [apply (Htotal nodes Hn Hnull Hty)|].
    assert (Hkb : Transform.keeps bad = false).
    { unfold Transform.keeps. rewrite Hnoname. reflexivity. }
    simpl. rewrite length_map.
    rewrite (filter_length_perm Transform.keeps _ _ Hperm). simpl.
    rewrite Hkb, Hk1, Hk2. split; reflexivity.
Qed.

Lemma transformPackageInfo_keeps_named_with_uri_witness :
  exists r,
    Transform.transformPackageInfo
      (Examples.package_tree
         (VArr [Examples.node_class; Examples.node_nameless; Examples.node_program]))
    = Ok r /\
    length (Transform.objects r) = 2 /\ Transform.totalObjects r = 2.
Proof.
  apply (proj2 (proj2 (transformPackageInfo_keeps_named_with_uri
           (Examples.package_tree
              (VArr [Examples.node_class; Examples.node_nameless; Examples.node_program]))))
           [Examples.node_class; Examples.node_nameless; Examples.node_program]
           Examples.node_nameless Examples.node_class Examples.node_program);
    try reflexivity.
  apply perm_swap.
Defined.

(** C6, as the specification words it: were exactly the entries lacking both
    fields removed, an entry with a URI but no name would survive. It does
    not. *)
Lemma package_filter_lacking_both_counterexample :
  ~ (forall parsed nodes r,
       Transform.package_nodes parsed = Ok nodes ->
       Transform.transformPackageInfo parsed = Ok r ->
       Transform.objects r
       = map Transform.record_of
             (List.filter (fun n => negb (negb (Transform.has_name n) &&
                                          negb (Transform.has_uri n))) nodes)).
Proof.
  intros H.
  specialize (H (Examples.package_tree (VArr [Examples.node_nameless]))
                [Examples.node_nameless]
                {| Transform.type := "package_info"; Transform.totalObjects := 0;
                   Transform.objects := [] |} eq_refl eq_refl).
  discriminate H.
Qed.

(** ** Metadata parser: the typed DDIC fields *)

Lemma parse_length_cases (x : any) :
  (Js.truthy x = false -> Cds.parse_length x = VUndef) /\
  (Js.truthy x = true ->
   Cds.parse_length x = VNum (Text.parseInt (Text.to_string x))).
Proof.
  unfold Cds.parse_length. destruct (Js.truthy x); split; intros H;
    try reflexivity; discriminate.
Qed.

Lemma is_true_literal_iff (x : any) :
  Cds.is_true_literal x = true <-> x = VStr "true".
Proof.
  destruct x; simpl; try (split; discriminate).
  split.
  - intros H. apply String.eqb_eq in H. congruence.
  - intros H. inversion H. reflexivity.
Qed.

(** C7, as the code has it. Each of the six DDIC length and decimals fields
    is [undefined] when its entry is absent or empty, and otherwise the
    result of [parseInt] on its text: a number, which is [NaN] (and not
    [undefined]) when the text does not start with an integer. Nothing is
    thrown: once the entry map is built the property extraction returns.
    The key flag is true exactly when its entry is the string "true". *)
Theorem elementProps_numeric_fields (converted : list (string * any))
        (ep : Cds.ElementProps) :
  Cds.make_elementProps converted = Some ep ->
  (forall name proj,
     In (name, proj) Cds.length_fields ->
     (Js.truthy (Cds.field converted name) = false -> proj ep = VUndef) /\
     (Js.truthy (Cds.field converted name) = true ->
      proj ep = VNum (Text.parseInt (Text.to_string (Cds.field converted name)))) /\
     (forall s,
        Cds.field converted name = VStr s -> s <> "" ->
        Text.parseInt s = NaN -> proj ep = VNum NaN)) /\
  (Cds.ddicIsKey ep = true <-> Cds.field converted "ddicIsKey" = VStr "true") /\
  (forall raw,
     Cds.reduce (Xml.xmlArray raw ["abapsource:entry"]) [] = Ok converted ->
     exists props,
       Cds.parseDDICProps raw = Ok props /\ Cds.elementProps props = Some ep).
Proof.
  intros Hep.
  assert (Hfields : forall name proj,
            In (name, proj) Cds.length_fields ->
            proj ep = Cds.parse_length (Cds.field converted name)).
  { unfold Cds.make_elementProps in Hep.
    destruct (_ || _) in Hep; [|discriminate].
    inversion Hep; subst ep; clear Hep.
    intros name proj Hin. simpl in Hin.
    repeat (destruct Hin as [Hin|Hin]; [inversion Hin; subst; reflexivity|]).
    contradiction. }
  split; [|split].
  - intros name proj Hin. rewrite (Hfields name proj Hin).
    destruct (parse_length_cases (Cds.field converted name)) as [Hf Ht].
    split; [exact Hf|]. split; [exact Ht|].
    intros s Hs Hne Hnan. rewrite Ht.
    + rewrite Hs. simpl. rewrite Hnan. reflexivity.
    + rewrite Hs. simpl. apply String.eqb_neq in Hne. rewrite Hne. reflexivity.
  - unfold Cds.make_elementProps in Hep.
    destruct (_ || _) in Hep; [|discriminate].
    inversion Hep; subst ep; simpl. apply is_true_literal_iff.
  - intros raw Hred. unfold Cds.parseDDICProps. rewrite Hred. simpl.
    eexists. split; [reflexivity|]. simpl. exact Hep.
Qed.

Lemma elementProps_numeric_fields_witness :
  exists ep,
    Cds.make_elementProps Examples.char_field = Some ep /\
    Cds.ddicLength ep = VNum (Int 18) /\
    Cds.ddicDecimals ep = VUndef /\
    Cds.ddicHeadingLength ep = VNum NaN /\
    Cds.ddicIsKey ep = true.
Proof.
  destruct (Cds.make_elementProps Examples.char_field) as [ep|] eqn:Hep;
    [|discriminate Hep].
  exists ep. split; [reflexivity|].
  destruct (elementProps_numeric_fields Examples.char_field ep Hep) as (Hnum & Hkey & _).
  split; [|split; [|split]].
  - apply (Hnum "ddicLength" Cds.ddicLength); [simpl; auto | reflexivity].
  - apply (Hnum "ddicDecimals" Cds.ddicDecimals); [simpl; auto | reflexivity].
  - apply (proj2 (proj2 (Hnum "ddicHeadingLength" Cds.ddicHeadingLength
                               ltac:(simpl; auto))) "n/a");
      [reflexivity | discriminate | reflexivity].
  - apply Hkey. reflexivity.
Defined.

(** C7, as the specification words it: a length that does not parse would
    be [undefined]. The code gives [NaN]. *)
Lemma parse_failure_undefined_counterexample :
  ~ (forall converted ep s,
       Cds.make_elementProps converted = Some ep ->
       Cds.field converted "ddicLength" = VStr s ->
       Text.parseInt s = NaN ->
       Cds.ddicLength ep = VUndef).
Proof.
  intros H.
  specialize (H [("ddicDataType", VStr "CHAR"); ("ddicLength", VStr "abc")]
                _ "abc" eq_refl eq_refl eq_refl).
  discriminate H.
Qed.

(** ** Metadata parser: annotations *)

Lemma array_get_set {A : Type} (l : list (option A)) (i j : Z) (x : A) :
  Cds.is_index j = true ->
  Cds.array_get (Cds.array_set l i x) j
  = if (i =? j)%Z then Some x else Cds.array_get l j.
Proof.
  intros Hj. unfold Cds.array_get, Cds.array_set. rewrite Hj.
  destruct (Cds.is_index i) eqn:Hi.
  - unfold Cds.is_index in Hi, Hj.
    apply andb_prop in Hi as [Hi0 _]. apply andb_prop in Hj as [Hj0 _].
    apply Z.leb_le in Hi0, Hj0.
    destruct (Z.eqb_spec i j) as [->|Hne].
    + destruct (Nat.ltb_spec (Z.to_nat j) (length l)) as [Hlt|Hge].
      * rewrite list_lookup_insert_eq by exact Hlt. reflexivity.
      * rewrite lookup_app_r by exact Hge.
        rewrite lookup_app_r by (rewrite length_replicate; lia).
        rewrite length_replicate.
        replace (Z.to_nat j - length l - (Z.to_nat j - length l))%nat with 0%nat by lia.
        reflexivity.
    + assert (Hn : Z.to_nat i <> Z.to_nat j) by lia.
      destruct (Nat.ltb_spec (Z.to_nat i) (length l)) as [Hlt|Hge].
      * rewrite list_lookup_insert_ne by exact Hn. reflexivity.
      * destruct (Nat.lt_ge_cases (Z.to_nat j) (length l)) as [Hjl|Hjl].
        -- rewrite lookup_app_l by exact Hjl. reflexivity.
        -- rewrite lookup_app_r by exact Hjl.
           rewrite (lookup_ge_None_2 l) by exact Hjl.
           destruct (Nat.lt_ge_cases (Z.to_nat j - length l) (Z.to_nat i - length l))
             as [Hin|Hout].
           ++ rewrite lookup_app_l by (rewrite length_replicate; exact Hin).
              rewrite lookup_replicate_2 by exact Hin. reflexivity.
           ++ rewrite lookup_app_r by (rewrite length_replicate; exact Hout).
              rewrite length_replicate.
              destruct (Z.to_nat j - length l - (Z.to_nat i - length l))%nat eqn:E;
                [lia | reflexivity].
  - destruct (Z.eqb_spec i j) as [->|_]; [congruence | reflexivity].
Qed.

Lemma annotation_step_slot (rawanno : list (string * any))
      (annotations : list (option Cds.DdicAnnotation)) (k : string) (n : Z) :
  Cds.is_index n = true ->
  Cds.array_get (Cds.annotation_step rawanno annotations k) n
  = Cds.slot_step rawanno n (Cds.array_get annotations n) k.
Proof.
  intros Hn. unfold Cds.annotation_step, Cds.slot_step.
  destruct (Text.annotation_match k) as [[mtype digits]|]; [|reflexivity].
  rewrite array_get_set by exact Hn.
  destruct (Z.eqb_spec (Text.toInt (VStr digits)) n) as [->|_]; reflexivity.
Qed.

Lemma fold_annotation_step_slot (rawanno : list (string * any)) (n : Z)
      (ks : list string) :
  Cds.is_index n = true ->
  forall annotations,
    Cds.array_get (fold_left (Cds.annotation_step rawanno) ks annotations) n
    = fold_left (Cds.slot_step rawanno n) ks (Cds.array_get annotations n).
Proof.
  intros Hn. induction ks as [|k ks IH]; intros annotations; simpl; [reflexivity|].
  rewrite IH, annotation_step_slot by exact Hn. reflexivity.
Qed.

Lemma existsb_eqb_In (k : string) (ks : list string) :
  existsb (String.eqb k) ks = true <-> In k ks.
Proof.
  rewrite existsb_exists. split.
  - intros (x & Hin & E). apply String.eqb_eq in E. subst. exact Hin.
  - intros Hin. exists k. split; [exact Hin | apply String.eqb_refl].
Qed.

Lemma existsb_eqb_notin (k : string) (ks : list string) :
  ~ In k ks -> existsb (String.eqb k) ks = false.
Proof.
  intros H. destruct (existsb (String.eqb k) ks) eqn:E; [|reflexivity].
  apply existsb_eqb_In in E. contradiction.
Qed.

Section OneSlot.

Variable rawanno : list (string * any).
Variable n : Z.
Variables key_entry value_entry key_digits value_digits : string.

Hypothesis key_match : Text.annotation_match key_entry = Some ("Key", key_digits).
Hypothesis key_index : Text.toInt (VStr key_digits) = n.
Hypothesis value_match : Text.annotation_match value_entry = Some ("Value", value_digits).
Hypothesis value_index : Text.toInt (VStr value_digits) = n.

Lemma slot_step_key (slot : option Cds.DdicAnnotation) :
  Cds.slot_step rawanno n slot key_entry
  = Some {| Cds.key := Cds.field rawanno key_entry;
            Cds.value := Cds.value (default Cds.empty_annotation slot) |}.
Proof.
  unfold Cds.slot_step. rewrite key_match, key_index, Z.eqb_refl. reflexivity.
Qed.

Lemma slot_step_value (slot : option Cds.DdicAnnotation) :
  Cds.slot_step rawanno n slot value_entry
  = Some {| Cds.key := Cds.key (default Cds.empty_annotation slot);
            Cds.value := Cds.field rawanno value_entry |}.
Proof.
  unfold Cds.slot_step. rewrite value_match, value_index, Z.eqb_refl. reflexivity.
Qed.

Lemma slot_step_other (slot : option Cds.DdicAnnotation) (k : string) :
  (forall t d, Text.annotation_match k = Some (t, d) -> Text.toInt (VStr d) <> n) ->
  Cds.slot_step rawanno n slot k = slot.
Proof.
  intros Hk. unfold Cds.slot_step.
  destruct (Text.annotation_match k) as [[t d]|]; [|reflexivity].
  destruct (Z.eqb_spec (Text.toInt (VStr d)) n) as [E|_]; [|reflexivity].
  exfalso. exact (Hk t d eq_refl E).
Qed.

(** The slot after the loop has run over the keys [ks]: it holds what the
    key entry and the value entry wrote, whichever came first. *)
Lemma fold_slot_step (ks : list string) :
  List.NoDup ks ->
  (forall k t d, In k ks -> Text.annotation_match k = Some (t, d) ->
                 Text.toInt (VStr d) = n -> k = key_entry \/ k = value_entry) ->
  forall slot,
    fold_left (Cds.slot_step rawanno n) ks slot
    = if existsb (String.eqb key_entry) ks || existsb (String.eqb value_entry) ks
      then Some {| Cds.key := if existsb (String.eqb key_entry) ks
                              then Cds.field rawanno key_entry
                              else Cds.key (default Cds.empty_annotation slot);
                   Cds.value := if existsb (String.eqb value_entry) ks
                                then Cds.field rawanno value_entry
                                else Cds.value (default Cds.empty_annotation slot) |}
      else slot.
Proof.
  assert (Hdiff : key_entry <> value_entry).
  { intros E. rewrite E, value_match in key_match. discriminate. }
  induction ks as [|k ks' IH]; intros Hnd Honly slot; simpl; [reflexivity|].
  apply List.NoDup_cons_iff in Hnd as [Hnotin Hnd'].
  assert (Honly' : forall k t d, In k ks' -> Text.annotation_match k = Some (t, d) ->
                                 Text.toInt (VStr d) = n ->
                                 k = key_entry \/ k = value_entry)
    by (intros; eapply Honly; [right|..]; eassumption).
  rewrite (IH Hnd' Honly').
  destruct (String.eqb_spec key_entry k) as [<-|HneK].
  - rewrite slot_step_key. rewrite (existsb_eqb_notin _ _ Hnotin).
    apply String.eqb_neq in Hdiff. rewrite String.eqb_sym, Hdiff. simpl.
    destruct (existsb (String.eqb value_entry) ks'); reflexivity.
  - destruct (String.eqb_spec value_entry k) as [<-|HneV].
    + rewrite slot_step_value. rewrite (existsb_eqb_notin _ _ Hnotin). simpl.
      rewrite orb_false_r.
      destruct (existsb (String.eqb key_entry) ks'); reflexivity.
    + rewrite slot_step_other; [reflexivity|].
      intros t d Hm Hi. destruct (Honly k t d (or_introl eq_refl) Hm Hi); congruence.
Qed.

End OneSlot.

Lemma insert_everywhere_In {A : Type} (x : A) (l1 l2 : list A) :
  In (l1 ++ x :: l2) (Orders.insert_everywhere x (l1 ++ l2)).
Proof.
  induction l1 as [|y l1 IH]; simpl.
  - destruct l2; simpl; auto.
  - right. apply in_map. exact IH.
Qed.

Lemma orders_complete {A : Type} (l' : list A) :
  forall l, Permutation l l' -> In l (Orders.orders l').
Proof.
  induction l' as [|x l' IH]; intros l Hp; simpl.
  - apply Permutation_sym, Permutation_nil in Hp. auto.
  - destruct (Permutation_vs_cons_inv Hp) as (l1 & l2 & ->).
    apply Permutation_sym, Permutation_cons_app_inv, Permutation_sym in Hp.
    apply in_flat_map. exists (l1 ++ l2). split.
    + apply IH. exact Hp.
    + apply insert_everywhere_In.
Qed.

(** The entry map is an object: its keys are distinct, and so are those of
    what the destructuring leaves. *)
Lemma assign_In {A : Type} (k : string) (v : A) (o : list (string * A)) (x : string) :
  In x (map fst (Js.assign k v o)) -> x = k \/ In x (map fst o).
Proof.
  induction o as [|[k' v'] o IH]; simpl.
  - intros [<-|[]]. auto.
  - destruct (String.eqb k k'); simpl; intros [<-|H]; auto.
    destruct (IH H); auto.
Qed.

Lemma assign_NoDup {A : Type} (k : string) (v : A) (o : list (string * A)) :
  List.NoDup (map fst o) -> List.NoDup (map fst (Js.assign k v o)).
Proof.
  induction o as [|[k' v'] o IH]; simpl; intros Hnd.
  - constructor; [intros [] | constructor].
  - apply List.NoDup_cons_iff in Hnd as [Hnotin Hnd].
    destruct (String.eqb_spec k k') as [->|Hne]; simpl.
    + constructor; assumption.
    + constructor; [|apply IH; exact Hnd].
      intros Hin. apply assign_In in Hin as [->|Hin]; [congruence | contradiction].
Qed.

Lemma remove_In {A : Type} (k : string) (o : list (string * A)) (x : string) :
  In x (map fst (Js.remove k o)) -> In x (map fst o).
Proof.
  induction o as [|[k' v'] o IH]; simpl; [auto|].
  destruct (String.eqb k k'); simpl; [auto|]. intros [<-|H]; auto.
Qed.

Lemma remove_NoDup {A : Type} (k : string) (o : list (string * A)) :
  List.NoDup (map fst o) -> List.NoDup (map fst (Js.remove k o)).
Proof.
  induction o as [|[k' v'] o IH]; simpl; intros Hnd; [constructor|].
  apply List.NoDup_cons_iff in Hnd as [Hnotin Hnd].
  destruct (String.eqb k k'); simpl; [apply IH; exact Hnd|].
  constructor; [|apply IH; exact Hnd].
  intros Hin. apply remove_In in Hin. contradiction.
Qed.

Lemma reduce_NoDup (entries : list any) :
  forall prev converted,
    List.NoDup (map fst prev) ->
    Cds.reduce entries prev = Ok converted ->
    List.NoDup (map fst converted).
Proof.
  induction entries as [|cur entries IH]; simpl; intros prev converted Hnd H.
  - inversion H; subst; exact Hnd.
  - destruct (Cds.add_entry prev cur) as [next|e] eqn:Hadd; simpl in H; [|discriminate].
    apply (IH next converted); [|exact H].
    unfold Cds.add_entry in Hadd.
    destruct (Transform.member cur "_attributes") as [attrs|e]; simpl in Hadd;
      [|discriminate].
    inversion Hadd; subst next.
    destruct (Js.truthy _); [apply assign_NoDup|]; exact Hnd.
Qed.

Lemma rest_of_NoDup (converted : list (string * any)) :
  List.NoDup (map fst converted) -> List.NoDup (map fst (Cds.rest_of converted)).
Proof.
  unfold Cds.rest_of. generalize Cds.ddic_keys. intros ks. revert converted.
  induction ks as [|k ks IH]; simpl; intros o Hnd; [exact Hnd|].
  apply IH, remove_NoDup, Hnd.
Qed.

(** C3. Whenever the entry map is built and what is left of it after the
    DDIC keys holds a key entry and a value entry for the index [n] (and no
    other entry for [n]), the parser returns with the two paired in slot [n]
    of [annotations], whichever of them comes first and whatever lies
    between them or at other indexes. The four entries annotationKey.0=A,
    annotationValue.1=B, annotationValue.0=C, annotationKey.1=D give
    [{key: A, value: C}, {key: D, value: B}] in every order. *)
Theorem annotations_paired_by_index :
  (forall raw converted n key_entry value_entry key_digits value_digits,
     Cds.reduce (Xml.xmlArray raw ["abapsource:entry"]) [] = Ok converted ->
     Cds.is_index n = true ->
     In key_entry (map fst (Cds.rest_of converted)) ->
     Text.annotation_match key_entry = Some ("Key", key_digits) ->
     Text.toInt (VStr key_digits) = n ->
     In value_entry (map fst (Cds.rest_of converted)) ->
     Text.annotation_match value_entry = Some ("Value", value_digits) ->
     Text.toInt (VStr value_digits) = n ->
     (forall k t d, In k (map fst (Cds.rest_of converted)) ->
                    Text.annotation_match k = Some (t, d) ->
                    Text.toInt (VStr d) = n -> k = key_entry \/ k = value_entry) ->
     exists props,
       Cds.parseDDICProps raw = Ok props /\
       Cds.array_get (Cds.annotations props) n
       = Some {| Cds.key := Cds.field (Cds.rest_of converted) key_entry;
                 Cds.value := Cds.field (Cds.rest_of converted) value_entry |}) /\
  (forall entries,
     Permutation entries Examples.four_entries ->
     Cds.parseDDICProps (Examples.properties entries)
     = Ok {| Cds.elementProps := None;
             Cds.annotations :=
               [ Some {| Cds.key := VStr "A"; Cds.value := VStr "C" |};
                 Some {| Cds.key := VStr "D"; Cds.value := VStr "B" |} ] |}).
Proof.
  split.
  - intros raw converted n kK kV dK dV Hred Hn HinK HmK HiK HinV HmV HiV Honly.
    unfold Cds.parseDDICProps. rewrite Hred. simpl.
    eexists. split; [reflexivity|]. simpl.
    assert (Hnd : List.NoDup (map fst (Cds.rest_of converted))).
    { apply rest_of_NoDup. eapply reduce_NoDup; [|exact Hred]. constructor. }
    unfold Cds.parse_annotations.
    rewrite fold_annotation_step_slot by exact Hn.
    rewrite (fold_slot_step _ n kK kV dK dV HmK HiK HmV HiV _ Hnd Honly).
    apply existsb_eqb_In in HinK, HinV. rewrite HinK, HinV. reflexivity.
  - intros entries Hp. apply orders_complete in Hp. simpl in Hp.
    repeat (destruct Hp as [<-|Hp]; [vm_compute; reflexivity|]).
    contradiction.
Qed.

Lemma annotations_paired_by_index_witness :
  (exists props,
     Cds.parseDDICProps Examples.sparse_properties = Ok props /\
     Cds.array_get (Cds.annotations props) 7
     = Some {| Cds.key := VStr "A"; Cds.value := VStr "B" |}) /\
  Cds.parseDDICProps
    (Examples.properties
       [ Examples.entry "annotationKey.1" "D"; Examples.entry "annotationValue.0" "C";
         Examples.entry "annotationValue.1" "B"; Examples.entry "annotationKey.0" "A" ])
  = Ok {| Cds.elementProps := None;
          Cds.annotations :=
            [ Some {| Cds.key := VStr "A"; Cds.value := VStr "C" |};
              Some {| Cds.key := VStr "D"; Cds.value := VStr "B" |} ] |}.
Proof.
  split.
  - apply (proj1 annotations_paired_by_index Examples.sparse_properties
             [ ("annotationValue.7", VStr "B"); ("ddicDataType", VStr "CHAR");
               ("label", VStr "x"); ("annotationKey.7", VStr "A") ] 7%Z
             "annotationKey.7" "annotationValue.7" "7" "7");
      try reflexivity.
    + simpl; auto.
    + simpl; auto.
    + intros k t d Hin. simpl in Hin.
      destruct Hin as [<-|[<-|[<-|[]]]]; vm_compute; intros; auto; discriminate.
  - apply (proj2 annotations_paired_by_index).
    exact (Permutation_sym (Permutation_rev Examples.four_entries)).
Defined.

(** ** Request executor: how each function runs *)

Ltac exec_unfold :=
  unfold Session.fetchCsrfToken, Session.getAuthHeaders, Session.load_config,
    Session.createAxiosInstance, Session.store_cookies, Session.set_cookies,
    Session.set_csrfToken, Session.set_config, Session.send,
    Session.data_includes_CSRF,
    Session.try_catch, Session.bind, Session.ret, Session.throw,
    Session.get_session, Session.put_session, Session.mk_state in *.

Lemma load_config_iff (env : Session.Env) (st : Session.state) (c : Session.SapConfig) :
  fst (Session.load_config env st) = Ok c <->
  Session.config_loads env (Session.config (Session.sess st)) c.
Proof.
  destruct st as [[ax cfg tok ck] lg]. exec_unfold. simpl.
  destruct cfg as [c'|]; simpl.
  - split; congruence.
  - destruct (Session.getConfig env); simpl; split; congruence.
Qed.

Lemma load_config_run (env : Session.Env) (cfg : option Session.SapConfig)
      (c : Session.SapConfig) (ax : bool) (tok ck : option string)
      (lg : list Session.request) :
  Session.config_loads env cfg c ->
  Session.load_config env (Session.mk_state ax cfg tok ck lg)
  = (Ok c, Session.mk_state ax (Some c) tok ck lg).
Proof.
  intros Hc. exec_unfold. simpl. destruct cfg as [c'|]; simpl in *.
  - subst. reflexivity.
  - rewrite Hc. reflexivity.
Qed.

Lemma fetchCsrfToken_run (env : Session.Env) (net : list Session.request -> Session.outcome)
      (u : string) (cfg : option Session.SapConfig) (c : Session.SapConfig)
      (ax : bool) (tok ck : option string) (lg : list Session.request) :
  Session.config_loads env cfg c ->
  Session.fetchCsrfToken env net u (Session.mk_state ax cfg tok ck lg)
  = let lg' := lg ++ [Session.fetch_request u (Session.auth_of c)] in
    match Session.token_of (net lg') with
    | Some token =>
        (Ok token,
         Session.mk_state true (Some c) tok (Session.captured_cookies (net lg') ck) lg')
    | None =>
        (Throw (Error ("Failed to fetch CSRF token: " ++ Session.failure_message (net lg'))),
         Session.mk_state true (Some c) tok ck lg')
    end.
Proof.
  intros Hc.
  unfold Session.fetchCsrfToken, Session.getAuthHeaders, Session.try_catch.
  unfold Session.bind at 1. unfold Session.createAxiosInstance at 1.
  unfold Session.bind at 1. unfold Session.get_session, Session.put_session.
  cbn [Session.sess Session.log Session.mk_state Session.axiosInstance Session.config
       Session.csrfToken Session.cookies].
  unfold Session.bind at 1. unfold Session.bind at 1.
  pose proof (load_config_run env cfg c true tok ck lg Hc) as Hl.
  unfold Session.mk_state in Hl. rewrite Hl. clear Hl.
  unfold Session.ret at 1. unfold Session.bind at 1. unfold Session.send.
  cbn [Session.sess Session.log].
  unfold Session.token_of, Session.captured_cookies, Session.exchange_response.
  cbv zeta.
  destruct (net (lg ++ [Session.fetch_request u (Session.auth_of c)]))
    as [r | msg [r|] | msg]; cbn [Session.settle Session.failure_message].
  - destruct (Session.truthy_str (x_csrf_token (resp_headers r))) as [token|];
      [|reflexivity].
    unfold Session.store_cookies. destruct (set_cookie (resp_headers r)); reflexivity.
  - destruct (Session.truthy_str (x_csrf_token (resp_headers r))) as [token|];
      [|reflexivity].
    unfold Session.store_cookies. destruct (set_cookie (resp_headers r)); reflexivity.
  - reflexivity.
  - reflexivity.
Qed.

Lemma token_of_truthy (o : Session.outcome) (token : string) :
  Session.token_of o = Some token -> Session.truthy_str (Some token) = Some token.
Proof.
  unfold Session.token_of. destruct (Session.exchange_response o) as [r|]; [|discriminate].
  unfold Session.truthy_str. destruct (x_csrf_token (resp_headers r)) as [s|]; [|discriminate].
  destruct (String.eqb s "") eqn:E; [discriminate|].
  intros H; inversion H; subst. rewrite E. reflexivity.
Qed.

(** [prepare] when the token has to be fetched first. *)
Lemma prepare_run_bootstrap (env : Session.Env) (net : list Session.request -> Session.outcome)
      (u m : string) (t : Z) (d p : any) (cfg : option Session.SapConfig)
      (c : Session.SapConfig) (ax : bool) (tok ck : option string)
      (lg : list Session.request) :
  Session.config_loads env cfg c ->
  Session.mutating m = true ->
  Session.truthy_str tok = None ->
  Session.prepare env net u m t d p (Session.mk_state ax cfg tok ck lg)
  = let lg' := lg ++ [Session.fetch_request u (Session.auth_of c)] in
    match Session.token_of (net lg') with
    | Some token =>
        let s := {| Session.axiosInstance := true; Session.config := Some c;
                    Session.csrfToken := Some token;
                    Session.cookies := Session.captured_cookies (net lg') ck |} in
        (Ok (Session.request_config u m t d p (Session.auth_of c) s),
         {| Session.sess := s; Session.log := lg' |})
    | None =>
        (Throw (Error
           "CSRF token is required for POST/PUT requests but could not be fetched"),
         Session.mk_state true (Some c) tok ck lg')
    end.
Proof.
  intros Hc Hm Htok. unfold Session.prepare.
  unfold Session.bind at 1. unfold Session.get_session at 1.
  cbn [Session.sess Session.mk_state Session.csrfToken].
  rewrite Hm, Htok. cbn [bool_decide andb negb].
  replace (bool_decide (is_Some (@None string))) with false
    by (symmetry; apply bool_decide_eq_false; intros [x Hx]; discriminate).
  cbn [negb]. unfold Session.bind at 1. unfold Session.try_catch.
  unfold Session.bind at 1.
  fold (Session.mk_state ax cfg tok ck lg).
  rewrite (fetchCsrfToken_run env net u cfg c ax tok ck lg Hc). cbv zeta.
  destruct (Session.token_of _) as [token|]; [|reflexivity].
  unfold Session.set_csrfToken, Session.bind, Session.get_session, Session.put_session,
    Session.getAuthHeaders, Session.load_config, Session.ret, Session.mk_state.
  reflexivity.
Qed.

(** [prepare] when no token has to be fetched. *)
Lemma prepare_run_plain (env : Session.Env) (net : list Session.request -> Session.outcome)
      (u m : string) (t : Z) (d p : any) (cfg : option Session.SapConfig)
      (c : Session.SapConfig) (ax : bool) (tok ck : option string)
      (lg : list Session.request) :
  Session.config_loads env cfg c ->
  Session.mutating m = false \/ is_Some (Session.truthy_str tok) ->
  Session.prepare env net u m t d p (Session.mk_state ax cfg tok ck lg)
  = let s := {| Session.axiosInstance := ax; Session.config := Some c;
                Session.csrfToken := tok; Session.cookies := ck |} in
    (Ok (Session.request_config u m t d p (Session.auth_of c) s),
     {| Session.sess := s; Session.log := lg |}).
Proof.
  intros Hc Hcase. unfold Session.prepare.
  unfold Session.bind at 1. unfold Session.get_session at 1.
  cbn [Session.sess Session.mk_state Session.csrfToken].
  assert (Hskip : Session.mutating m &&
                  negb (bool_decide (is_Some (Session.truthy_str tok))) = false).
  { destruct Hcase as [-> | Hs]; [reflexivity|].
    rewrite (bool_decide_eq_true_2 _ Hs). apply andb_false_r. }
  rewrite Hskip. unfold Session.bind at 1. unfold Session.ret at 1.
  unfold Session.getAuthHeaders. unfold Session.bind at 1. unfold Session.bind at 1.
  rewrite (load_config_run env cfg c ax tok ck lg Hc).
  reflexivity.
Qed.

(** [attempt] with the configuration cached: the request, then either the
    result as it is or the recovery. *)
Lemma attempt_run (env : Session.Env) (net : list Session.request -> Session.outcome)
      (c : Session.request) (cfg : Session.SapConfig) (ax : bool)
      (tok ck : option string) (lg : list Session.request) :
  Session.attempt env net c (Session.mk_state ax (Some cfg) tok ck lg)
  = let lg1 := lg ++ [c] in
    if Session.token_rejected (net lg1) then
      let lg2 := lg1 ++ [Session.fetch_request (Session.url c) (Session.auth_of cfg)] in
      match Session.token_of (net lg2) with
      | Some token =>
          let lg3 := lg2 ++ [Session.with_csrf token c] in
          (Session.settle (net lg3),
           Session.mk_state true (Some cfg) (Some token)
                            (Session.captured_cookies (net lg2) ck) lg3)
      | None =>
          (Throw (Error ("Failed to fetch CSRF token: " ++
                         Session.failure_message (net lg2))),
           Session.mk_state true (Some cfg) tok ck lg2)
      end
    else (Session.unrecovered (net lg1), Session.mk_state true (Some cfg) tok ck lg1).
Proof.
  unfold Session.attempt, Session.try_catch.
  unfold Session.bind at 1. unfold Session.createAxiosInstance at 1.
  unfold Session.bind at 1. unfold Session.get_session at 1, Session.put_session at 1.
  unfold Session.send at 1.
  cbn [Session.sess Session.log Session.mk_state Session.axiosInstance Session.config
       Session.csrfToken Session.cookies].
  cbv zeta.
  assert (Hrec :
    (let (r0, st') :=
       Session.fetchCsrfToken env net (Session.url c)
         (Session.mk_state true (Some cfg) tok ck (lg ++ [c])) in
     match r0 with
     | Ok a =>
         Session.bind (Session.set_csrfToken a)
           (fun _ => Session.bind Session.createAxiosInstance
                       (fun _ => Session.send net (Session.with_csrf a c))) st'
     | Throw e => (Throw e, st')
     end)
    = let lg2 := (lg ++ [c]) ++ [Session.fetch_request (Session.url c) (Session.auth_of cfg)] in
      match Session.token_of (net lg2) with
      | Some token =>
          let lg3 := lg2 ++ [Session.with_csrf token c] in
          (Session.settle (net lg3),
           Session.mk_state true (Some cfg) (Some token)
                            (Session.captured_cookies (net lg2) ck) lg3)
      | None =>
          (Throw (Error ("Failed to fetch CSRF token: " ++
                         Session.failure_message (net lg2))),
           Session.mk_state true (Some cfg) tok ck lg2)
      end).
  { rewrite (fetchCsrfToken_run env net (Session.url c) (Some cfg) cfg true tok ck
               (lg ++ [c]) eq_refl).
    cbv zeta. destruct (Session.token_of _) as [token|]; reflexivity. }
  destruct (net (lg ++ [c])) as [r | msg [r|] | msg];
    cbn [Session.settle Session.token_rejected Session.unrecovered]; try reflexivity.
  destruct (status r =? 403)%Z; cbn [andb]; [|reflexivity].
  unfold Session.bind at 1. unfold Session.data_includes_CSRF.
  destruct (data r) as [ | | b | n | s | l | o ];
    cbn [Session.has_includes negb Session.ret Session.throw]; try reflexivity.
  - destruct (Session.includes "CSRF" s); [|reflexivity].
    unfold Session.bind at 1. exact Hrec.
  - destruct (existsb _ l); [|reflexivity].
    unfold Session.bind at 1. exact Hrec.
Qed.

Lemma getConfig_throws (env : Session.Env) (e : error) :
  Session.getConfig env = Throw e -> exists msg, e = Error msg.
Proof.
  unfold Session.getConfig.
  destruct (Session.truthy_str (Session.SAP_URL env)),
           (Session.truthy_str (Session.SAP_USERNAME env)),
           (Session.truthy_str (Session.SAP_PASSWORD env)),
           (Session.truthy_str (Session.SAP_CLIENT env));
    intros H; inversion H; eauto.
Qed.

Lemma prepare_run_noconfig (env : Session.Env) (net : list Session.request -> Session.outcome)
      (u m : string) (t : Z) (d p : any) (e : error) (ax : bool)
      (tok ck : option string) (lg : list Session.request) :
  Session.getConfig env = Throw e ->
  exists e' ax',
    Session.prepare env net u m t d p (Session.mk_state ax None tok ck lg)
    = (Throw e', Session.mk_state ax' None tok ck lg) /\ (ax' = ax \/ ax' = true).
Proof.
  intros He. destruct (getConfig_throws env e He) as [msg ->].
  unfold Session.prepare.
  unfold Session.bind at 1. unfold Session.get_session at 1.
  cbn [Session.sess Session.mk_state Session.csrfToken].
  destruct (Session.mutating m && _).
  - unfold Session.bind at 1. unfold Session.try_catch, Session.fetchCsrfToken.
    exec_unfold. cbn. rewrite He. cbn. eexists; eexists; split; [reflexivity | auto].
  - exec_unfold. cbn. rewrite He. cbn. eexists; eexists; split; [reflexivity | auto].
Qed.

Lemma config_loads_or_not (env : Session.Env) (cfg : option Session.SapConfig) :
  (exists c, Session.config_loads env cfg c) \/
  (cfg = None /\ exists e, Session.getConfig env = Throw e).
Proof.
  destruct cfg as [c|]; [left; exists c; reflexivity|].
  simpl. destruct (Session.getConfig env) as [c|e]; [left | right]; eauto.
Qed.

(** A configuration [prepare] returns was built from the cached
    configuration. *)
Lemma prepare_ok (env : Session.Env) (net : list Session.request -> Session.outcome)
      (u m : string) (t : Z) (d p : any) (st st1 : Session.state) (c : Session.request) :
  Session.prepare env net u m t d p st = (Ok c, st1) ->
  exists cfg ax tok ck,
    st1 = Session.mk_state ax (Some cfg) tok ck (Session.log st1) /\
    Session.auth c = Session.auth_of cfg /\ Session.url c = u /\ Session.method c = m.
Proof.
  destruct st as [[ax cfg tok ck] lg]. fold (Session.mk_state ax cfg tok ck lg).
  destruct (config_loads_or_not env cfg) as [[c0 Hc] | [-> [e He]]].
  - destruct (Session.mutating m &&
              negb (bool_decide (is_Some (Session.truthy_str tok)))) eqn:Hb.
    + apply andb_prop in Hb as [Hm Hnone]. apply negb_true_iff in Hnone.
      apply bool_decide_eq_false in Hnone.
      assert (Htok : Session.truthy_str tok = None).
      { destruct (Session.truthy_str tok); [exfalso; apply Hnone; eauto | reflexivity]. }
      rewrite (prepare_run_bootstrap env net u m t d p cfg c0 ax tok ck lg Hc Hm Htok).
      cbv zeta. destruct (Session.token_of _) as [token|]; [|discriminate].
      intros H; inversion H; subst. simpl. repeat eexists.
    + assert (Hcase : Session.mutating m = false \/ is_Some (Session.truthy_str tok)).
      { apply andb_false_iff in Hb as [Hm | Hs]; [left; exact Hm | right].
        apply negb_false_iff, bool_decide_eq_true in Hs. exact Hs. }
      rewrite (prepare_run_plain env net u m t d p cfg c0 ax tok ck lg Hc Hcase).
      cbv zeta. intros H; inversion H; subst. simpl. repeat eexists.
  - destruct (prepare_run_noconfig env net u m t d p e ax tok ck lg He)
      as (e' & ax' & -> & _).
    discriminate.
Qed.

(** ** Request executor: the claims *)

(** C5. A POST or PUT issued while no token is cached (the configuration
    being available) starts with the token bootstrap: a GET on the target
    with the header x-csrf-token: fetch, sent before anything else. The token
    is the x-csrf-token header of the response, or of the error response
    when the exchange fails with one. With a token, the main request follows
    and carries it, and the cookies are those of the set-cookie header of
    that same exchange (the ones cached before when it has none). Without
    one, the call fails with "CSRF token is required for POST/PUT requests
    but could not be fetched" and the main request is never sent. *)
Theorem bootstrap_before_mutating_request
        (env : Session.Env) (net : list Session.request -> Session.outcome)
        (u m : string) (t : Z) (d p : any) (st : Session.state) (c : Session.SapConfig) :
  Session.mutating m = true ->
  Session.truthy_str (Session.csrfToken (Session.sess st)) = None ->
  fst (Session.load_config env st) = Ok c ->
  let boot := Session.fetch_request u (Session.auth_of c) in
  let exchange := net (Session.log st ++ [boot]) in
  let run := Session.makeAdtRequest env net u m t d p st in
  Session.method boot = "GET" /\ Session.csrf_header boot = Some "fetch" /\
  match Session.token_of exchange with
  | Some token =>
      exists main rest,
        Session.log (snd run) = Session.log st ++ boot :: main :: rest /\
        Session.method main = m /\ Session.url main = u /\
        Session.csrf_header main = Some token /\
        Session.cookie_header main
        = Session.truthy_str
            (Session.captured_cookies exchange (Session.cookies (Session.sess st)))
  | None =>
      fst run = Throw (Error
        "CSRF token is required for POST/PUT requests but could not be fetched") /\
      Session.log (snd run) = Session.log st ++ [boot] /\
      Session.csrfToken (Session.sess (snd run)) = Session.csrfToken (Session.sess st)
  end.
Proof.
  intros Hm Htok Hc boot exchange run. split; [reflexivity|]. split; [reflexivity|].
  apply load_config_iff in Hc.
  destruct st as [[ax cfg tok ck] lg]. simpl in Htok, Hc.
  subst run exchange boot. cbn [Session.sess Session.log Session.cookies Session.csrfToken].
  unfold Session.makeAdtRequest, Session.bind.
  fold (Session.mk_state ax cfg tok ck lg).
  rewrite (prepare_run_bootstrap env net u m t d p cfg c ax tok ck lg Hc Hm Htok).
  cbv zeta.
  destruct (Session.token_of (net (lg ++ [Session.fetch_request u (Session.auth_of c)])))
    as [token|] eqn:Htoken; [|auto].
  set (s := {| Session.axiosInstance := true; Session.config := Some c;
               Session.csrfToken := Some token;
               Session.cookies := Session.captured_cookies _ ck |}).
  set (main := Session.request_config u m t d p (Session.auth_of c) s).
  change {| Session.sess := s; Session.log := lg ++ [Session.fetch_request u (Session.auth_of c)] |}
    with (Session.mk_state true (Some c) (Some token) (Session.cookies s)
            (lg ++ [Session.fetch_request u (Session.auth_of c)])).
  rewrite attempt_run. cbv zeta.
  assert (Hmain : Session.method main = m /\ Session.url main = u /\
                  Session.csrf_header main = Some token /\
                  Session.cookie_header main = Session.truthy_str (Session.cookies s)).
  { subst main. unfold Session.request_config.
    cbn [Session.method Session.url Session.csrf_header Session.cookie_header].
    rewrite Hm. subst s. cbn [Session.csrfToken].
    rewrite (token_of_truthy _ _ Htoken). auto. }
  destruct (Session.token_rejected _).
  - match goal with
    | |- context [Session.token_of (net ?l)] =>
        destruct (Session.token_of (net l)) as [token2|]
    end; cbn [snd Session.log Session.mk_state].
    + exists main, [Session.fetch_request (Session.url main) (Session.auth_of c);
                    Session.with_csrf token2 main].
      split; [|exact Hmain]. rewrite <- !app_assoc. reflexivity.
    + exists main, [Session.fetch_request (Session.url main) (Session.auth_of c)].
      split; [|exact Hmain]. rewrite <- !app_assoc. reflexivity.
  - cbn [snd Session.log Session.mk_state]. exists main, [].
    split; [|exact Hmain]. rewrite <- !app_assoc. reflexivity.
Qed.

Lemma bootstrap_before_mutating_request_witness :
  (exists main rest,
     Session.log (snd (Session.makeAdtRequest Examples.json_env Examples.rotating
                         Examples.adt_url "POST" 30000 VUndef VUndef Examples.fresh))
     = Session.fetch_request Examples.adt_url (Session.auth_of Examples.sample_config)
         :: main :: rest /\
     Session.csrf_header main = Some "T1" /\
     Session.cookie_header main = Some "sid=1; ctx=a") /\
  fst (Session.makeAdtRequest Examples.json_env Examples.tokenless
         Examples.adt_url "PUT" 30000 VUndef VUndef Examples.fresh)
  = Throw (Error "CSRF token is required for POST/PUT requests but could not be fetched").
Proof.
  split.
  - destruct (bootstrap_before_mutating_request Examples.json_env Examples.rotating
                Examples.adt_url "POST" 30000 VUndef VUndef Examples.fresh
                Examples.sample_config eq_refl eq_refl eq_refl)
      as (_ & _ & main & rest & Hlog & _ & _ & Hcsrf & Hcookie).
    exists main, rest. auto.
  - apply (bootstrap_before_mutating_request Examples.json_env Examples.tokenless
             Examples.adt_url "PUT" 30000 VUndef VUndef Examples.fresh
             Examples.sample_config eq_refl eq_refl eq_refl).
Defined.

(** C1, as the code has it. When the first attempt of a call is rejected
    with a 403 whose body names CSRF, exactly one token bootstrap exchange
    follows. If it supplies a token, the token becomes the cached one, the
    original request is sent once more with it, and what that retry gives,
    response or error, is the outcome of the call: nothing is sent after it.
    If it supplies none, its failure is the outcome of the call and there is
    no retry. After any other first outcome nothing more is sent: a timeout,
    a network error or a response of another status is rethrown as it is. *)
Theorem token_rejection_recovery
        (env : Session.Env) (net : list Session.request -> Session.outcome)
        (u m : string) (t : Z) (d p : any) (st st1 : Session.state)
        (c : Session.request) :
  Session.prepare env net u m t d p st = (Ok c, st1) ->
  let first := net (Session.log st1 ++ [c]) in
  let boot := Session.fetch_request u (Session.auth c) in
  let exchange := net (Session.log st1 ++ [c; boot]) in
  let run := Session.makeAdtRequest env net u m t d p st in
  (Session.token_rejected first = true ->
   match Session.token_of exchange with
   | Some token =>
       Session.log (snd run) = Session.log st1 ++ [c; boot; Session.with_csrf token c] /\
       Session.csrfToken (Session.sess (snd run)) = Some token /\
       fst run = Session.settle (net (Session.log (snd run)))
   | None =>
       Session.log (snd run) = Session.log st1 ++ [c; boot] /\
       Session.csrfToken (Session.sess (snd run)) = Session.csrfToken (Session.sess st1) /\
       fst run = Throw (Error ("Failed to fetch CSRF token: " ++
                               Session.failure_message exchange))
   end) /\
  (Session.token_rejected first = false ->
   Session.log (snd run) = Session.log st1 ++ [c] /\
   Session.csrfToken (Session.sess (snd run)) = Session.csrfToken (Session.sess st1) /\
   fst run = Session.unrecovered first /\
   (forall msg r,
      first = Session.Rejected msg r ->
      (forall r', r = Some r' -> status r' <> 403%Z) ->
      fst run = Throw (AxiosError msg r)) /\
   (forall msg, first = Session.Failed msg -> fst run = Throw (Error msg))).
Proof.
  intros Hprep first boot exchange run.
  destruct (prepare_ok _ _ _ _ _ _ _ _ _ _ Hprep) as (cfg & ax & tok & ck & Hst1 & Hauth & Hurl & _).
  assert (Hrun : run = Session.attempt env net c st1).
  { subst run. unfold Session.makeAdtRequest, Session.bind. rewrite Hprep. reflexivity. }
  rewrite Hrun. clear Hrun run. subst first exchange boot.
  rewrite Hauth, <- Hurl. clear Hauth Hurl Hprep.
  set (lg := Session.log st1) in *. clearbody lg. subst st1.
  rewrite attempt_run. cbv zeta. split.
  - intros ->. rewrite <- !app_assoc. cbn [app].
    destruct (Session.token_of _) as [token|]; cbn [fst snd Session.log Session.sess
      Session.csrfToken Session.mk_state];
      rewrite <- ?app_assoc; cbn [app]; auto.
  - intros ->. cbn [fst snd Session.log Session.sess Session.csrfToken Session.mk_state].
    split; [reflexivity|]. split; [reflexivity|]. split; [reflexivity|]. split.
    + intros msg r -> Hnot. cbn [Session.unrecovered]. destruct r as [r'|]; [|reflexivity].
      destruct (Z.eqb_spec (status r') 403) as [E|_]; [|reflexivity].
      exfalso. exact (Hnot r' eq_refl E).
    + intros msg ->. reflexivity.
Qed.

Lemma token_rejection_recovery_witness :
  length (Session.log (snd (Session.makeAdtRequest Examples.json_env Examples.rotating
            Examples.adt_url "POST" 30000 VUndef VUndef Examples.fresh))) = 4 /\
  Session.csrfToken (Session.sess (snd (Session.makeAdtRequest Examples.json_env
            Examples.rotating Examples.adt_url "POST" 30000 VUndef VUndef Examples.fresh)))
  = Some "T2" /\
  fst (Session.makeAdtRequest Examples.json_env Examples.rotating
         Examples.adt_url "POST" 30000 VUndef VUndef Examples.fresh)
  = Ok (Examples.reply 200 None None (VStr "<ok/>")).
Proof.
  destruct (Session.prepare Examples.json_env Examples.rotating Examples.adt_url "POST"
              30000 VUndef VUndef Examples.fresh) as [res st1] eqn:Hprep.
  vm_compute in Hprep. inversion Hprep as [[Hres Hst1]]. clear Hprep.
  pose proof (proj1 (token_rejection_recovery Examples.json_env Examples.rotating
                Examples.adt_url "POST" 30000 VUndef VUndef Examples.fresh _ _ eq_refl)
              eq_refl) as H.
  cbv zeta. destruct H as (Hlog & Htok & Hres').
  split; [|split].
  - rewrite Hlog. reflexivity.
  - exact Htok.
  - rewrite Hres', Hlog. reflexivity.
Defined.

(** C1, as the specification words it: after a rejected first attempt the
    token would always be refreshed and the request retried. It is not when
    the bootstrap exchange supplies no token. *)
Lemma retry_after_rejection_counterexample :
  ~ (forall env net u m t d p st st1 c,
       Session.prepare env net u m t d p st = (Ok c, st1) ->
       Session.token_rejected (net (Session.log st1 ++ [c])) = true ->
       exists token,
         Session.csrfToken
           (Session.sess (snd (Session.makeAdtRequest env net u m t d p st)))
         = Some token /\
         Session.log (snd (Session.makeAdtRequest env net u m t d p st))
         = Session.log st1 ++
             [c; Session.fetch_request u (Session.auth c); Session.with_csrf token c]).
Proof.
  intros H.
  destruct (H Examples.json_env Examples.down_after_403 Examples.adt_url "GET" 30000%Z
              VUndef VUndef Examples.fresh _ _ eq_refl eq_refl) as (token & Htok & _).
  discriminate Htok.
Qed.

(** ** Session state: what is set stays set *)

Section Lifecycle.

Variable env : Session.Env.
Variable net : list Session.request -> Session.outcome.

Lemma steps_created ax cfg tok ck : rtc (Session.session_step env net) (Session.Build_session ax cfg tok ck) (Session.Build_session true cfg tok ck).
Proof. apply rtc_once. apply (Session.step_create env net (Session.Build_session ax cfg tok ck)). Qed.

Lemma steps_loaded ax cfg tok ck c :
  Session.config_loads env cfg c -> rtc (Session.session_step env net) (Session.Build_session ax cfg tok ck) (Session.Build_session ax (Some c) tok ck).
Proof.
  intros Hc. destruct cfg as [c'|]; simpl in Hc.
  - subst. apply rtc_refl.
  - apply rtc_once. apply (Session.step_load env net (Session.Build_session ax None tok ck) c eq_refl Hc).
Qed.

Lemma steps_refreshed ax cfg tok ck lg token :
  Session.token_of (net lg) = Some token ->
  rtc (Session.session_step env net) (Session.Build_session ax cfg tok ck)
        (Session.Build_session ax cfg (Some token) (Session.captured_cookies (net lg) ck)).
Proof.
  intros Ht. apply rtc_once.
  apply (Session.step_refresh env net (Session.Build_session ax cfg tok ck) lg token Ht).
Qed.

Lemma steps_ready ax cfg tok ck c :
  Session.config_loads env cfg c -> rtc (Session.session_step env net) (Session.Build_session ax cfg tok ck) (Session.Build_session true (Some c) tok ck).
Proof.
  intros Hc. eapply rtc_trans; [apply steps_created | apply steps_loaded, Hc].
Qed.

Lemma load_config_steps (st : Session.state) :
  rtc (Session.session_step env net) (Session.sess st) (Session.sess (snd (Session.load_config env st))).
Proof.
  destruct st as [[ax cfg tok ck] lg].
  destruct (config_loads_or_not env cfg) as [[c Hc] | [-> [e He]]].
  - fold (Session.mk_state ax cfg tok ck lg). rewrite (load_config_run _ _ _ _ _ _ _ Hc).
    apply steps_loaded, Hc.
  - exec_unfold. cbn. rewrite He. apply rtc_refl.
Qed.

Lemma attempt_steps (c : Session.request) cfg ax tok ck lg :
  rtc (Session.session_step env net) (Session.Build_session ax (Some cfg) tok ck)
        (Session.sess (snd (Session.attempt env net c
                              (Session.mk_state ax (Some cfg) tok ck lg)))).
Proof.
  rewrite attempt_run. cbv zeta. destruct (Session.token_rejected _).
  - destruct (Session.token_of _) as [token|] eqn:Ht; cbn [snd Session.sess Session.mk_state].
    + eapply rtc_trans; [apply steps_created | apply steps_refreshed, Ht].
    + apply steps_created.
  - apply steps_created.
Qed.

Lemma prepare_steps (u m : string) (t : Z) (d p : any) (st : Session.state) :
  rtc (Session.session_step env net) (Session.sess st)
        (Session.sess (snd (Session.prepare env net u m t d p st))).
Proof.
  destruct st as [[ax cfg tok ck] lg]. fold (Session.mk_state ax cfg tok ck lg).
  destruct (config_loads_or_not env cfg) as [[c0 Hc] | [-> [e He]]].
  - destruct (Session.mutating m &&
              negb (bool_decide (is_Some (Session.truthy_str tok)))) eqn:Hb.
    + apply andb_prop in Hb as [Hm Hnone]. apply negb_true_iff in Hnone.
      apply bool_decide_eq_false in Hnone.
      assert (Htok : Session.truthy_str tok = None).
      { destruct (Session.truthy_str tok); [exfalso; apply Hnone; eauto | reflexivity]. }
      rewrite (prepare_run_bootstrap env net u m t d p cfg c0 ax tok ck lg Hc Hm Htok).
      cbv zeta. destruct (Session.token_of _) as [token|] eqn:Ht;
        cbn [snd Session.sess Session.mk_state].
      * eapply rtc_trans; [apply (steps_ready _ _ _ _ _ Hc) | apply steps_refreshed, Ht].
      * apply (steps_ready _ _ _ _ _ Hc).
    + assert (Hcase : Session.mutating m = false \/ is_Some (Session.truthy_str tok)).
      { apply andb_false_iff in Hb as [Hm | Hs]; [left; exact Hm | right].
        apply negb_false_iff, bool_decide_eq_true in Hs. exact Hs. }
      rewrite (prepare_run_plain env net u m t d p cfg c0 ax tok ck lg Hc Hcase).
      cbv zeta. cbn [snd Session.sess]. apply steps_loaded, Hc.
  - destruct (prepare_run_noconfig env net u m t d p e ax tok ck lg He)
      as (e' & ax' & -> & [-> | ->]); cbn [snd Session.sess Session.mk_state].
    + apply rtc_refl.
    + apply steps_created.
Qed.

Lemma makeAdtRequest_steps (u m : string) (t : Z) (d p : any) (st : Session.state) :
  rtc (Session.session_step env net) (Session.sess st)
        (Session.sess (snd (Session.makeAdtRequest env net u m t d p st))).
Proof.
  pose proof (prepare_steps u m t d p st) as Hprep.
  unfold Session.makeAdtRequest, Session.bind.
  destruct (Session.prepare env net u m t d p st) as [[c|e] st1] eqn:E;
    cbn [snd] in *; [|exact Hprep].
  destruct (prepare_ok _ _ _ _ _ _ _ _ _ _ E) as (cfg & ax & tok & ck & Hst1 & _).
  eapply rtc_trans; [exact Hprep|].
  rewrite Hst1. apply attempt_steps.
Qed.

Lemma step_never_cleared (s s' : Session.session) :
  Session.session_step env net s s' -> Session.never_cleared s s'.
Proof.
  intros Hstep. unfold Session.never_cleared.
  destruct Hstep as [s | s c Hnone Hc | s lg token Ht];
    cbn [Session.csrfToken Session.cookies Session.config Session.axiosInstance].
  - auto.
  - repeat split; eauto.
  - split; [eauto|]. split; [|split; [|auto]].
    + intros _. rewrite (token_of_truthy _ _ Ht). eauto.
    + intros Hck. unfold Session.captured_cookies.
      destruct (Session.exchange_response (net lg)) as [r|]; [|exact Hck].
      destruct (set_cookie (resp_headers r)); [eauto | exact Hck].
Qed.

Lemma steps_never_cleared (s s' : Session.session) :
  rtc (Session.session_step env net) s s' -> Session.never_cleared s s'.
Proof.
  induction 1 as [s | s s1 s' Hstep _ IH].
  - unfold Session.never_cleared. auto.
  - apply step_never_cleared in Hstep.
    unfold Session.never_cleared in *. intuition.
Qed.

Lemma step_refresh_from_exchange (s s' : Session.session) :
  Session.session_step env net s s' ->
  Session.csrfToken s' <> Session.csrfToken s ->
  exists lg r token,
    Session.exchange_response (net lg) = Some r /\
    Session.truthy_str (x_csrf_token (resp_headers r)) = Some token /\
    Session.csrfToken s' = Some token /\
    (forall cs, set_cookie (resp_headers r) = Some cs ->
                Session.cookies s' = Some (String.concat "; " cs)).
Proof.
  intros Hstep Hne.
  destruct Hstep as [s | s c Hnone Hc | s lg token Ht]; cbn in *; try congruence.
  unfold Session.token_of in Ht. unfold Session.captured_cookies.
  destruct (Session.exchange_response (net lg)) as [r|] eqn:Hr; [|discriminate].
  exists lg, r, token. rewrite Hr. repeat split; auto.
  intros cs ->. reflexivity.
Qed.

End Lifecycle.

Lemma run_op_steps (env : Session.Env) (net : list Session.request -> Session.outcome)
      (new_URL : string -> Session.URL + string) (o : Session.op) (st : Session.state) :
  Session.is_cleanup o = false ->
  rtc (Session.session_step env net) (Session.sess st)
      (Session.sess (Session.run_op env net new_URL o st)).
Proof.
  intros Hop. destruct o as [ | | | u m t d p | ]; [| | | |discriminate];
    unfold Session.run_op.
  - destruct st as [[ax cfg tok ck] lg]. apply steps_created.
  - pose proof (load_config_steps env net st) as Hl.
    unfold Session.getBaseUrl, Session.bind.
    destruct (Session.load_config env st) as [[c|e] st1]; cbn [snd] in *; [|exact Hl].
    destruct (new_URL (Session.cfg_url c)); exact Hl.
  - pose proof (load_config_steps env net st) as Hl.
    unfold Session.getAuthHeaders, Session.bind.
    destruct (Session.load_config env st) as [[c|e] st1]; cbn [snd] in *; exact Hl.
  - apply makeAdtRequest_steps.
Qed.

(** C9. Through any sequence of operations other than the reset, the session
    changes only by creating the client, loading the configuration, or
    caching the token an exchange supplied together with that exchange's
    cookies; so a token, a cookie or a configuration that is set is never
    cleared (a usable token stays usable). Whenever a step changes the
    token, the new token is the x-csrf-token header of the response of an
    exchange, success or error, and when that response has set-cookie
    headers the cached cookie is their join. [cleanup] clears the token, the
    cookie and the configuration, and drops the client. *)
Theorem token_cleared_only_by_cleanup
        (env : Session.Env) (net : list Session.request -> Session.outcome)
        (new_URL : string -> Session.URL + string) :
  (forall os st,
     forallb (fun o => negb (Session.is_cleanup o)) os = true ->
     rtc (Session.session_step env net) (Session.sess st)
         (Session.sess (Session.run_ops env net new_URL os st)) /\
     Session.never_cleared (Session.sess st)
                           (Session.sess (Session.run_ops env net new_URL os st))) /\
  (forall s s',
     Session.session_step env net s s' ->
     Session.csrfToken s' <> Session.csrfToken s ->
     exists lg r token,
       Session.exchange_response (net lg) = Some r /\
       Session.truthy_str (x_csrf_token (resp_headers r)) = Some token /\
       Session.csrfToken s' = Some token /\
       (forall cs, set_cookie (resp_headers r) = Some cs ->
                   Session.cookies s' = Some (String.concat "; " cs))) /\
  (forall st,
     Session.sess (Session.run_op env net new_URL Session.Cleanup st)
     = {| Session.axiosInstance := false; Session.config := None;
          Session.csrfToken := None; Session.cookies := None |}).
Proof.
  split; [|split].
  - assert (Hsteps : forall os st,
              forallb (fun o => negb (Session.is_cleanup o)) os = true ->
              rtc (Session.session_step env net) (Session.sess st)
                  (Session.sess (Session.run_ops env net new_URL os st))).
    { induction os as [|o os IH]; intros st Hos; simpl in *.
      - apply rtc_refl.
      - apply andb_prop in Hos as [Ho Hos]. apply negb_true_iff in Ho.
        eapply rtc_trans; [apply (run_op_steps env net new_URL o st Ho)|].
        apply IH. exact Hos. }
    intros os st Hos. split; [apply Hsteps, Hos|].
    apply (steps_never_cleared env net), Hsteps, Hos.
  - apply step_refresh_from_exchange.
  - intros st. reflexivity.
Qed.

Lemma token_cleared_only_by_cleanup_witness :
  Session.csrfToken
    (Session.sess
       (Session.run_ops Examples.json_env Examples.rotating Examples.sample_URL
          [ Session.MakeAdtRequest Examples.adt_url "POST" 30000 VUndef VUndef;
            Session.GetBaseUrl ]
          (Session.mk_state true None (Some "T0") (Some "sid=0") [])))
  <> None.
Proof.
  destruct (proj1 (token_cleared_only_by_cleanup Examples.json_env Examples.rotating
                     Examples.sample_URL)
              [ Session.MakeAdtRequest Examples.adt_url "POST" 30000 VUndef VUndef;
                Session.GetBaseUrl ]
              (Session.mk_state true None (Some "T0") (Some "sid=0") []) eq_refl)
    as (_ & Hset & _).
  intros Hnone. destruct (Hset ltac:(eexists; reflexivity)) as [x Hx].
  rewrite Hx in Hnone. discriminate Hnone.
Defined.

(* ================================================================== *)
(** * Part III: further properties of the code                         *)
(* ================================================================== *)

(** ** Attributes of a node *)








(** ** Search-result transformer *)

Lemma mapM_length {A B : Type} (f : A -> result B) (l : list A) (ys : list B) :
  Transform.mapM f l = Ok ys -> length ys = length l.
Proof.
  revert ys. induction l as [|x l IH]; simpl; intros ys H.
  - inversion H; reflexivity.
  - destruct (f x) as [y|e]; simpl in H; [|discriminate].
    destruct (Transform.mapM f l) as [ys'|e]; simpl in H; [|discriminate].
    inversion H; subst. simpl. rewrite (IH ys' eq_refl). reflexivity.
Qed.

Lemma mapM_Forall {A B : Type} (f : A -> result B) (P : B -> Prop) (l : list A)
      (ys : list B) :
  (forall x y, f x = Ok y -> P y) ->
  Transform.mapM f l = Ok ys -> Forall P ys.
Proof.
  intros Hf. revert ys. induction l as [|x l IH]; simpl; intros ys H.
  - inversion H; constructor.
  - destruct (f x) as [y|e] eqn:Hy; simpl in H; [|discriminate].
    destruct (Transform.mapM f l) as [ys'|e]; simpl in H; [|discriminate].
    inversion H; subst. constructor; [eapply Hf; exact Hy | apply IH; reflexivity].
Qed.

Lemma mapM_returns {A B : Type} (f : A -> result B) (l : list A) :
  Forall (fun x => exists y, f x = Ok y) l -> exists ys, Transform.mapM f l = Ok ys.
Proof.
  induction 1 as [|x l [y Hy] _ [ys IH]]; simpl.
  - eauto.
  - rewrite Hy. simpl. rewrite IH. simpl. eauto.
Qed.

Lemma or_empty_filled (v : any) : Search.filled (Js.or v (VStr "")) = true.
Proof.
  unfold Search.filled, Js.or. destruct (Js.truthy v) eqn:E.
  - rewrite E. reflexivity.
  - reflexivity.
Qed.

(** X2. Whatever the search transformer returns, [totalCount] is the number
    of [results], which is the number of reference nodes that [xmlArray]
    finds (the count is taken from the list, not from the document), and no
    field of a result is [undefined]: each is a non-empty value or the empty
    string. *)
Theorem transformSearchResults_counts (parsed : any) (r : Search.search_results) :
  Search.transformSearchResults parsed = Ok r ->
  Search.type r = "search_results" /\
  Search.totalCount r = length (Search.results r) /\
  length (Search.results r)
  = length (Xml.xmlArray (Js.or (Js.get parsed "adtcore:objectReferences") parsed)
                         ["adtcore:objectReference"]) /\
  Forall (fun x => Search.all_filled x = true) (Search.results r).
Proof.
  unfold Search.transformSearchResults, Search.searchResult, Transform.member.
  destruct (Js.nullish parsed); simpl; [discriminate|].
  destruct (Transform.mapM _ _) as [rs|e] eqn:Hm; simpl; [|discriminate].
  intros H; inversion H; subst r; simpl.
  pose proof (mapM_length _ _ _ Hm) as Hlen.
  repeat split; auto.
  eapply mapM_Forall; [|exact Hm].
  intros x y Hy. unfold Search.to_result, Transform.member in Hy.
  destruct (Js.nullish x); simpl in Hy; [discriminate|].
  inversion Hy; subst y. unfold Search.all_filled. simpl.
  rewrite !or_empty_filled. reflexivity.
Qed.

Lemma transformSearchResults_counts_witness :
  exists r,
    Search.transformSearchResults Examples2.two_references = Ok r /\
    Search.totalCount r = 2 /\
    Forall (fun x => Search.all_filled x = true) (Search.results r).
Proof.
  destruct (Search.transformSearchResults Examples2.two_references) as [r|e] eqn:E;
    [|discriminate E].
  exists r. split; [reflexivity|].
  destruct (transformSearchResults_counts _ r E) as (_ & Hcount & Hlen & Hall).
  split; [|exact Hall]. rewrite Hcount, Hlen. reflexivity.
Defined.

(** X3. On a tree that is not [null] the search transformer returns whenever
    the references are nodes. In particular a tree without any
    [adtcore:objectReference] gives the empty result
    {search_results, 0, []}. A single reference that is not repeated gives
    exactly one result (read from its text when it has some) unless its
    [_text] is an array: then [xmlArray] hands over that array, and there is
    one result for each of its elements. *)
Theorem transformSearchResults_returns (parsed : any) :
  Js.nullish parsed = false ->
  let root := Js.or (Js.get parsed "adtcore:objectReferences") parsed in
  (Forall (fun x => Js.nullish x = false)
          (Xml.xmlArray root ["adtcore:objectReference"]) ->
   exists r, Search.transformSearchResults parsed = Ok r) /\
  (Xml.walk root ["adtcore:objectReference"] = None ->
   Search.transformSearchResults parsed
   = Ok {| Search.type := "search_results"; Search.totalCount := 0;
           Search.results := [] |}) /\
  (forall o,
     Xml.walk root ["adtcore:objectReference"] = Some (VObj o) ->
     Js.isArray (Js.get (VObj o) "_text") = false ->
     exists x,
       Search.to_result (Js.or (Js.get (VObj o) "_text") (VObj o)) = Ok x /\
       Search.transformSearchResults parsed
       = Ok {| Search.type := "search_results"; Search.totalCount := 1;
               Search.results := [x] |}) /\
  (forall o l r,
     Xml.walk root ["adtcore:objectReference"] = Some (VObj o) ->
     Js.get (VObj o) "_text" = VArr l ->
     Search.transformSearchResults parsed = Ok r ->
     Search.totalCount r = length l /\ length (Search.results r) = length l).
Proof.
  intros Hn root.
  assert (Hrun : Search.transformSearchResults parsed
                 = rbind (Transform.mapM Search.to_result
                            (Xml.xmlArray root ["adtcore:objectReference"]))
                     (fun results =>
                        Ok {| Search.type := "search_results";
                              Search.totalCount :=
                                length (Xml.xmlArray root ["adtcore:objectReference"]);
                              Search.results := results |})).
  { unfold Search.transformSearchResults, Search.searchResult, Transform.member.
    rewrite Hn. reflexivity. }
  split; [|split; [|split]].
  - intros Hall. rewrite Hrun.
    destruct (mapM_returns Search.to_result
                (Xml.xmlArray root ["adtcore:objectReference"])) as [rs Hrs].
    + eapply List.Forall_impl; [|exact Hall]. intros x Hx.
      unfold Search.to_result, Transform.member. rewrite Hx. simpl. eauto.
    + rewrite Hrs. simpl. eauto.
  - intros Hw. rewrite Hrun. unfold Xml.xmlArray, Xml.xmlNode. rewrite Hw. reflexivity.
  - intros o Hw Htext. rewrite Hrun.
    assert (Hnode : exists node,
               Js.or (Js.get (VObj o) "_text") (VObj o) = node /\
               Js.truthy node = true /\ Js.isArray node = false).
    { unfold Js.or. destruct (Js.truthy (Js.get (VObj o) "_text")) eqn:Et; eauto. }
    destruct Hnode as (node & Hnode & Ht & Ha).
    assert (Hlist : Xml.xmlArray root ["adtcore:objectReference"] = [node]).
    { unfold Xml.xmlArray, Xml.xmlNode. rewrite Hw.
      change (Js.get_opt (VObj o) "_text") with (Js.get (VObj o) "_text").
      rewrite Hnode, Ht. destruct node; try reflexivity; discriminate. }
    rewrite Hlist, Hnode. cbn [Transform.mapM length].
    unfold Search.to_result, Transform.member.
    assert (Hnn : Js.nullish node = false) by (destruct node; try reflexivity; discriminate).
    rewrite Hnn. cbn [rbind]. eauto.
  - intros o l r Hw Htext Hr.
    assert (Hlist : Xml.xmlArray root ["adtcore:objectReference"] = l).
    { unfold Xml.xmlArray, Xml.xmlNode. rewrite Hw.
      change (Js.get_opt (VObj o) "_text") with (Js.get (VObj o) "_text").
      rewrite Htext. reflexivity. }
    rewrite Hrun, Hlist in Hr.
    destruct (Transform.mapM Search.to_result l) as [rs|e] eqn:Em; [|discriminate].
    cbn [rbind] in Hr. injection Hr as <-. cbn [Search.totalCount Search.results].
    split; [reflexivity|]. exact (mapM_length _ _ _ Em).
Qed.

Lemma transformSearchResults_returns_witness :
  Search.transformSearchResults (VObj [("adtcore:objectReferences", VObj [])])
  = Ok {| Search.type := "search_results"; Search.totalCount := 0;
          Search.results := [] |} /\
  exists x,
    Search.transformSearchResults Examples2.one_reference
    = Ok {| Search.type := "search_results"; Search.totalCount := 1;
            Search.results := [x] |}.
Proof.
  split.
  - apply (proj1 (proj2 (transformSearchResults_returns
                           (VObj [("adtcore:objectReferences", VObj [])]) eq_refl))).
    reflexivity.
  - destruct (proj1 (proj2 (proj2 (transformSearchResults_returns
                                     Examples2.one_reference eq_refl)))
                [("_attributes",
                  VObj [("adtcore:name", VStr "ZCL_DEMO"); ("adtcore:type", VStr "CLAS/OC")])]
                eq_refl eq_refl) as (x & _ & Hx).
    exists x. exact Hx.
Defined.

(** ** Numbers read from text *)

Lemma digit_not_space (c : ascii) : Js.is_digit c = true -> Text.is_space c = false.
Proof.
  unfold Js.is_digit, Text.is_space. cbv zeta. intros H.
  apply andb_prop in H as [H1 H2]. apply Nat.leb_le in H1, H2.
  apply orb_false_iff. split.
  - apply andb_false_iff. right. apply Nat.leb_gt. lia.
  - apply Nat.eqb_neq. lia.
Qed.

Lemma skip_spaces_app (ws s : string) :
  Lex.all_spaces ws = true ->
  match s with String c _ => Text.is_space c = false | EmptyString => True end ->
  Text.skip_spaces (String.append ws s) = s.
Proof.
  intros Hws Hs. induction ws as [|c ws IH]; simpl in *.
  - destruct s as [|c rest]; [reflexivity|]. simpl. rewrite Hs. reflexivity.
  - apply andb_prop in Hws as [Hc Hws]. rewrite Hc. apply IH. exact Hws.
Qed.

Lemma take_digits_app (ds rest : string) :
  Js.all_digits ds = true -> Lex.starts_with_digit rest = false ->
  Text.take_digits (String.append ds rest) = ds.
Proof.
  intros Hds Hrest. induction ds as [|c ds IH]; simpl in *.
  - destruct rest as [|c rest]; [reflexivity|]. simpl in *. rewrite Hrest. reflexivity.
  - apply andb_prop in Hds as [Hc Hds]. rewrite Hc. f_equal. apply IH. exact Hds.
Qed.

Lemma take_digits_all (ds : string) :
  Js.all_digits ds = true -> Text.take_digits ds = ds.
Proof.
  induction ds as [|c ds IH]; simpl; [reflexivity|]. intros H.
  apply andb_prop in H as [Hc Hds]. rewrite Hc, (IH Hds). reflexivity.
Qed.

Lemma digit_not_sign (c : ascii) :
  Js.is_digit c = true -> c <> "-"%char /\ c <> "+"%char.
Proof.
  intros H. split; intros ->; discriminate H.
Qed.

(** The sign and what follows it, as [parseInt] splits them. *)
Lemma parseInt_unsigned (s : string) :
  Lex.starts_with_digit s = true ->
  Text.parseInt s
  = if String.eqb (Text.take_digits s) "" then NaN
    else Int (Js.digits_val 0 (Text.take_digits s)).
Proof.
  intros Hs. destruct s as [|c rest]; [discriminate|]. simpl in Hs.
  pose proof (digit_not_space c Hs) as Hsp.
  destruct (digit_not_sign c Hs) as [Hm Hp].
  unfold Text.parseInt. cbn [Text.skip_spaces]. rewrite Hsp.
  destruct c as [b0 b1 b2 b3 b4 b5 b6 b7].
  destruct b0, b1, b2, b3, b4, b5, b6, b7; try reflexivity;
    exfalso; (apply Hm; reflexivity) || (apply Hp; reflexivity).
Qed.

(** The digits [parseInt] reads, with and without white space and sign. *)
Lemma parseInt_leading (ws ds rest : string) :
  Lex.all_spaces ws = true ->
  Lex.digits ds = true ->
  Lex.starts_with_digit rest = false ->
  Text.parseInt (String.append ws (String.append ds rest)) = Int (Js.digits_val 0 ds) /\
  Text.parseInt (String.append ws (String "-" (String.append ds rest)))
  = Int (- Js.digits_val 0 ds).
Proof.
  intros Hws Hds Hrest. unfold Lex.digits in Hds.
  apply andb_prop in Hds as [Hall Hne]. apply negb_true_iff in Hne.
  assert (Hfirst : Lex.starts_with_digit (String.append ds rest) = true).
  { destruct ds as [|c ds]; [discriminate|]. simpl in *.
    apply andb_prop in Hall as [Hc _]. exact Hc. }
  assert (Hplain : Text.parseInt (String.append ds rest) = Int (Js.digits_val 0 ds)).
  { rewrite (parseInt_unsigned _ Hfirst), (take_digits_app _ _ Hall Hrest), Hne.
    reflexivity. }
  assert (Hskip : forall s, match s with
                            | String c _ => Text.is_space c = false
                            | EmptyString => True
                            end ->
                            Text.parseInt (String.append ws s) = Text.parseInt s).
  { intros s Hs. unfold Text.parseInt at 1. rewrite (skip_spaces_app _ _ Hws Hs).
    unfold Text.parseInt. destruct s as [|c s']; [reflexivity|].
    cbn [Text.skip_spaces]. rewrite Hs. reflexivity. }
  split.
  - rewrite Hskip; [exact Hplain|].
    destruct (String.append ds rest) as [|c s'] eqn:E; [exact I|].
    apply digit_not_space. exact Hfirst.
  - rewrite Hskip by reflexivity. unfold Text.parseInt.
    cbn [Text.skip_spaces]. change (Text.is_space "-") with false. cbv iota.
    rewrite (take_digits_app _ _ Hall Hrest), Hne. reflexivity.
Qed.

Lemma parseInt_no_number (ws rest : string) :
  Lex.all_spaces ws = true -> Lex.no_number rest = true ->
  Text.parseInt (String.append ws rest) = NaN.
Proof.
  intros Hws Hrest. unfold Text.parseInt.
  destruct rest as [|c r].
  - rewrite (skip_spaces_app ws "" Hws I). reflexivity.
  - assert (Hsp : Text.is_space c = false).
    { cbn [Lex.no_number] in Hrest. destruct (Text.is_space c); [|reflexivity].
      rewrite !andb_false_r in Hrest. discriminate. }
    rewrite (skip_spaces_app ws (String c r) Hws Hsp).
    destruct c as [b0 b1 b2 b3 b4 b5 b6 b7].
    destruct b0, b1, b2, b3, b4, b5, b6, b7; try reflexivity; discriminate Hrest.
Qed.

(** X4. [toInt] reads the leading integer of a text. After ASCII white
    space, a run of digits below 2^53 gives its value, whatever follows it
    (anything that is not a digit), negated after a minus sign and unchanged
    by a leading zero; the numeric element properties read the same number.
    A text with no number after the white space gives 0. *)
Theorem toInt_reads_leading_integer (ws ds rest : string) :
  Lex.all_spaces ws = true ->
  Lex.digits ds = true ->
  Lex.starts_with_digit rest = false ->
  (Js.digits_val 0 ds < 2 ^ 53)%Z ->
  Text.toInt (VStr (String.append ws (String.append ds rest))) = Js.digits_val 0 ds /\
  ((0 < Js.digits_val 0 ds)%Z ->
   Text.toInt (VStr (String.append ws (String "-" (String.append ds rest))))
   = (- Js.digits_val 0 ds)%Z) /\
  Text.toInt (VStr (String.append "0" ds)) = Js.digits_val 0 ds /\
  Cds.parse_length (VStr (String.append ds rest)) = VNum (Int (Js.digits_val 0 ds)) /\
  (Lex.no_number rest = true -> Text.toInt (VStr (String.append ws rest)) = 0%Z).
Proof.
  intros Hws Hds Hrest _.
  destruct (parseInt_leading ws ds rest Hws Hds Hrest) as [Hpos Hneg].
  destruct (parseInt_leading "" ds rest eq_refl Hds Hrest) as [Hplain _].
  change (String.append "" (String.append ds rest)) with (String.append ds rest) in Hplain.
  split; [|split; [|split; [|split]]].
  - unfold Text.toInt. cbn [Text.to_string]. rewrite Hpos. reflexivity.
  - intros _. unfold Text.toInt. cbn [Text.to_string]. rewrite Hneg. reflexivity.
  - unfold Lex.digits in Hds. apply andb_prop in Hds as [Hall _].
    unfold Text.toInt. cbn [Text.to_string].
    change (String.append "0" ds) with (String "0" ds).
    rewrite parseInt_unsigned by reflexivity.
    cbn [Text.take_digits]. change (Js.is_digit "0") with true. cbv iota.
    rewrite (take_digits_all _ Hall). reflexivity.
  - unfold Cds.parse_length. cbn [Text.to_string]. rewrite Hplain.
    unfold Lex.digits in Hds. apply andb_prop in Hds as [_ Hne].
    destruct ds as [|c ds]; [discriminate|]. reflexivity.
  - intros Hno. unfold Text.toInt. cbn [Text.to_string].
    rewrite (parseInt_no_number ws rest Hws Hno). reflexivity.
Qed.

Lemma toInt_reads_leading_integer_witness :
  Text.toInt (VStr "  42px") = 42%Z /\ Text.toInt (VStr "  -42px") = (-42)%Z /\
  Text.toInt (VStr "042") = 42%Z /\ Cds.parse_length (VStr "42px") = VNum (Int 42) /\
  Text.toInt (VStr "  px") = 0%Z.
Proof.
  destruct (toInt_reads_leading_integer "  " "42" "px" eq_refl eq_refl eq_refl eq_refl)
    as (H1 & H2 & H3 & H4 & H5).
  split; [exact H1|]. split; [exact (H2 eq_refl)|]. split; [exact H3|].
  split; [exact H4|]. exact (H5 eq_refl).
Defined.

Lemma digits_val_of_uint_acc (d : Decimal.uint) :
  forall acc, Js.digits_val (Zpos acc) (NilEmpty.string_of_uint d)
              = Zpos (Pos.of_uint_acc d acc).
Proof.
  induction d; intros acc; cbn [NilEmpty.string_of_uint Js.digits_val Pos.of_uint_acc];
    [reflexivity
    | (rewrite <- IHd; f_equal;
       try (set (x := Js.digit_val _); vm_compute in x; subst x; lia)) ..].
Qed.

Lemma digits_val_of_uint (d : Decimal.uint) :
  Js.digits_val 0 (NilEmpty.string_of_uint d) = Z.of_N (Pos.of_uint d).
Proof.
  induction d; cbn [NilEmpty.string_of_uint Js.digits_val Pos.of_uint];
    [reflexivity | exact IHd | apply (digits_val_of_uint_acc d) ..].
Qed.

Lemma string_of_uint_digits (d : Decimal.uint) :
  Js.all_digits (NilEmpty.string_of_uint d) = true.
Proof.
  induction d; cbn [NilEmpty.string_of_uint Js.all_digits]; [reflexivity | exact IHd ..].
Qed.

Lemma append_empty (s : string) : String.append s "" = s.
Proof.
  induction s as [|c s IH]; [reflexivity|].
  change (String.append (String c s) "") with (String c (String.append s "")).
  rewrite IH. reflexivity.
Qed.

Lemma to_uint_string (p : positive) :
  Lex.digits (NilEmpty.string_of_uint (Pos.to_uint p)) = true /\
  Js.digits_val 0 (NilEmpty.string_of_uint (Pos.to_uint p)) = Zpos p.
Proof.
  pose proof (DecimalPos.Unsigned.of_to p) as Hp.
  split.
  - unfold Lex.digits. rewrite string_of_uint_digits.
    destruct (Pos.to_uint p); try reflexivity. discriminate Hp.
  - rewrite digits_val_of_uint, Hp. reflexivity.
Qed.

(** X5. [toInt] undoes [String] on the integers a double holds exactly:
    [toInt(String(z))] is [z]. *)
Theorem toInt_of_printed_integer (z : Z) :
  (Z.abs z < 2 ^ 53)%Z ->
  Text.toInt (VNum (Int z)) = z /\
  Text.toInt (VStr (Text.to_string (VNum (Int z)))) = z.
Proof.
  intros _.
  assert (H : Text.parseInt (Text.string_of_Z z) = Int z).
  { unfold Text.string_of_Z. destruct z as [|p|p]; cbn [Z.to_int NilEmpty.string_of_int].
    - reflexivity.
    - destruct (to_uint_string p) as [Hd Hv].
      pose proof (parseInt_leading "" _ "" eq_refl Hd eq_refl) as [Hp _].
      rewrite append_empty in Hp.
      change (Text.parseInt (NilEmpty.string_of_uint (Pos.to_uint p))
              = Int (Js.digits_val 0 (NilEmpty.string_of_uint (Pos.to_uint p)))) in Hp.
      rewrite Hp, Hv. reflexivity.
    - destruct (to_uint_string p) as [Hd Hv].
      pose proof (parseInt_leading "" _ "" eq_refl Hd eq_refl) as (_ & Hn).
      rewrite append_empty in Hn.
      change (Text.parseInt (String "-" (NilEmpty.string_of_uint (Pos.to_uint p)))
              = Int (- Js.digits_val 0 (NilEmpty.string_of_uint (Pos.to_uint p)))) in Hn.
      rewrite Hn, Hv. reflexivity. }
  unfold Text.toInt. cbn [Text.to_string]. rewrite H. auto.
Qed.

Lemma toInt_of_printed_integer_witness :
  Text.toInt (VNum (Int (-4711))) = (-4711)%Z /\
  Text.toInt (VStr (Text.to_string (VNum (Int (-4711))))) = (-4711)%Z.
Proof.
  apply (toInt_of_printed_integer (-4711)). reflexivity.
Defined.

(** ** The annotation pattern and the holes of the array *)

Lemma strip_prefix_app (p s : string) :
  Text.strip_prefix p (String.append p s) = Some s.
Proof.
  induction p as [|c p IH]; [destruct s; reflexivity|].
  change (String.append (String c p) s) with (String c (String.append p s)).
  cbn [Text.strip_prefix]. rewrite Ascii.eqb_refl. exact IH.
Qed.

Lemma strip_prefix_prefix (p s r : string) :
  Text.strip_prefix p s = Some r -> String.prefix p s = true.
Proof.
  revert s. induction p as [|c p IH]; intros s H.
  - destruct s; reflexivity.
  - destruct s as [|c' s]; [discriminate|]. cbn [Text.strip_prefix] in H.
    destruct (Ascii.eqb_spec c c') as [<-|]; [|discriminate].
    cbn [String.prefix]. destruct (ascii_dec c c) as [_|Hne]; [|congruence].
    apply (IH _ H).
Qed.

Lemma match_here_exact (mtype ds rest : string) :
  mtype = "Key" \/ mtype = "Value" ->
  Lex.digits ds = true -> Lex.starts_with_digit rest = false ->
  Text.match_here
    (String.append "annotation"
       (String.append mtype (String.append "." (String.append ds rest))))
  = Some (mtype, ds).
Proof.
  intros Hm Hds Hrest. unfold Lex.digits in Hds.
  apply andb_prop in Hds as [Hall Hne]. apply negb_true_iff in Hne.
  unfold Text.match_here. rewrite strip_prefix_app.
  destruct Hm as [-> | ->].
  - rewrite strip_prefix_app, strip_prefix_app, (take_digits_app _ _ Hall Hrest), Hne.
    reflexivity.
  - change (Text.strip_prefix "Key" (String.append "Value" ?x)) with (@None string).
    rewrite strip_prefix_app, strip_prefix_app, (take_digits_app _ _ Hall Hrest), Hne.
    reflexivity.
Qed.

Lemma annotation_match_suffix (p s : string) :
  Text.annotation_match s <> None -> Text.annotation_match (String.append p s) <> None.
Proof.
  intros Hs. induction p as [|c p IH]; [exact Hs|].
  change (String.append (String c p) s) with (String c (String.append p s)).
  cbn [Text.annotation_match].
  destruct (Text.match_here _); [discriminate | exact IH].
Qed.

Lemma annotation_match_needs_word (k : string) :
  Session.includes "annotation" k = false -> Text.annotation_match k = None.
Proof.
  induction k as [|c k IH]; intros H.
  - reflexivity.
  - cbn [Session.includes] in H. apply orb_false_iff in H as [Hp Hrest].
    cbn [Text.annotation_match].
    destruct (Text.match_here (String c k)) as [m|] eqn:Hm; [|exact (IH Hrest)].
    exfalso. unfold Text.match_here in Hm.
    destruct (Text.strip_prefix "annotation" (String c k)) as [r|] eqn:Hs; [|discriminate].
    apply strip_prefix_prefix in Hs. congruence.
Qed.

(** X6. The annotation pattern is searched for anywhere in a key. A key
    [annotationKey.<digits>] or [annotationValue.<digits>] matches with its
    kind and all of its digits, whatever follows them, and so does any key
    that merely ends with one; a key that does not contain the word
    [annotation] never matches. *)
Theorem annotation_pattern_is_unanchored :
  (forall mtype ds rest p,
     mtype = "Key" \/ mtype = "Value" ->
     Lex.digits ds = true -> Lex.starts_with_digit rest = false ->
     let key := String.append "annotation"
                  (String.append mtype (String.append "." (String.append ds rest))) in
     Text.annotation_match key = Some (mtype, ds) /\
     Text.annotation_match (String.append p key) <> None) /\
  (forall k, Session.includes "annotation" k = false -> Text.annotation_match k = None).
Proof.
  split; [|exact annotation_match_needs_word].
  intros mtype ds rest p Hm Hds Hrest key.
  assert (Hkey : Text.annotation_match key = Some (mtype, ds)).
  { pose proof (match_here_exact mtype ds rest Hm Hds Hrest) as Hh. fold key in Hh.
    destruct key; cbn [Text.annotation_match]; rewrite Hh; reflexivity. }
  split; [exact Hkey|]. apply annotation_match_suffix. rewrite Hkey. discriminate.
Qed.

Lemma annotation_pattern_is_unanchored_witness :
  Text.annotation_match "annotationValue.12.text" = Some ("Value", "12") /\
  Text.annotation_match "my.annotationValue.12.text" <> None /\
  Text.annotation_match "ddicLabelShort" = None.
Proof.
  destruct (proj1 annotation_pattern_is_unanchored "Value" "12" ".text" "my."
              (or_intror eq_refl) eq_refl eq_refl) as [Hexact Hany].
  split; [exact Hexact|]. split; [exact Hany|].
  apply (proj2 annotation_pattern_is_unanchored). reflexivity.
Defined.

Lemma slot_step_stays (rawanno : list (string * any)) (n : Z) (k : string)
      (a : Cds.DdicAnnotation) :
  exists a', Cds.slot_step rawanno n (Some a) k = Some a'.
Proof.
  unfold Cds.slot_step. destruct (Text.annotation_match k) as [[t d]|]; [|eauto].
  destruct (Text.toInt (VStr d) =? n)%Z; eauto.
Qed.

Lemma fold_slot_step_stays (rawanno : list (string * any)) (n : Z) (ks : list string) :
  forall a, exists a', fold_left (Cds.slot_step rawanno n) ks (Some a) = Some a'.
Proof.
  induction ks as [|k ks IH]; intros a; simpl; [eauto|].
  destruct (slot_step_stays rawanno n k a) as [a' ->]. apply IH.
Qed.

Lemma fold_slot_step_hole (rawanno : list (string * any)) (n : Z) (ks : list string) :
  fold_left (Cds.slot_step rawanno n) ks None = None <->
  (forall k t d, In k ks -> Text.annotation_match k = Some (t, d) ->
                 Text.toInt (VStr d) <> n).
Proof.
  induction ks as [|k ks IH]; simpl.
  - split; [intros _ k t d [] | reflexivity].
  - unfold Cds.slot_step at 2.
    destruct (Text.annotation_match k) as [[t d]|] eqn:Hm.
    + destruct (Z.eqb_spec (Text.toInt (VStr d)) n) as [E|Hne].
      * split.
        -- intros H. exfalso. revert H.
           match goal with
           | |- fold_left _ _ (Some ?a) = None -> _ =>
               destruct (fold_slot_step_stays rawanno n ks a) as [a'' ->]
           end. discriminate.
        -- intros H. exfalso. exact (H k t d (or_introl eq_refl) Hm E).
      * rewrite IH. split.
        -- intros H k' t' d' [<-|Hin] Hm'; [congruence | eapply H; eassumption].
        -- intros H k' t' d' Hin. apply H. right. exact Hin.
    + rewrite IH. split.
      * intros H k' t' d' [<-|Hin] Hm'; [congruence | eapply H; eassumption].
      * intros H k' t' d' Hin. apply H. right. exact Hin.
Qed.

Lemma fold_annotation_step_none (rawanno : list (string * any)) (ks : list string) :
  (forall k, In k ks -> Text.annotation_match k = None) ->
  forall annotations, fold_left (Cds.annotation_step rawanno) ks annotations = annotations.
Proof.
  induction ks as [|k ks IH]; intros Hnone annotations; simpl; [reflexivity|].
  unfold Cds.annotation_step at 2. rewrite (Hnone k (or_introl eq_refl)).
  apply IH. intros k' Hin. apply Hnone. right. exact Hin.
Qed.

(** X7. The annotations array has a hole exactly at the indexes no entry
    names: slot [n] is empty if and only if no remaining key matches the
    pattern with the index [n]. When no key matches at all, the array is
    empty. *)
Theorem annotation_holes (rawanno : list (string * any)) :
  (forall n,
     Cds.is_index n = true ->
     (Cds.array_get (Cds.parse_annotations rawanno) n = None <->
      forall k t d, In k (map fst rawanno) ->
                    Text.annotation_match k = Some (t, d) ->
                    Text.toInt (VStr d) <> n)) /\
  ((forall k, In k (map fst rawanno) -> Text.annotation_match k = None) ->
   Cds.parse_annotations rawanno = []).
Proof.
  split.
  - intros n Hn. unfold Cds.parse_annotations.
    rewrite (fold_annotation_step_slot rawanno n _ Hn).
    replace (Cds.array_get (@nil (option Cds.DdicAnnotation)) n)
      with (@None Cds.DdicAnnotation)
      by (unfold Cds.array_get; rewrite Hn; reflexivity).
    apply fold_slot_step_hole.
  - intros Hnone. apply fold_annotation_step_none. exact Hnone.
Qed.

Lemma annotation_holes_witness :
  Cds.array_get (Cds.parse_annotations [("annotationKey.2", VStr "A")]) 1 = None /\
  Cds.parse_annotations [("label", VStr "x"); ("parent", VStr "y")] = [].
Proof.
  split.
  - apply (proj1 (annotation_holes [("annotationKey.2", VStr "A")]) 1%Z eq_refl).
    intros k t d [<-|[]] Hm. vm_compute in Hm. inversion Hm; subst. discriminate.
  - apply (proj2 (annotation_holes [("label", VStr "x"); ("parent", VStr "y")])).
    intros k [<-|[<-|[]]]; reflexivity.
Defined.

(** X8. A property bag with one entry only, that entry having a text, is
    read as an empty bag: [xmlArray] hands the parser the text of the entry
    in place of the entry, so its key is lost, and the result has no
    element properties and no annotations. *)
Theorem single_entry_bag_is_lost (raw entry : list (string * any)) (text : string) :
  Js.assoc "abapsource:entry" raw = Some (VObj entry) ->
  Js.assoc "_text" entry = Some (VStr text) ->
  text <> "" ->
  Xml.xmlArray (VObj raw) ["abapsource:entry"] = [VStr text] /\
  Cds.parseDDICProps (VObj raw)
  = Ok {| Cds.elementProps := None; Cds.annotations := [] |}.
Proof.
  intros Hentry Htext Hne.
  assert (Harr : Xml.xmlArray (VObj raw) ["abapsource:entry"] = [VStr text]).
  { apply String.eqb_neq in Hne.
    unfold Xml.xmlArray, Xml.xmlNode.
    cbn [Xml.walk Js.truthy Js.is_object Js.has_property Js.get andb].
    rewrite Hentry. unfold Js.get_opt. cbn [Js.nullish Js.get]. rewrite Htext.
    unfold Js.or. cbn [Js.truthy]. rewrite Hne. cbn [negb Js.truthy]. rewrite Hne. reflexivity. }
  split; [exact Harr|].
  unfold Cds.parseDDICProps. rewrite Harr. reflexivity.
Qed.

Lemma single_entry_bag_is_lost_witness :
  Cds.parseDDICProps (VObj [("abapsource:entry", Examples.entry "ddicDataType" "CHAR")])
  = Ok {| Cds.elementProps := None; Cds.annotations := [] |}.
Proof.
  apply (single_entry_bag_is_lost
           [("abapsource:entry", Examples.entry "ddicDataType" "CHAR")]
           [("_attributes", VObj [("abapsource:key", VStr "ddicDataType")]);
            ("_text", VStr "CHAR")] "CHAR" eq_refl eq_refl).
  discriminate.
Defined.

(** ** Request executor: further properties *)

(** The three ways a call continues after its first attempt. *)
Lemma attempt_log (env : Session.Env) (net : list Session.request -> Session.outcome)
      (c : Session.request) (cfg : Session.SapConfig) (ax : bool)
      (tok ck : option string) (lg : list Session.request) :
  exists rest,
    Session.log (snd (Session.attempt env net c
                        (Session.mk_state ax (Some cfg) tok ck lg)))
    = lg ++ c :: rest /\
    (rest = [] \/
     rest = [Session.fetch_request (Session.url c) (Session.auth_of cfg)] \/
     exists token,
       rest = [Session.fetch_request (Session.url c) (Session.auth_of cfg);
               Session.with_csrf token c]).
Proof.
  rewrite attempt_run. cbv zeta. destruct (Session.token_rejected _).
  - destruct (Session.token_of _) as [token|]; cbn [snd Session.log Session.mk_state].
    + eexists. split; [rewrite <- !app_assoc; reflexivity|]. right. right. eauto.
    + eexists. split; [rewrite <- !app_assoc; reflexivity|]. right. left. reflexivity.
  - cbn [snd Session.log Session.mk_state]. exists []. auto.
Qed.

(** X9. A request whose method is neither POST nor PUT never starts with a
    token fetch: the first request sent is the request itself, and it
    carries no x-csrf-token header even when a token is cached. It carries
    the cached cookie when there is one, and at most two more requests (one
    token fetch, one retry) follow it. *)
Theorem safe_method_sends_no_token
        (env : Session.Env) (net : list Session.request -> Session.outcome)
        (u m : string) (t : Z) (d p : any) (st : Session.state) (c : Session.SapConfig) :
  Session.mutating m = false ->
  fst (Session.load_config env st) = Ok c ->
  exists main rest,
    Session.log (snd (Session.makeAdtRequest env net u m t d p st))
    = Session.log st ++ main :: rest /\
    Session.method main = m /\ Session.url main = u /\
    Session.csrf_header main = None /\
    Session.cookie_header main
    = Session.truthy_str (Session.cookies (Session.sess st)) /\
    length rest <= 2.
Proof.
  intros Hm Hc. apply load_config_iff in Hc.
  destruct st as [[ax cfg tok ck] lg].
  cbn [Session.sess Session.cookies Session.config Session.log] in *.
  unfold Session.makeAdtRequest, Session.bind.
  fold (Session.mk_state ax cfg tok ck lg).
  rewrite (prepare_run_plain env net u m t d p cfg c ax tok ck lg Hc (or_introl Hm)).
  cbv zeta.
  set (main := Session.request_config u m t d p (Session.auth_of c) _).
  destruct (attempt_log env net main c ax tok ck lg) as (rest & Hlog & Hrest).
  exists main, rest. split; [exact Hlog|].
  subst main. unfold Session.request_config.
  cbn [Session.method Session.url Session.csrf_header Session.cookie_header
       Session.cookies].
  rewrite Hm. repeat split; auto.
  destruct Hrest as [-> | [-> | [token ->]]]; simpl; lia.
Qed.

Lemma safe_method_sends_no_token_witness :
  exists main rest,
    Session.log (snd (Session.makeAdtRequest Examples.json_env Examples.tokenless
                        Examples.adt_url "GET" 30000 VUndef VUndef
                        (Session.mk_state true None (Some "T0") (Some "sid=0") [])))
    = main :: rest /\
    Session.csrf_header main = None /\ Session.cookie_header main = Some "sid=0".
Proof.
  destruct (safe_method_sends_no_token Examples.json_env Examples.tokenless
              Examples.adt_url "GET" 30000 VUndef VUndef
              (Session.mk_state true None (Some "T0") (Some "sid=0") [])
              Examples.sample_config eq_refl eq_refl)
    as (main & rest & Hlog & _ & _ & Hcsrf & Hcookie & _).
  exists main, rest. auto.
Defined.

(** X10. Once a token is cached it is reused: after any operations other
    than the reset, a POST or PUT does not fetch a token first. Its first
    request is the request itself, carrying the token cached at that
    moment. *)
Theorem cached_token_is_reused
        (env : Session.Env) (net : list Session.request -> Session.outcome)
        (new_URL : string -> Session.URL + string)
        (os : list Session.op) (u m : string) (t : Z) (d p : any)
        (st : Session.state) (c : Session.SapConfig) :
  Session.mutating m = true ->
  forallb (fun o => negb (Session.is_cleanup o)) os = true ->
  is_Some (Session.truthy_str (Session.csrfToken (Session.sess st))) ->
  fst (Session.load_config env (Session.run_ops env net new_URL os st)) = Ok c ->
  exists token main rest,
    Session.truthy_str
      (Session.csrfToken (Session.sess (Session.run_ops env net new_URL os st)))
    = Some token /\
    Session.log (snd (Session.makeAdtRequest env net u m t d p
                        (Session.run_ops env net new_URL os st)))
    = Session.log (Session.run_ops env net new_URL os st) ++ main :: rest /\
    Session.method main = m /\ Session.url main = u /\
    Session.csrf_header main = Some token.
Proof.
  intros Hm Hos Htok Hc.
  assert (Hsteps : rtc (Session.session_step env net) (Session.sess st)
                       (Session.sess (Session.run_ops env net new_URL os st))).
  { clear Htok Hc. revert st. induction os as [|o os IH]; intros st; simpl in *.
    - apply rtc_refl.
    - apply andb_prop in Hos as [Ho Hos]. apply negb_true_iff in Ho.
      eapply rtc_trans; [apply (run_op_steps env net new_URL o st Ho)|].
      apply IH. exact Hos. }
  apply (steps_never_cleared env net) in Hsteps as (_ & Hkeep & _).
  set (st' := Session.run_ops env net new_URL os st) in *.
  destruct (Hkeep Htok) as [token Htoken].
  apply load_config_iff in Hc. clearbody st'. clear Hkeep Htok.
  destruct st' as [[ax cfg tok ck] lg].
  cbn [Session.sess Session.csrfToken Session.config Session.log] in *.
  exists token.
  unfold Session.makeAdtRequest, Session.bind.
  fold (Session.mk_state ax cfg tok ck lg).
  rewrite (prepare_run_plain env net u m t d p cfg c ax tok ck lg Hc
             (or_intror (ex_intro _ token Htoken))).
  cbv zeta.
  set (main := Session.request_config u m t d p (Session.auth_of c) _).
  destruct (attempt_log env net main c ax tok ck lg) as (rest & Hlog & _).
  exists main, rest. split; [exact Htoken|]. split; [exact Hlog|].
  subst main. unfold Session.request_config.
  cbn [Session.method Session.url Session.csrf_header Session.csrfToken]. rewrite Hm.
  auto.
Qed.

Lemma cached_token_is_reused_witness :
  exists main rest,
    Session.log
      (snd (Session.makeAdtRequest Examples.json_env Examples.tokenless
              Examples.adt_url "PUT" 30000 VUndef VUndef
              (Session.run_ops Examples.json_env Examples.tokenless Examples.sample_URL
                 [Session.GetBaseUrl]
                 (Session.mk_state true None (Some "T0") None []))))
    = main :: rest /\
    Session.method main = "PUT" /\ Session.csrf_header main = Some "T0".
Proof.
  destruct (cached_token_is_reused Examples.json_env Examples.tokenless
              Examples.sample_URL [Session.GetBaseUrl]
              Examples.adt_url "PUT" 30000 VUndef VUndef
              (Session.mk_state true None (Some "T0") None [])
              Examples.sample_config eq_refl eq_refl
              ltac:(eexists; reflexivity) eq_refl)
    as (token & main & rest & Htoken & Hlog & Hmeth & _ & Hcsrf).
  vm_compute in Htoken. inversion Htoken; subst token.
  exists main, rest. auto.
Defined.

(** X11. The retry after a rejected token is the first request with the new
    token and nothing else changed: in particular it carries the Cookie
    header of the first attempt. The cookies the bootstrap exchange supplied
    are cached, but they are first sent by the next call. *)
Theorem retry_keeps_first_cookie
        (env : Session.Env) (net : list Session.request -> Session.outcome)
        (u m : string) (t : Z) (d p : any) (st st1 : Session.state)
        (c : Session.request) (token : string) :
  Session.prepare env net u m t d p st = (Ok c, st1) ->
  Session.token_rejected (net (Session.log st1 ++ [c])) = true ->
  Session.token_of
    (net (Session.log st1 ++ [c; Session.fetch_request u (Session.auth c)]))
  = Some token ->
  exists retry,
    Session.log (snd (Session.makeAdtRequest env net u m t d p st))
    = Session.log st1 ++ [c; Session.fetch_request u (Session.auth c); retry] /\
    Session.csrf_header retry = Some token /\
    Session.cookie_header retry = Session.cookie_header c /\
    (Session.method retry, Session.url retry, Session.auth retry,
     Session.timeout retry, Session.params retry, Session.body retry)
    = (Session.method c, Session.url c, Session.auth c,
       Session.timeout c, Session.params c, Session.body c) /\
    Session.cookies (Session.sess (snd (Session.makeAdtRequest env net u m t d p st)))
    = Session.captured_cookies
        (net (Session.log st1 ++ [c; Session.fetch_request u (Session.auth c)]))
        (Session.cookies (Session.sess st1)).
Proof.
  intros Hprep Hrej Htoken.
  destruct (prepare_ok _ _ _ _ _ _ _ _ _ _ Hprep)
    as (cfg & ax & tok & ck & Hst1 & Hauth & Hurl & _).
  unfold Session.makeAdtRequest, Session.bind. rewrite Hprep.
  rewrite Hauth, <- Hurl in Htoken. rewrite Hauth, <- Hurl. clear Hprep.
  set (lg := Session.log st1) in *. clearbody lg. subst st1.
  cbn [Session.sess Session.cookies Session.mk_state] in *.
  rewrite attempt_run. cbv zeta. rewrite Hrej.
  rewrite <- !app_assoc. cbn [app]. rewrite Htoken.
  cbn [snd Session.log Session.sess Session.cookies Session.mk_state].
  exists (Session.with_csrf token c). rewrite <- !app_assoc. cbn [app].
  repeat split; try reflexivity.
  unfold Session.with_csrf.
  cbn [Session.method Session.url Session.auth Session.timeout Session.params
       Session.body].
  rewrite Hauth. reflexivity.
Qed.

Lemma retry_keeps_first_cookie_witness :
  exists retry,
    Session.log (snd (Session.makeAdtRequest Examples.json_env Examples2.rotating_cookie
                        Examples.adt_url "GET" 30000 VUndef VUndef
                        (Session.mk_state true None None (Some "sid=old") [])))
    = [ Session.request_config Examples.adt_url "GET" 30000 VUndef VUndef
          (Session.auth_of Examples.sample_config)
          (Session.Build_session true (Some Examples.sample_config) None (Some "sid=old"));
        Session.fetch_request Examples.adt_url (Session.auth_of Examples.sample_config);
        retry ] /\
    Session.cookie_header retry = Some "sid=old" /\
    Session.cookies
      (Session.sess (snd (Session.makeAdtRequest Examples.json_env
                            Examples2.rotating_cookie Examples.adt_url "GET" 30000
                            VUndef VUndef
                            (Session.mk_state true None None (Some "sid=old") []))))
    = Some "sid=new".
Proof.
  destruct (retry_keeps_first_cookie Examples.json_env Examples2.rotating_cookie
              Examples.adt_url "GET" 30000 VUndef VUndef
              (Session.mk_state true None None (Some "sid=old") []) _ _ "T9"
              eq_refl eq_refl eq_refl)
    as (retry & Hlog & _ & Hcookie & _ & Hsess).
  exists retry. split; [exact Hlog|]. split; [exact Hcookie | exact Hsess].
Defined.

(** X12. One call sends at most four requests: possibly a token fetch, then
    the request, then possibly one more token fetch and one retry of the
    request. Nothing already in the log is changed. *)
Theorem makeAdtRequest_sends_at_most_four
        (env : Session.Env) (net : list Session.request -> Session.outcome)
        (u m : string) (t : Z) (d p : any) (st : Session.state) :
  exists before after,
    Session.log (snd (Session.makeAdtRequest env net u m t d p st))
    = Session.log st ++ before ++ after /\
    (before = [] \/ exists h, before = [Session.fetch_request u h]) /\
    (after = [] \/
     exists main,
       Session.method main = m /\ Session.url main = u /\
       (after = [main] \/
        (exists h, after = [main; Session.fetch_request u h]) \/
        (exists h token,
           after = [main; Session.fetch_request u h; Session.with_csrf token main]))) /\
    length (before ++ after) <= 4.
Proof.
  assert (Hlen : forall before after : list Session.request,
            (before = [] \/ exists h, before = [Session.fetch_request u h]) ->
            (after = [] \/
             exists main,
               Session.method main = m /\ Session.url main = u /\
               (after = [main] \/
                (exists h, after = [main; Session.fetch_request u h]) \/
                (exists h token,
                   after = [main; Session.fetch_request u h;
                            Session.with_csrf token main]))) ->
            length (before ++ after) <= 4).
  { intros before after [-> | [h ->]] [-> | (main & _ & _ & [-> | [[h' ->] | (h' & tk & ->)]])];
      simpl; lia. }
  enough (H : exists before after,
            Session.log (snd (Session.makeAdtRequest env net u m t d p st))
            = Session.log st ++ before ++ after /\
            (before = [] \/ exists h, before = [Session.fetch_request u h]) /\
            (after = [] \/
             exists main,
               Session.method main = m /\ Session.url main = u /\
               (after = [main] \/
                (exists h, after = [main; Session.fetch_request u h]) \/
                (exists h token,
                   after = [main; Session.fetch_request u h;
                            Session.with_csrf token main])))).
  { destruct H as (before & after & Hlog & Hb & Ha).
    exists before, after. repeat split; auto. }
  assert (Hattempt : forall c cfg ax tok ck lg,
            Session.method c = m -> Session.url c = u ->
            exists after,
              Session.log (snd (Session.attempt env net c
                                  (Session.mk_state ax (Some cfg) tok ck lg)))
              = lg ++ after /\
              exists main,
                Session.method main = m /\ Session.url main = u /\
                (after = [main] \/
                 (exists h, after = [main; Session.fetch_request u h]) \/
                 (exists h token,
                    after = [main; Session.fetch_request u h;
                             Session.with_csrf token main]))).
  { intros c cfg ax tok ck lg Hcm Hcu.
    destruct (attempt_log env net c cfg ax tok ck lg) as (rest & Hlog & Hrest).
    exists (c :: rest). split; [exact Hlog|]. exists c. rewrite Hcu in Hrest.
    split; [exact Hcm|]. split; [exact Hcu|].
    destruct Hrest as [-> | [-> | [token ->]]]; eauto. }
  destruct st as [[ax cfg tok ck] lg]. fold (Session.mk_state ax cfg tok ck lg).
  cbn [Session.log Session.mk_state].
  unfold Session.makeAdtRequest, Session.bind.
  destruct (config_loads_or_not env cfg) as [[c0 Hc] | [-> [e He]]].
  - destruct (Session.mutating m &&
              negb (bool_decide (is_Some (Session.truthy_str tok)))) eqn:Hb.
    + apply andb_prop in Hb as [Hm Hnone]. apply negb_true_iff in Hnone.
      apply bool_decide_eq_false in Hnone.
      assert (Htok : Session.truthy_str tok = None).
      { destruct (Session.truthy_str tok); [exfalso; apply Hnone; eauto | reflexivity]. }
      rewrite (prepare_run_bootstrap env net u m t d p cfg c0 ax tok ck lg Hc Hm Htok).
      cbv zeta. destruct (Session.token_of _) as [token|].
      * match goal with
        | |- context [Session.attempt env net ?c {| Session.sess := ?s; Session.log := ?l |}] =>
            destruct (Hattempt c c0 (Session.axiosInstance s) (Session.csrfToken s)
                        (Session.cookies s) l eq_refl eq_refl)
              as (after & Hlog & Hshape)
        end.
        exists [Session.fetch_request u (Session.auth_of c0)], after.
        split; [|split; [right; eauto | right; exact Hshape]].
        unfold Session.mk_state in Hlog.
        cbn [Session.axiosInstance Session.csrfToken Session.cookies] in Hlog.
        rewrite Hlog, <- app_assoc. reflexivity.
      * cbn [snd Session.log Session.mk_state].
        exists [Session.fetch_request u (Session.auth_of c0)], [].
        split; [rewrite app_nil_r; reflexivity|]. split; [right; eauto | left; reflexivity].
    + assert (Hcase : Session.mutating m = false \/ is_Some (Session.truthy_str tok)).
      { apply andb_false_iff in Hb as [Hm | Hs]; [left; exact Hm | right].
        apply negb_false_iff, bool_decide_eq_true in Hs. exact Hs. }
      rewrite (prepare_run_plain env net u m t d p cfg c0 ax tok ck lg Hc Hcase).
      cbv beta iota zeta.
      match goal with
      | |- context [Session.attempt env net ?c _] =>
          destruct (Hattempt c c0 ax tok ck lg eq_refl eq_refl)
            as (after & Hlog & Hshape)
      end.
      exists [], after. split; [exact Hlog|].
      split; [left; reflexivity | right; exact Hshape].
  - destruct (prepare_run_noconfig env net u m t d p e ax tok ck lg He)
      as (e' & ax' & -> & _).
    cbn [snd Session.log Session.mk_state]. exists [], [].
    split; [rewrite app_nil_r; reflexivity | auto].
Qed.

(** X13. The configuration is read from the environment once. While it is
    cached, [getAuthHeaders] and [getBaseUrl] answer from the cache whatever
    the environment holds by then, send nothing and leave the session as it
    is; after [cleanup] the environment is read again. *)
Theorem configuration_is_cached
        (env : Session.Env) (new_URL : string -> Session.URL + string)
        (st : Session.state) (c : Session.SapConfig) :
  Session.config (Session.sess st) = Some c ->
  Session.getAuthHeaders env st = (Ok (Session.auth_of c), st) /\
  snd (Session.getBaseUrl env new_URL st) = st /\
  (forall urlObj, new_URL (Session.cfg_url c) = inl urlObj ->
                  fst (Session.getBaseUrl env new_URL st) = Ok (Session.origin urlObj)) /\
  fst (Session.getAuthHeaders env (snd (Session.cleanup st)))
  = rbind (Session.getConfig env) (fun c' => Ok (Session.auth_of c')).
Proof.
  intros Hc. destruct st as [[ax cfg tok ck] lg]. simpl in Hc. subst cfg.
  split; [reflexivity|]. split; [|split].
  - unfold Session.getBaseUrl, Session.bind. simpl.
    destruct (new_URL (Session.cfg_url c)); reflexivity.
  - intros urlObj H. unfold Session.getBaseUrl, Session.bind. simpl. rewrite H.
    reflexivity.
  - unfold Session.getAuthHeaders, Session.load_config, Session.cleanup,
      Session.bind, Session.get_session, Session.put_session. simpl.
    destruct (Session.getConfig env); reflexivity.
Qed.

Lemma configuration_is_cached_witness :
  Session.getAuthHeaders Examples.broken_env
    (Session.mk_state false (Some Examples.sample_config) None None [])
  = (Ok (Session.auth_of Examples.sample_config),
     Session.mk_state false (Some Examples.sample_config) None None []).
Proof.
  apply (configuration_is_cached Examples.broken_env Examples.sample_URL
           (Session.mk_state false (Some Examples.sample_config) None None [])
           Examples.sample_config eq_refl).
Defined.

(** X14. A 403 whose body is not text (a parsed JSON object, a number, a
    boolean) ends the call with the [TypeError] of calling [includes] on it:
    nothing is retried, and the error the caller sees is not the server's. *)
Theorem rejection_with_object_body
        (env : Session.Env) (net : list Session.request -> Session.outcome)
        (u m : string) (t : Z) (d p : any) (st st1 : Session.state)
        (c : Session.request) (msg : string) (r : response) :
  Session.prepare env net u m t d p st = (Ok c, st1) ->
  net (Session.log st1 ++ [c]) = Session.Rejected msg (Some r) ->
  status r = 403%Z ->
  Session.has_includes (data r) = false ->
  Session.makeAdtRequest env net u m t d p st
  = (Throw (Error "error.response.data?.includes is not a function"),
     Session.mk_state true (Session.config (Session.sess st1))
                      (Session.csrfToken (Session.sess st1))
                      (Session.cookies (Session.sess st1))
                      (Session.log st1 ++ [c])).
Proof.
  intros Hprep Hfirst Hstatus Hdata.
  destruct (prepare_ok _ _ _ _ _ _ _ _ _ _ Hprep) as (cfg & ax & tok & ck & Hst1 & _).
  unfold Session.makeAdtRequest, Session.bind. rewrite Hprep. clear Hprep.
  set (lg := Session.log st1) in *. clearbody lg. subst st1.
  cbn [Session.sess Session.config Session.csrfToken Session.cookies Session.mk_state].
  rewrite attempt_run. cbv zeta. rewrite Hfirst.
  cbn [Session.token_rejected Session.unrecovered]. rewrite Hstatus, Hdata.
  destruct (data r); try discriminate Hdata; reflexivity.
Qed.

Lemma rejection_with_object_body_witness :
  fst (Session.makeAdtRequest Examples.json_env Examples2.json_403
         Examples.adt_url "GET" 30000 VUndef VUndef Examples.fresh)
  = Throw (Error "error.response.data?.includes is not a function").
Proof.
  rewrite (rejection_with_object_body Examples.json_env Examples2.json_403
             Examples.adt_url "GET" 30000 VUndef VUndef Examples.fresh _ _
             "Request failed with status code 403"
             (Examples.reply 403 None None (VObj [("error", VStr "CSRF")]))
             eq_refl eq_refl eq_refl eq_refl).
  reflexivity.
Defined.

(** ** Handlers *)

Lemma getBaseUrl_run (env : Session.Env) (new_URL : string -> Session.URL + string)
      (cfg : option Session.SapConfig) (c : Session.SapConfig) (ax : bool)
      (tok ck : option string) (lg : list Session.request) :
  Session.config_loads env cfg c ->
  Session.getBaseUrl env new_URL (Session.mk_state ax cfg tok ck lg)
  = (match new_URL (Session.cfg_url c) with
     | inl urlObj => Ok (Session.origin urlObj)
     | inr msg => Throw (Error ("Invalid URL in configuration: " ++ msg))
     end,
     Session.mk_state ax (Some c) tok ck lg).
Proof.
  intros Hc. unfold Session.getBaseUrl, Session.bind.
  rewrite (load_config_run env cfg c ax tok ck lg Hc).
  destruct (new_URL (Session.cfg_url c)); reflexivity.
Qed.

(** A call that needs no token fetch and is not recovered from: one
    request, and the client's result. *)
Lemma makeAdtRequest_run_once (env : Session.Env)
      (net : list Session.request -> Session.outcome)
      (u m : string) (t : Z) (d p : any) (cfg : option Session.SapConfig)
      (c : Session.SapConfig) (ax : bool) (tok ck : option string)
      (lg : list Session.request) :
  Session.config_loads env cfg c ->
  Session.mutating m = false \/ is_Some (Session.truthy_str tok) ->
  let main := Session.request_config u m t d p (Session.auth_of c)
                (Session.Build_session ax (Some c) tok ck) in
  Session.token_rejected (net (lg ++ [main])) = false ->
  Session.makeAdtRequest env net u m t d p (Session.mk_state ax cfg tok ck lg)
  = (Session.unrecovered (net (lg ++ [main])),
     Session.mk_state true (Some c) tok ck (lg ++ [main])).
Proof.
  intros Hc Hcase main Hrej.
  unfold Session.makeAdtRequest, Session.bind.
  rewrite (prepare_run_plain env net u m t d p cfg c ax tok ck lg Hc Hcase).
  cbv beta iota zeta.
  change {| Session.sess := Session.Build_session ax (Some c) tok ck; Session.log := lg |}
    with (Session.mk_state ax (Some c) tok ck lg).
  rewrite attempt_run. cbv zeta. fold main. rewrite Hrej. reflexivity.
Qed.

Section HandlerFacts.

Variable env : Session.Env.
Variable net : list Session.request -> Session.outcome.
Variable new_URL : string -> Session.URL + string.
Variables fullParse JSON_stringify : any -> result any.
Variable encodeURIComponent : any -> result string.
Variable mcp_message : string -> string.
Variable error_string : error -> string.

(** X15. A handler called without its required argument (absent, empty, or
    with no arguments at all) sends nothing and leaves the session as it is:
    it returns the error envelope of the invalid-parameters error, which
    [handleGetTableContents] wraps in its own message. *)
Theorem missing_argument_sends_nothing (args : any) (st : Session.state) :
  (Js.truthy (Js.get_opt args "query") = false ->
   Handlers.handleSearchObject env net new_URL fullParse JSON_stringify
     encodeURIComponent mcp_message args st
   = (Ok (Handlers.return_error (Error (mcp_message "Search query is required"))), st)) /\
  (Js.truthy (Js.get_opt args "package_name") = false ->
   Handlers.handleGetPackage env net new_URL fullParse JSON_stringify
     encodeURIComponent mcp_message args st
   = (Ok (Handlers.return_error (Error (mcp_message "Package name is required"))), st)) /\
  (Js.truthy (Js.get_opt args "table_name") = false ->
   Handlers.handleGetTableContents env net new_URL fullParse JSON_stringify
     encodeURIComponent mcp_message error_string args st
   = (Ok (Handlers.return_error (Error
       ("GetTableContents requires custom SAP service '/z_mcp_abap_adt/z_tablecontent/'. Original error: "
        ++ error_string (Error (mcp_message "Table name is required"))))), st)).
Proof.
  split; [|split]; intros H;
    unfold Handlers.handleSearchObject, Handlers.handleGetPackage,
      Handlers.handleGetTableContents, Session.try_catch;
    unfold Session.bind at 1; unfold Handlers.require_arg; rewrite H; reflexivity.
Qed.

(** X16. With a query, a configuration whose URL parses and a server that
    does not reject the token, [handleSearchObject] sends exactly one
    request: a GET without body or token on the search URL, which is rooted
    at the origin of the configured URL and asks for 100 results unless
    [maxResults] is given and truthy. A resolved response goes through
    [return_response] with the search transformer. A request that fails
    without a response (a timeout, a network error) gives the text
    "Error: undefined": the message of the failure is not reported. *)
Theorem handleSearchObject_outcomes
        (args : any) (st : Session.state) (c : Session.SapConfig)
        (urlObj : Session.URL) (encodedQuery : string) :
  Js.truthy (Js.get_opt args "query") = true ->
  encodeURIComponent (Js.get args "query") = Ok encodedQuery ->
  fst (Session.load_config env st) = Ok c ->
  new_URL (Session.cfg_url c) = inl urlObj ->
  let url := Handlers.search_url (Session.origin urlObj) encodedQuery
               (Js.or (Js.get args "maxResults") (VNum (Int 100))) in
  let main := Session.request_config url "GET" 30000 VUndef VUndef (Session.auth_of c)
                (Session.Build_session (Session.axiosInstance (Session.sess st)) (Some c)
                   (Session.csrfToken (Session.sess st))
                   (Session.cookies (Session.sess st))) in
  let run := Handlers.handleSearchObject env net new_URL fullParse JSON_stringify
               encodeURIComponent mcp_message args st in
  Session.token_rejected (net (Session.log st ++ [main])) = false ->
  Session.log (snd run) = Session.log st ++ [main] /\
  Session.csrf_header main = None /\ Session.body main = None /\
  (forall r,
     net (Session.log st ++ [main]) = Session.Resolved r ->
     exists envelope,
       Respond.return_response fullParse JSON_stringify env r
         (Some Handlers.search_transformer) = Ok envelope /\
       fst run = Ok envelope) /\
  (forall msg,
     net (Session.log st ++ [main]) = Session.Rejected msg None ->
     fst run = Ok {| Respond.isError := true;
                     Respond.content :=
                       [ {| Respond.type := "text";
                            Respond.text := VStr "Error: undefined" |} ] |}).
Proof.
  intros Hq Henc Hc Hurl url main run Hrej.
  apply load_config_iff in Hc.
  destruct st as [[ax cfg tok ck] lg].
  cbn [Session.sess Session.log Session.axiosInstance Session.csrfToken Session.cookies
       Session.config] in *.
  assert (Hrun : run = (match Session.unrecovered (net (lg ++ [main])) with
                        | Ok r => match Respond.return_response fullParse JSON_stringify
                                          env r (Some Handlers.search_transformer) with
                                  | Ok envelope => Ok envelope
                                  | Throw e => Ok (Handlers.return_error e)
                                  end
                        | Throw e => Ok (Handlers.return_error e)
                        end,
                        Session.mk_state true (Some c) tok ck (lg ++ [main]))).
  { subst run. unfold Handlers.handleSearchObject, Session.try_catch.
    unfold Session.bind at 1. unfold Handlers.require_arg. rewrite Hq.
    unfold Session.ret at 1. unfold Session.bind at 1. unfold Handlers.lift at 1.
    rewrite Henc. unfold Session.bind at 1.
    fold (Session.mk_state ax cfg tok ck lg).
    rewrite (getBaseUrl_run env new_URL cfg c ax tok ck lg Hc), Hurl.
    unfold Session.bind at 1. fold url.
    rewrite (makeAdtRequest_run_once env net _ "GET" 30000 VUndef VUndef (Some c) c
               ax tok ck lg eq_refl (or_introl eq_refl) Hrej).
    fold main.
    destruct (Session.unrecovered (net (lg ++ [main]))) as [r|e]; [|reflexivity].
    unfold Handlers.lift.
    destruct (Respond.return_response _ _ _ _ _); reflexivity. }
  rewrite Hrun. cbn [fst snd Session.log Session.mk_state].
  split; [reflexivity|]. split; [reflexivity|]. split; [reflexivity|]. split.
  - intros r Hr. rewrite Hr. cbn [Session.unrecovered Session.settle].
    destruct (Respond.return_response fullParse JSON_stringify env r
                (Some Handlers.search_transformer)) as [envelope|e] eqn:E.
    + eauto.
    + exfalso. unfold Respond.return_response in E.
      destruct (Respond.returnRawXml env && _); [discriminate|].
      unfold rcatch in E. destruct (rbind _ _); discriminate.
  - intros msg Hr. rewrite Hr. reflexivity.
Qed.

(** X17. [handleGetTableContents] has no transformer: with a table name, a
    configuration whose URL parses and a request that resolves, the text of
    its envelope is the response body, whatever [RETURN_RAW_XML] says and
    whatever the parser would make of it. *)
Theorem handleGetTableContents_passes_through
        (args : any) (st : Session.state) (c : Session.SapConfig)
        (urlObj : Session.URL) (encodedTableName : string) (r : response) :
  Js.truthy (Js.get_opt args "table_name") = true ->
  encodeURIComponent (Js.get args "table_name") = Ok encodedTableName ->
  fst (Session.load_config env st) = Ok c ->
  new_URL (Session.cfg_url c) = inl urlObj ->
  let url := Handlers.table_url (Session.origin urlObj) encodedTableName
               (Js.or (Js.get args "max_rows") (VNum (Int 100))) in
  let main := Session.request_config url "GET" 30000 VUndef VUndef (Session.auth_of c)
                (Session.Build_session (Session.axiosInstance (Session.sess st)) (Some c)
                   (Session.csrfToken (Session.sess st))
                   (Session.cookies (Session.sess st))) in
  net (Session.log st ++ [main]) = Session.Resolved r ->
  fst (Handlers.handleGetTableContents env net new_URL fullParse JSON_stringify
         encodeURIComponent mcp_message error_string args st)
  = Ok {| Respond.isError := false;
          Respond.content :=
            [ {| Respond.type := "text"; Respond.text := data r |} ] |}.
Proof.
  intros Hq Henc Hc Hurl url main Hr.
  apply load_config_iff in Hc.
  destruct st as [[ax cfg tok ck] lg].
  cbn [Session.sess Session.log Session.axiosInstance Session.csrfToken Session.cookies
       Session.config] in *.
  unfold Handlers.handleGetTableContents, Session.try_catch.
  unfold Session.bind at 1. unfold Handlers.require_arg. rewrite Hq.
  unfold Session.ret at 1. unfold Session.bind at 1. unfold Handlers.lift at 1.
  rewrite Henc. unfold Session.bind at 1.
  fold (Session.mk_state ax cfg tok ck lg).
  rewrite (getBaseUrl_run env new_URL cfg c ax tok ck lg Hc), Hurl.
  unfold Session.bind at 1. fold url.
  assert (Hrej : Session.token_rejected (net (lg ++ [main])) = false)
    by (rewrite Hr; reflexivity).
  rewrite (makeAdtRequest_run_once env net _ "GET" 30000 VUndef VUndef (Some c) c
             ax tok ck lg eq_refl (or_introl eq_refl) Hrej).
  fold main. rewrite Hr. cbn [Session.unrecovered Session.settle].
  unfold Handlers.lift, Respond.return_response.
  rewrite andb_false_r. reflexivity.
Qed.

(** X18. [handleGetPackage] posts, so without a cached token its first
    request is a token fetch, sent to the node structure URL itself and not
    to a discovery endpoint. When the reply carries no token the POST is
    never sent, and the envelope reports the fixed message, not the reason
    the fetch failed. *)
Theorem handleGetPackage_without_token
        (args : any) (st : Session.state) (c : Session.SapConfig)
        (urlObj : Session.URL) (encodedPackageName : string) :
  Js.truthy (Js.get_opt args "package_name") = true ->
  encodeURIComponent (Js.get args "package_name") = Ok encodedPackageName ->
  fst (Session.load_config env st) = Ok c ->
  new_URL (Session.cfg_url c) = inl urlObj ->
  Session.truthy_str (Session.csrfToken (Session.sess st)) = None ->
  let url := (Session.origin urlObj ++ "/sap/bc/adt/repository/nodestructure")%string in
  let fetch := Session.fetch_request url (Session.auth_of c) in
  let run := Handlers.handleGetPackage env net new_URL fullParse JSON_stringify
               encodeURIComponent mcp_message args st in
  (exists rest, Session.log (snd run) = Session.log st ++ fetch :: rest) /\
  (Session.token_of (net (Session.log st ++ [fetch])) = None ->
   Session.log (snd run) = Session.log st ++ [fetch] /\
   fst run = Ok (Handlers.return_error (Error
     "CSRF token is required for POST/PUT requests but could not be fetched"))).
Proof.
  intros Hq Henc Hc Hurl Htok url fetch run.
  apply load_config_iff in Hc.
  destruct st as [[ax cfg tok ck] lg].
  cbn [Session.sess Session.log Session.axiosInstance Session.csrfToken Session.cookies
       Session.config] in *.
  subst run.
  remember (Handlers.handleGetPackage env net new_URL fullParse JSON_stringify
              encodeURIComponent mcp_message args
              {| Session.sess := Session.Build_session ax cfg tok ck; Session.log := lg |})
    as R eqn:HR.
  unfold Handlers.handleGetPackage, Session.try_catch in HR.
  unfold Session.bind at 1 in HR. unfold Handlers.require_arg in HR. rewrite Hq in HR.
  unfold Session.ret at 1 in HR. unfold Session.bind at 1 in HR.
  fold (Session.mk_state ax cfg tok ck lg) in HR.
  rewrite (getBaseUrl_run env new_URL cfg c ax tok ck lg Hc), Hurl in HR.
  unfold Session.bind at 1 in HR. unfold Handlers.lift at 1 in HR. rewrite Henc in HR.
  unfold Session.bind at 1 in HR. fold url in HR.
  unfold Session.makeAdtRequest in HR. unfold Session.bind at 1 in HR.
  rewrite (prepare_run_bootstrap env net url "POST" 30000 VUndef _ (Some c) c ax tok ck lg
             eq_refl eq_refl Htok) in HR.
  cbv zeta in HR. fold fetch in HR.
  destruct (Session.token_of (net (lg ++ [fetch]))) as [token|] eqn:Etok.
  - split; [|discriminate].
    match type of HR with
    | context [Session.attempt env net ?rq _] =>
        destruct (attempt_log env net rq c true (Some token)
                    (Session.captured_cookies (net (lg ++ [fetch])) ck) (lg ++ [fetch]))
          as (rest & Hlog & _);
        exists (rq :: rest)
    end.
    unfold Session.mk_state in Hlog.
    match type of HR with
    | context [Session.attempt ?e ?n ?rq ?s] =>
        destruct (Session.attempt e n rq s) as [r st']
    end.
    cbn [snd Session.log] in Hlog. subst R.
    destruct r as [r|e]; [unfold Handlers.lift; destruct (Respond.return_response _ _ _ _ _)|];
      cbn [snd Session.ret]; rewrite Hlog, <- app_assoc; reflexivity.
  - subst R. split; [exists []; reflexivity|]. intros _. split; reflexivity.
Qed.

End HandlerFacts.

Lemma missing_argument_sends_nothing_witness :
  Handlers.handleSearchObject Examples.json_env Examples2.unreachable Examples.sample_URL
    Examples.strict_parse Examples.quote Examples2.encode_sample Examples2.invalid_params
    (VObj [("query", VStr EmptyString)]) Examples.fresh
  = (Ok (Handlers.return_error (Error "MCP error -32602: Search query is required")),
     Examples.fresh).
Proof.
  exact (proj1 (missing_argument_sends_nothing Examples.json_env Examples2.unreachable
                  Examples.sample_URL Examples.strict_parse Examples.quote
                  Examples2.encode_sample Examples2.invalid_params Examples2.show_error
                  (VObj [("query", VStr EmptyString)]) Examples.fresh) eq_refl).
Defined.

Lemma handleSearchObject_outcomes_witness :
  fst (Handlers.handleSearchObject Examples.json_env Examples2.unreachable
         Examples.sample_URL Examples.strict_parse Examples.quote Examples2.encode_sample
         Examples2.invalid_params (VObj [("query", VStr "Z DEMO")]) Examples.fresh)
  = Ok {| Respond.isError := true;
          Respond.content :=
            [ {| Respond.type := "text"; Respond.text := VStr "Error: undefined" |} ] |}.
Proof.
  destruct (handleSearchObject_outcomes Examples.json_env Examples2.unreachable
              Examples.sample_URL Examples.strict_parse Examples.quote
              Examples2.encode_sample Examples2.invalid_params
              (VObj [("query", VStr "Z DEMO")]) Examples.fresh Examples.sample_config
              {| Session.origin := "https://sap.example.com:44300";
                 Session.pathname := "/sap/bc/adt";
                 Session.search := "?x=1";
                 Session.hash := "#top" |}
              "Z%20DEMO" eq_refl eq_refl eq_refl eq_refl eq_refl)
    as (_ & _ & _ & _ & H).
  exact (H "timeout of 30000ms exceeded" eq_refl).
Defined.

Lemma handleGetTableContents_passes_through_witness :
  fst (Handlers.handleGetTableContents Examples.raw_env Examples2.rows
         Examples.sample_URL Examples.strict_parse Examples.quote Examples2.encode_sample
         Examples2.invalid_params Examples2.show_error
         (VObj [("table_name", VStr "MARA"); ("max_rows", VNum (Int 0))]) Examples.fresh)
  = Ok {| Respond.isError := false;
          Respond.content :=
            [ {| Respond.type := "text"; Respond.text := VStr "[{'MATNR':'1'}]" |} ] |}.
Proof.
  exact (handleGetTableContents_passes_through Examples.raw_env Examples2.rows
           Examples.sample_URL Examples.strict_parse Examples.quote
           Examples2.encode_sample Examples2.invalid_params Examples2.show_error
           (VObj [("table_name", VStr "MARA"); ("max_rows", VNum (Int 0))]) Examples.fresh
           Examples.sample_config
           {| Session.origin := "https://sap.example.com:44300";
              Session.pathname := "/sap/bc/adt";
              Session.search := "?x=1";
              Session.hash := "#top" |}
           "MARA" (Examples.reply 200 None None (VStr "[{'MATNR':'1'}]"))
           eq_refl eq_refl eq_refl eq_refl eq_refl).
Defined.

Lemma handleGetPackage_without_token_witness :
  fst (Handlers.handleGetPackage Examples.json_env Examples2.unreachable
         Examples.sample_URL Examples.strict_parse Examples.quote Examples2.encode_sample
         Examples2.invalid_params (VObj [("package_name", VStr "Z DEMO")]) Examples.fresh)
  = Ok (Handlers.return_error (Error
      "CSRF token is required for POST/PUT requests but could not be fetched")).
Proof.
  destruct (handleGetPackage_without_token Examples.json_env Examples2.unreachable
              Examples.sample_URL Examples.strict_parse Examples.quote
              Examples2.encode_sample Examples2.invalid_params
              (VObj [("package_name", VStr "Z DEMO")]) Examples.fresh
              Examples.sample_config
              {| Session.origin := "https://sap.example.com:44300";
                 Session.pathname := "/sap/bc/adt";
                 Session.search := "?x=1";
                 Session.hash := "#top" |}
              "Z%20DEMO" eq_refl eq_refl eq_refl eq_refl eq_refl)
    as (_ & H).
  exact (proj2 (H eq_refl)).
Defined.

(** ** The element tree *)

Lemma dense_elem (x : any) (l : list any) :
  Ddic.dense (VArr l) = true -> In x l -> Js.nullish x = false /\ Ddic.dense x = true.
Proof.
  cbn [Ddic.dense]. intros H Hx.
  rewrite forallb_forall in H. specialize (H x Hx).
  apply andb_prop in H as [H1 H2]. apply negb_true_iff in H1. auto.
Qed.

Lemma dense_assoc (k : string) (o : list (string * any)) (x : any) :
  Ddic.dense (VObj o) = true -> Js.assoc k o = Some x -> Ddic.dense x = true.
Proof.
  cbn [Ddic.dense]. induction o as [|[k' v] o IH]; [discriminate|].
  cbn [forallb Js.assoc snd]. intros H. apply andb_prop in H as [H1 H2].
  destruct (String.eqb k k'); [intros [= <-]; exact H1 | auto].
Qed.

Lemma dense_get (v : any) (k : string) :
  Ddic.dense v = true -> Ddic.dense (Js.get v k) = true.
Proof.
  intros H. destruct v as [| | | | |l|o]; try reflexivity; cbn [Js.get].
  - destruct (String.eqb k "length"); [reflexivity|].
    destruct (Js.array_index k) as [i|]; [|reflexivity].
    destruct (nth_in_or_default i l VUndef) as [Hx|Hx].
    + exact (proj2 (dense_elem _ _ H Hx)).
    + rewrite Hx. reflexivity.
  - destruct (Js.assoc k o) as [x|] eqn:E; [|reflexivity].
    exact (dense_assoc k o x H E).
Qed.

Lemma dense_walk (path : list string) (v current : any) :
  Ddic.dense v = true -> Xml.walk v path = Some current -> Ddic.dense current = true.
Proof.
  revert v. induction path as [|key rest IH]; intros v H; cbn [Xml.walk].
  - intros [= <-]. exact H.
  - destruct (Js.truthy v && Js.is_object v && Js.has_property v key); [|discriminate].
    apply IH, dense_get, H.
Qed.

Lemma dense_xmlArray (v x : any) (path : list string) :
  Ddic.dense v = true -> In x (Xml.xmlArray v path) ->
  Js.nullish x = false /\ Ddic.dense x = true.
Proof.
  intros H. unfold Xml.xmlArray, Xml.xmlNode.
  assert (Hn : Ddic.dense match Xml.walk v path with
                          | Some current => Js.or (Js.get_opt current "_text") current
                          | None => VUndef
                          end = true).
  { destruct (Xml.walk v path) as [current|] eqn:E; [|reflexivity].
    pose proof (dense_walk path v current H E) as Hc.
    unfold Js.or, Js.get_opt. destruct (Js.nullish current); [exact Hc|].
    destruct (Js.truthy (Js.get current "_text")); [apply dense_get|]; exact Hc. }
  destruct (match Xml.walk v path with
            | Some current => Js.or (Js.get_opt current "_text") current
            | None => VUndef
            end) as [| |b|n|s|l|o] eqn:En;
    [ intros [] | intros [] | | | | | ];
    (destruct (negb (Js.truthy _)); [intros []|]).
  - intros [<-|[]]. auto.
  - intros [<-|[]]. auto.
  - intros [<-|[]]. auto.
  - intros Hx. exact (dense_elem x l Hn Hx).
  - intros [<-|[]]. auto.
Qed.

Lemma reduce_returns (entries : list any) (prev : list (string * any)) :
  (forall x, In x entries -> Js.nullish x = false) ->
  exists converted, Cds.reduce entries prev = Ok converted.
Proof.
  revert prev. induction entries as [|cur rest IH]; intros prev H; cbn [Cds.reduce].
  - eauto.
  - unfold Cds.add_entry, Transform.member.
    rewrite (H cur (or_introl eq_refl)). cbn [rbind].
    apply IH. intros x Hx. apply H. right. exact Hx.
Qed.

Lemma parseDDICProps_returns (v : any) :
  Ddic.dense v = true -> exists properties, Cds.parseDDICProps v = Ok properties.
Proof.
  intros H. unfold Cds.parseDDICProps.
  destruct (reduce_returns (Xml.xmlArray v ["abapsource:entry"]) [])
    as (converted & ->); [|cbn [rbind]; eauto].
  intros x Hx. exact (proj1 (dense_xmlArray v x _ H Hx)).
Qed.

Lemma map_in_returns {A B : Type} (l : list A) (f : forall x, In x l -> result B) :
  (forall x (H : In x l), exists y, f x H = Ok y) ->
  exists ys, Ddic.map_in l f = Ok ys /\ length ys = length l.
Proof.
  induction l as [|x rest IH]; intros H; cbn [Ddic.map_in].
  - exists []. auto.
  - destruct (H x (or_introl eq_refl)) as (y & ->). cbn [rbind].
    destruct (IH (fun x' H' => f x' (or_intror H'))) as (ys & -> & Hlen).
    + intros x' H'. apply H.
    + cbn [rbind]. exists (y :: ys). cbn [length]. auto.
Qed.

(** On a tree without [null] or [undefined] array elements,
    [parseDdicElement] returns for every element that is there, with one
    child for each element of the list [xmlArray] finds. *)
Lemma parseDdicElement_returns (raw : any) :
  Ddic.dense raw = true -> Js.nullish raw = false ->
  exists element,
    Ddic.parseDdicElement raw = Ok element /\
    length (Ddic.children element)
    = length (Xml.xmlArray raw ["abapsource:elementInfo"]).
Proof.
  apply (Ddic.parseDdicElement_elim
           (fun raw res =>
              Ddic.dense raw = true -> Js.nullish raw = false ->
              exists element,
                res = Ok element /\
                length (Ddic.children element)
                = length (Xml.xmlArray raw ["abapsource:elementInfo"]))).
  clear raw. intros raw IH Hd Hn.
  unfold Transform.member. rewrite Hn. cbn [rbind]. cbv zeta.
  destruct (parseDDICProps_returns (Js.get raw "abapsource:properties")
              (dense_get _ _ Hd)) as (properties & ->).
  cbn [rbind].
  destruct (map_in_returns (Xml.xmlArray raw ["abapsource:elementInfo"])
              (fun x _ => Ddic.parseDdicElement x)) as (ys & -> & Hlen).
  + intros x Hx.
    destruct (dense_xmlArray raw x _ Hd Hx) as (Hxn & Hxd).
    destruct (IH VUndef properties x Hx Hxd Hxn) as (e & He & _). eauto.
  + cbn [rbind]. eexists. split; [reflexivity|]. exact Hlen.
Qed.

(** X19. On a tree as the XML parser builds it, without [null] or
    [undefined] array elements and with strings as texts, [parseDdicElement]
    throws exactly when the element it is given is missing. Otherwise it
    returns an element which has no child when it holds no
    [abapsource:elementInfo], one child when it holds a single nested
    element, and as many children as there are occurrences when the nested
    element is repeated. *)
Theorem parseDdicElement_fails_only_on_missing_element (raw : any) :
  Ddic.dense raw = true ->
  Xml.text_leaves raw = true ->
  (Js.nullish raw = true ->
   Ddic.parseDdicElement raw
   = Throw (Error ("Cannot read properties of " ++ Text.to_string raw ++
                   " (reading '_attributes')"))) /\
  (Js.nullish raw = false ->
   exists element,
     Ddic.parseDdicElement raw = Ok element /\
     (Js.has_property raw "abapsource:elementInfo" = false ->
      Ddic.children element = []) /\
     (forall o,
        Js.get raw "abapsource:elementInfo" = VObj o ->
        length (Ddic.children element) = 1) /\
     (forall l,
        Js.get raw "abapsource:elementInfo" = VArr l ->
        length (Ddic.children element) = length l)).
Proof.
  intros Hd Hwf. split.
  - intros Hn. rewrite Ddic.parseDdicElement_equation_1.
    unfold Transform.member. rewrite Hn. reflexivity.
  - intros Hn.
    destruct (parseDdicElement_returns raw Hd Hn) as (element & -> & Hlen).
    exists element. split; [reflexivity|].
    assert (Hwalk : forall v,
               Js.get raw "abapsource:elementInfo" = v ->
               Js.is_object v = true -> Js.truthy v = true ->
               Xml.walk raw ["abapsource:elementInfo"] = Some v).
    { intros v Hv Ho Ht. cbn [Xml.walk].
      destruct raw as [| | | | |items|props]; cbn [Js.get] in Hv;
        try (subst v; simpl in Ho; discriminate Ho).
      cbn [Js.truthy Js.is_object Js.has_property Js.get andb].
      destruct (Js.assoc "abapsource:elementInfo" props) as [x|];
        [rewrite Hv; reflexivity | subst v; simpl in Ho; discriminate Ho]. }
    split; [|split].
    + intros Hp. revert Hlen. unfold Xml.xmlArray, Xml.xmlNode. cbn [Xml.walk].
      rewrite Hp, !andb_false_r. cbn [Js.truthy negb length].
      destruct (Ddic.children element); [reflexivity|discriminate].
    + intros o Ho. rewrite Hlen. unfold Xml.xmlArray, Xml.xmlNode.
      rewrite (Hwalk (VObj o) Ho eq_refl eq_refl).
      assert (Hleaf : Xml.text_leaves (VObj o) = true)
        by (rewrite <- Ho; apply get_text_leaves, Hwf).
      destruct (text_or_node o Hleaf) as [-> | (s & Hne & _ & ->)].
      * reflexivity.
      * apply String.eqb_neq in Hne. cbn [Js.truthy]. rewrite Hne. reflexivity.
    + intros l Hl. rewrite Hlen. unfold Xml.xmlArray, Xml.xmlNode.
      rewrite (Hwalk (VArr l) Hl eq_refl eq_refl). reflexivity.
Qed.

Lemma parseDdicElement_fails_only_on_missing_element_witness :
  exists element,
    Ddic.parseDdicElement Examples2.view = Ok element /\
    length (Ddic.children element) = 1.
Proof.
  destruct (proj2 (parseDdicElement_fails_only_on_missing_element Examples2.view
                     eq_refl eq_refl) eq_refl) as (element & He & _ & Hone & _).
  exists element. split; [exact He|].
  exact (Hone _ eq_refl).
Defined.

(** X20. [formatQS] leaves out exactly the parameters whose value is
    [null], [undefined] or an empty array: a pair is in the query when its
    key has a value that is neither [null] nor [undefined] and the text is
    that value's, or when the value is an array and the text is one of its
    elements' (a [null] element included, as the text "null"). *)
Theorem formatQS_parameters (params : list (string * any)) (k s : string) :
  In (k, s) (Ddic.formatQS_pairs params) <->
  exists v,
    In (k, v) params /\
    ((Js.isArray v = false /\ Js.nullish v = false /\ s = Text.to_string v) \/
     (exists l x, v = VArr l /\ In x l /\ s = Text.to_string x)).
Proof.
  unfold Ddic.formatQS_pairs. rewrite in_flat_map. split.
  - intros ([k' v] & Hin & Hp). cbn [fst snd] in Hp.
    destruct v as [| |b|n|t|l|o]; cbn [In] in Hp;
      try (destruct Hp as [[= <- <-]|[]]; eexists; split; [exact Hin|left; auto]);
      try (destruct Hp).
    apply in_map_iff in Hp as (x & [= <- <-] & Hx).
    exists (VArr l). split; [exact Hin|]. right. eauto.
  - intros (v & Hin & [(Ha & Hn & ->)|(l & x & -> & Hx & ->)]).
    + exists (k, v). split; [exact Hin|]. cbn [fst snd].
      destruct v as [| |b|n|t|l|o]; try discriminate; left; reflexivity.
    + exists (k, VArr l). split; [exact Hin|]. cbn [fst snd].
      apply in_map_iff. eauto.
Qed.

Section CdsHandlerFacts.

Variable env : Session.Env.
Variable net : list Session.request -> Session.outcome.
Variable new_URL : string -> Session.URL + string.
Variables fullParse JSON_stringify : any -> result any.
Variable URLSearchParams_toString : list (string * string) -> string.
Variable mcp_message : string -> string.

(** X21. [handleGetCdsView] does not go through [return_response]: whatever
    [RETURN_RAW_XML] says, a resolved response is parsed and the text of the
    envelope is the serialized element tree. A body that does not parse, or
    a document without the [abapsource:elementInfo] root, gives an error
    envelope and not the raw body. *)
Theorem handleGetCdsView_outcomes
        (args : any) (st : Session.state) (c : Session.SapConfig)
        (urlObj : Session.URL) (r : response) :
  Js.truthy (Js.get_opt args "path") = true ->
  fst (Session.load_config env st) = Ok c ->
  new_URL (Session.cfg_url c) = inl urlObj ->
  let url := (Session.origin urlObj ++ "/sap/bc/adt/ddic/ddl/elementinfo?" ++
              URLSearchParams_toString (Ddic.formatQS_pairs (Ddic.cds_query args)))%string in
  let main := Session.request_config url "GET" 30000 VUndef VUndef (Session.auth_of c)
                (Session.Build_session (Session.axiosInstance (Session.sess st)) (Some c)
                   (Session.csrfToken (Session.sess st))
                   (Session.cookies (Session.sess st))) in
  let run := Ddic.handleGetCdsView env net new_URL fullParse JSON_stringify
               URLSearchParams_toString mcp_message args st in
  net (Session.log st ++ [main]) = Session.Resolved r ->
  (forall e, fullParse (data r) = Throw e -> fst run = Ok (Handlers.return_error e)) /\
  (forall raw,
     fullParse (data r) = Ok raw -> Js.nullish raw = false ->
     Js.nullish (Js.get raw "abapsource:elementInfo") = true ->
     fst run = Ok (Handlers.return_error (Error
       ("Cannot read properties of "
        ++ Text.to_string (Js.get raw "abapsource:elementInfo")
        ++ " (reading '_attributes')")))) /\
  (forall raw element text,
     fullParse (data r) = Ok raw -> Js.nullish raw = false ->
     Ddic.parseDdicElement (Js.get raw "abapsource:elementInfo") = Ok element ->
     JSON_stringify (Ddic.element_value element) = Ok text ->
     fst run = Ok {| Respond.isError := false;
                     Respond.content :=
                       [ {| Respond.type := "text"; Respond.text := text |} ] |}).
Proof.
  intros Hq Hc Hurl url main run Hr.
  apply load_config_iff in Hc.
  destruct st as [[ax cfg tok ck] lg].
  cbn [Session.sess Session.log Session.axiosInstance Session.csrfToken Session.cookies
       Session.config] in *.
  assert (Hrej : Session.token_rejected (net (lg ++ [main])) = false)
    by (rewrite Hr; reflexivity).
  assert (Hrun : fst run
                 = match (raw <- fullParse (data r) ;;
                          root <- Transform.member raw "abapsource:elementInfo" ;;
                          element <- Ddic.parseDdicElement root ;;
                          JSON_stringify (Ddic.element_value element))%result with
                   | Ok text =>
                       Ok {| Respond.isError := false;
                             Respond.content :=
                               [ {| Respond.type := "text"; Respond.text := text |} ] |}
                   | Throw e => Ok (Handlers.return_error e)
                   end).
  { subst run. unfold Ddic.handleGetCdsView, Session.try_catch.
    unfold Session.bind at 1. unfold Handlers.require_arg. rewrite Hq.
    unfold Session.ret at 1. cbv zeta. unfold Session.bind at 1.
    fold (Session.mk_state ax cfg tok ck lg).
    rewrite (getBaseUrl_run env new_URL cfg c ax tok ck lg Hc), Hurl.
    unfold Session.bind at 1. unfold Ddic.formatQS. fold url.
    rewrite (makeAdtRequest_run_once env net url "GET" 30000 VUndef VUndef (Some c) c
               ax tok ck lg eq_refl (or_introl eq_refl) Hrej).
    fold main. rewrite Hr. cbn [Session.unrecovered Session.settle].
    unfold Session.bind, Handlers.lift, Session.ret.
    destruct (fullParse (data r)) as [raw|e]; [|reflexivity]. cbn [rbind].
    destruct (Transform.member raw "abapsource:elementInfo") as [root|e]; [|reflexivity].
    cbn [rbind].
    destruct (Ddic.parseDdicElement root) as [element|e]; [|reflexivity]. cbn [rbind].
    destruct (JSON_stringify (Ddic.element_value element)); reflexivity. }
  rewrite Hrun. split; [|split].
  - intros e ->. reflexivity.
  - intros raw -> Hn Hroot. cbn [rbind]. unfold Transform.member at 1. rewrite Hn.
    cbn [rbind]. rewrite Ddic.parseDdicElement_equation_1.
    unfold Transform.member. rewrite Hroot. reflexivity.
  - intros raw element text -> Hn He Ht. cbn [rbind]. unfold Transform.member. rewrite Hn.
    cbn [rbind]. rewrite He. cbn [rbind]. rewrite Ht. reflexivity.
Qed.

End CdsHandlerFacts.

Lemma formatQS_parameters_witness :
  In ("getExtensionViews", "true")
     (Ddic.formatQS_pairs (Ddic.cds_query (VObj [("path", VStr "ZV_DEMO")]))).
Proof.
  apply (proj2 (formatQS_parameters (Ddic.cds_query (VObj [("path", VStr "ZV_DEMO")]))
                  "getExtensionViews" "true")).
  exists (VBool true). split; [right; left; reflexivity|]. left. auto.
Defined.

Lemma handleGetCdsView_outcomes_witness :
  fst (Ddic.handleGetCdsView Examples.raw_env Examples2.rows Examples.sample_URL
         Examples.strict_parse Examples.quote Examples2.plain_query
         Examples2.invalid_params (VObj [("path", VStr "ZV_DEMO")]) Examples.fresh)
  = Ok (Handlers.return_error (Error "Invalid XML")).
Proof.
  destruct (handleGetCdsView_outcomes Examples.raw_env Examples2.rows Examples.sample_URL
              Examples.strict_parse Examples.quote Examples2.plain_query
              Examples2.invalid_params (VObj [("path", VStr "ZV_DEMO")]) Examples.fresh
              Examples.sample_config
              {| Session.origin := "https://sap.example.com:44300";
                 Session.pathname := "/sap/bc/adt";
                 Session.search := "?x=1";
                 Session.hash := "#top" |}
              (Examples.reply 200 None None (VStr "[{'MATNR':'1'}]"))
              eq_refl eq_refl eq_refl eq_refl)
    as (H & _).
  exact (H (Error "Invalid XML") eq_refl).
Defined.
